(** * publish.py: the release build script, embedded and verified

    The script reads a release manifest, loads every submission's
    metadata, compiles each source with an external compiler, renames the
    PDF to the submission's permalink, renders the HTML pages and copies
    the assets.  It is embedded below as a state-and-exception monad over
    a world made of a file system, a store of metadata records and a
    trace of the effects performed.  The file system is a tree without
    symbolic links; a path is resolved by walking it, component by
    component, through directories that exist.

    What lies outside [publish.py] is a parameter of the development:
    the external compiler, the YAML parser, the template engine together
    with the templates directory, and Python's [repr] of containers. *)

From Stdlib Require Import String Ascii ZArith List Lia DecimalString.
From stdpp Require Import base tactics option list strings.
Import ListNotations.

Local Open Scope string_scope.
Local Open Scope list_scope.
Local Set Warnings "-register-all".

(** Concatenations of string literals are to be computed. *)
#[local] Arguments String.append !_ _ / : simpl nomatch.

(** ** Python strings *)

Definition nl : string := String (ascii_of_nat 10) "".

(** [s.startswith(pre)] *)
Definition startswith (s pre : string) : bool := String.prefix pre s.

(** [s.endswith(suf)]: some suffix of [s] is [suf]. *)
Fixpoint endswith (s suf : string) : bool :=
  if String.eqb s suf then true
  else match s with
       | EmptyString => false
       | String _ r => endswith r suf
       end.

(** [s.split('/')] *)
Fixpoint split_slash (s : string) : list string :=
  match s with
  | EmptyString => [EmptyString]
  | String c r =>
      if Ascii.eqb c "/" then EmptyString :: split_slash r
      else match split_slash r with
           | h :: t => String c h :: t
           | [] => [String c EmptyString]
           end
  end.

Fixpoint has_slash (s : string) : bool :=
  match s with
  | EmptyString => false
  | String c r => Ascii.eqb c "/" || has_slash r
  end.

(** ** os.path *)

(** [os.path.join(a, b)] of posixpath: an absolute [b] discards [a]; no
    separator is added after an empty [a] or one that ends in a slash. *)
Definition path_join (a b : string) : string :=
  if startswith b "/" then b
  else if String.eqb a "" || endswith a "/" then a +:+ b
  else a +:+ "/" +:+ b.

(** [os.path.basename(p)]: what follows the last slash. *)
Definition basename (p : string) : string := List.last (split_slash p) "".

(** The last dot of a name splits it in two; [None] without a dot. *)
Fixpoint rsplit_dot (s : string) : option (string * string) :=
  match s with
  | EmptyString => None
  | String c r =>
      match rsplit_dot r with
      | Some (a, e) => Some (String c a, e)
      | None => if Ascii.eqb c "." then Some (EmptyString, s) else None
      end
  end.

Fixpoint all_dots (s : string) : bool :=
  match s with
  | EmptyString => true
  | String c r => Ascii.eqb c "." && all_dots r
  end.

(** [os.path.splitext(name)] on a name without separator, which is how
    the script calls it (on a basename): the extension starts at the last
    dot, unless only dots come before it. *)
Definition splitext (name : string) : string * string :=
  match rsplit_dot name with
  | Some (a, e) => if all_dots a then (name, "") else (a, e)
  | None => (name, "")
  end.

(** ** Python values, as [yaml.safe_load] builds them *)

Inductive pyval :=
| PNone
| PBool (b : bool)
| PInt (z : Z)
| PStr (s : string)
| PList (l : list pyval)
| PDict (d : list (string * pyval)).

(** A dict is an association list in insertion order, mapping keys to
    values. *)
Definition pydict := list (string * pyval).

Fixpoint dict_get {V : Type} (k : string) (d : list (string * V)) : option V :=
  match d with
  | [] => None
  | (k', v) :: d' => if String.eqb k k' then Some v else dict_get k d'
  end.

(** [d[k] = v]: an existing key keeps its place, a new one goes last. *)
Fixpoint dict_set {V : Type} (k : string) (v : V) (d : list (string * V))
  : list (string * V) :=
  match d with
  | [] => [(k, v)]
  | (k', v') :: d' =>
      if String.eqb k k' then (k, v) :: d' else (k', v') :: dict_set k v d'
  end.

(** Without the entries under [k]. *)
Definition dict_remove {V : Type} (k : string) (d : list (string * V))
  : list (string * V) :=
  List.filter (fun e => negb (String.eqb k (fst e))) d.

Definition Z_to_string (z : Z) : string := NilZero.string_of_int (Z.to_int z).

Section PyStr.
(** [repr] of a list or dict is Python's own business. *)
Variable py_repr : pyval -> string.

(** [str(v)], which is also what an f-string field [{v}] expands to. *)
Definition py_str (v : pyval) : string :=
  match v with
  | PNone => "None"
  | PBool true => "True"
  | PBool false => "False"
  | PInt z => Z_to_string z
  | PStr s => s
  | PList _ | PDict _ => py_repr v
  end.
End PyStr.

(** ** The file system *)

Inductive node :=
| File (content : string)
| Dir (entries : list (string * node)).

(** A resolved path: the names from the root down. *)
Definition path := list string.

Fixpoint fs_lookup (p : path) (n : node) : option node :=
  match p with
  | [] => Some n
  | c :: p' =>
      match n with
      | Dir es =>
          match dict_get c es with
          | Some m => fs_lookup p' m
          | None => None
          end
      | File _ => None
      end
  end.

(** Rewrite the entries of the directory at [d]; [None] when [d] is not
    a directory or [g] refuses. *)
Fixpoint fs_modify (g : list (string * node) -> option (list (string * node)))
  (d : path) (n : node) : option node :=
  match n with
  | File _ => None
  | Dir es =>
      match d with
      | [] => match g es with Some es' => Some (Dir es') | None => None end
      | c :: d' =>
          match dict_get c es with
          | Some m =>
              match fs_modify g d' m with
              | Some m' => Some (Dir (dict_set c m' es))
              | None => None
              end
          | None => None
          end
      end
  end.

(** A path splits into its directory and its last name. *)
Fixpoint split_last (p : path) : option (path * string) :=
  match p with
  | [] => None
  | [c] => Some ([], c)
  | c :: p' =>
      match split_last p' with
      | Some (d, x) => Some (c :: d, x)
      | None => None
      end
  end.

(** The lexical form of a path: empty and [.] components vanish, [..]
    drops the component before it.  This is where a walk along the path
    ends when the walk gets through; whether it gets through is the
    business of [walk] below. *)
Fixpoint normalize (acc : list string) (cs : list string) : path :=
  match cs with
  | [] => rev acc
  | c :: cs' =>
      if String.eqb c "" || String.eqb c "." then normalize acc cs'
      else if String.eqb c ".." then normalize (tl acc) cs'
      else normalize (c :: acc) cs'
  end.

(** Path resolution as the system does it (there are no symbolic
    links): the components are taken one after the other, each of them
    in a directory that exists; [..] is the directory above, and only
    the last name may be missing.  [NoEntry] and [NotDir] are the two
    ways of not getting through: a name on the way is missing, or is a
    regular file. *)
Inductive located :=
| Located (q : path)
| NoEntry
| NotDir.

Fixpoint walk (fs : node) (cur : path) (cs : list string) : located :=
  match cs with
  | [] => Located cur
  | c :: cs' =>
      match fs_lookup cur fs with
      | Some (Dir _) =>
          if String.eqb c "" || String.eqb c "." then walk fs cur cs'
          else if String.eqb c ".." then walk fs (removelast cur) cs'
          else walk fs (cur ++ [c]) cs'
      | Some (File _) => NotDir
      | None => NoEntry
      end
  end.

#[local] Instance located_eq_dec : EqDecision located.
Proof. solve_decision. Defined.

(** What is found at a path: a node, nothing, or a regular file in the
    way. *)
Inductive found :=
| Node (n : node)
| Absent
| Blocked.

(** ** What the script gets from outside *)

(** A subprocess either cannot be started or exits with a status, its
    captured output and the file system it leaves behind. *)
Inductive proc_outcome :=
| NotFound
| Exited (returncode : Z) (stdout stderr : string) (fs' : node).

(** An item of [release_content]: the metadata record and the source
    path. *)
Record content_data := mkContent {
  cd_metadata : nat;
  cd_tex_path : string
}.

(** What a template is rendered with: the manifest, the content list
    with every record's current dict, and the current item if any. *)
Record render_ctx := mkCtx {
  ctx_release : pyval;
  ctx_content_list : list (pydict * string);
  ctx_item : option (pydict * string)
}.

(** ** Exceptions, effects and the world *)

Inductive exn :=
| FileNotFoundError (p : string)
| NotADirectoryError (p : string)
| IsADirectoryError (p : string)
| FileExistsError (p : string)
| OSError (p : string)
| ShutilError (p : string)
| KeyError (k : string)
| TypeError
| YAMLError
| TemplateError (name : string)
| CalledProcessError (returncode : Z) (cmd : list string) (stdout stderr : string).

(** What the script does to the outside, in the order it does it: what
    it prints, what it changes, what it runs and what it hands to the
    template engine. *)
Inductive event :=
| EvPrint (line : string)
| EvRmtree (p : string)
| EvMakedirs (p : string)
| EvSetItem (ref : nat) (k : string) (v : pyval)
| EvSpawn (argv : list string)
| EvRender (name : string) (ctx : render_ctx)
| EvMove (src dst : string)
| EvWrite (p : string) (content : string)
| EvCopytree (src dst : string).

(** The events that put something into the output tree. *)
Definition is_artifact (e : event) : bool :=
  match e with
  | EvSpawn _ | EvMove _ _ | EvWrite _ _ | EvCopytree _ _ => true
  | _ => false
  end.

Definition is_spawn (e : event) : bool :=
  match e with EvSpawn _ => true | _ => false end.

Definition is_setitem_of (r : nat) (e : event) : bool :=
  match e with EvSetItem r' _ _ => Nat.eqb r r' | _ => false end.

Definition is_setitem (e : event) : bool :=
  match e with EvSetItem _ _ _ => true | _ => false end.

(** The world: the file system, the store of the metadata dicts (a
    record is the index of its dict) and the trace so far. *)
Record World := mkWorld {
  w_fs : node;
  w_heap : list pydict;
  w_trace : list event
}.

Inductive result (A : Type) :=
| Ok (a : A)
| Raise (e : exn).
Arguments Ok {A} a.
Arguments Raise {A} e.

Definition M (A : Type) : Type := World -> result A * World.

Definition ret {A} (a : A) : M A := fun w => (Ok a, w).
Definition raise {A} (e : exn) : M A := fun w => (Raise e, w).
Definition bind {A B} (m : M A) (k : A -> M B) : M B :=
  fun w => match m w with
           | (Ok a, w') => k a w'
           | (Raise e, w') => (Raise e, w')
           end.

Declare Scope py_scope.
Delimit Scope py_scope with py.
Notation "x <- c ;; k" := (bind c (fun x => k))
  (at level 100, c at next level, right associativity) : py_scope.
Notation "c ;; k" := (bind c (fun _ => k))
  (at level 100, right associativity) : py_scope.
Local Open Scope py_scope.

(** [try: m  except CalledProcessError as e: h e]; any other exception
    passes through. *)
Definition try_except_cpe {A} (m : M A)
  (h : Z -> list string -> string -> string -> M A) : M A :=
  fun w => match m w with
           | (Raise (CalledProcessError rc cmd out err), w') => h rc cmd out err w'
           | r => r
           end.

(** [for x in l: body x] *)
Fixpoint for_each {A} (body : A -> M unit) (l : list A) : M unit :=
  match l with
  | [] => ret tt
  | x :: l' => body x ;; for_each body l'
  end.

(** A loop that carries a value from one round to the next. *)
Fixpoint for_fold {A S} (body : S -> A -> M S) (l : list A) (s : S) : M S :=
  match l with
  | [] => ret s
  | x :: l' => s' <- body s x ;; for_fold body l' s'
  end.

Definition log (e : event) (w : World) : World :=
  mkWorld (w_fs w) (w_heap w) (w_trace w ++ [e]).

Definition set_fs (fs : node) (w : World) : World :=
  mkWorld fs (w_heap w) (w_trace w).

Definition print (line : string) : M unit := fun w => (Ok tt, log (EvPrint line) w).

(** *** The store of metadata records *)

(** The dict of record [r]; every record the script holds was made by
    [alloc], so the default is never met. *)
Definition deref (h : list pydict) (r : nat) : pydict := default [] (h !! r).

(** A freshly parsed mapping becomes a new record. *)
Definition alloc (d : pydict) : M nat :=
  fun w => (Ok (length (w_heap w)),
            mkWorld (w_fs w) (w_heap w ++ [d]) (w_trace w)).

(** [record[k]] *)
Definition getitem (r : nat) (k : string) : M pyval :=
  fun w => match dict_get k (deref (w_heap w) r) with
           | Some v => (Ok v, w)
           | None => (Raise (KeyError k), w)
           end.

(** [record[k] = v] *)
Definition setitem (r : nat) (k : string) (v : pyval) : M unit :=
  fun w => (Ok tt,
            mkWorld (w_fs w)
                    (<[r := dict_set k v (deref (w_heap w) r)]> (w_heap w))
                    (w_trace w ++ [EvSetItem r k v])).

(** --- Configuration --- *)
Definition CONFIG_FILE := "release-config.yml".
Definition SUBMISSIONS_DIR := "submissions".
Definition TEMPLATES_DIR := "templates".
Definition OUTPUT_DIR := "output".
Definition ASSETS_DIR := "assets".

(** ** Paths and names of the script *)

(** The lexical form of the path [p] of a process whose working
    directory is [cwd]. *)
Definition resolve (cwd : path) (p : string) : path :=
  normalize (if startswith p "/" then [] else rev cwd) (split_slash p).

(** Where the walk along [p] starts: at the root for an absolute path,
    at the working directory otherwise.  The working directory of a
    process is a directory; in a world where it is gone, and for the
    empty path, nothing is found. *)
Definition start_of (cwd : path) (p : string) (fs : node) : option path :=
  if String.eqb p "" then None
  else
    let s := if startswith p "/" then [] else cwd in
    match fs_lookup s fs with
    | Some (Dir _) => Some s
    | _ => None
    end.

Definition locate (cwd : path) (p : string) (fs : node) : located :=
  match start_of cwd p fs with
  | Some s => walk fs s (split_slash p)
  | None => NoEntry
  end.

(** [os.stat(p)], as far as the script cares. *)
Definition fs_stat (cwd : path) (p : string) (fs : node) : found :=
  match locate cwd p fs with
  | Located q =>
      match fs_lookup q fs with
      | Some n => Node n
      | None => Absent
      end
  | NoEntry => Absent
  | NotDir => Blocked
  end.

(** [os.mkdir] of the path with the components [cs], walked from [s];
    the new directory holds [content]. *)
Definition mkdir (s : path) (cs : list string) (p : string)
  (content : list (string * node)) (fs : node) : result node :=
  match walk fs s cs with
  | Located q =>
      match fs_lookup q fs, split_last q with
      | None, Some (d, name) =>
          match fs_modify (fun es => Some (es ++ [(name, Dir content)])) d fs with
          | Some fs' => Ok fs'
          | None => Raise (FileNotFoundError p)
          end
      | _, _ => Raise (FileExistsError p)
      end
  | NoEntry => Raise (FileNotFoundError p)
  | NotDir => Raise (NotADirectoryError p)
  end.

Definition exists_at (s : path) (cs : list string) (fs : node) : bool :=
  match walk fs s cs with
  | Located q =>
      match fs_lookup q fs with
      | Some _ => true
      | None => false
      end
  | _ => false
  end.

(** [os.makedirs] along the components [todo] that follow [done]: the
    directories on the way are made where they are missing, the last
    one is made in any case.  The result is the exception, if any, and
    the file system as it is left. *)
Fixpoint mkdirs (s : path) (done todo : list string) (p : string)
  (content : list (string * node)) (fs : node) : option exn * node :=
  match todo with
  | [] => (Some (FileExistsError p), fs)
  | c :: todo' =>
      match todo' with
      | [] =>
          match mkdir s (done ++ [c]) p content fs with
          | Ok fs' => (None, fs')
          | Raise e => (Some e, fs)
          end
      | _ :: _ =>
          if exists_at s (done ++ [c]) fs
          then mkdirs s (done ++ [c]) todo' p content fs
          else
            match mkdir s (done ++ [c]) p [] fs with
            | Ok fs' => mkdirs s (done ++ [c]) todo' p content fs'
            | Raise e => (Some e, fs)
            end
      end
  end.

(** [os.makedirs(p)] of a path without trailing separator, which is how
    the script calls it; [content] is what the new directory holds
    (nothing, unless it is made for a copy). *)
Definition makedirs (cwd : path) (p : string) (content : list (string * node))
  (fs : node) : option exn * node :=
  match start_of cwd p fs with
  | Some s => mkdirs s [] (split_slash p) p content fs
  | None => (Some (FileNotFoundError p), fs)
  end.

(** What [open(p, 'w')] does to the entries of the directory of [p]: a
    directory of that name is in the way. *)
Definition put_file (name content : string) (es : list (string * node))
  : option (list (string * node)) :=
  match dict_get name es with
  | Some (Dir _) => None
  | _ => Some (dict_set name (File content) es)
  end.

Definition pdf_path (name : string) : string := path_join OUTPUT_DIR (name +:+ ".pdf").
Definition html_path (name : string) : string := path_join OUTPUT_DIR (name +:+ ".html").

(** The base name of a source: its file name without the extension. *)
Definition base_name (tex_path : string) : string := fst (splitext (basename tex_path)).

(** The command line of the compiler. *)
Definition latexmk_argv (tex_file_path output_dir : string) : list string :=
  [ "latexmk"; "-pdf"; "-output-directory=" +:+ output_dir; tex_file_path ].

(** ** A concrete world to run the script in *)

Module Fixture.

Definition cwd : path := ["work"].

(** A compiler that reads the source and leaves [<base>.pdf] in the
    output directory; the source text [!] makes it fail with status 1. *)
Definition latexmk (argv : list string) (fs : node) : proc_outcome :=
  match argv with
  | [_; _; _; tex] =>
      match fs_stat cwd tex fs with
      | Node (File "!") => Exited 1 "This is latexmk" "! Undefined control sequence." fs
      | Node (File src) =>
          match split_last (resolve cwd (pdf_path (fst (splitext (basename tex))))) with
          | Some (d, name) =>
              match fs_modify (put_file name ("%PDF " +:+ src)) d fs with
              | Some fs' => Exited 0 "" "" fs'
              | None => Exited 12 "" "cannot write" fs
              end
          | None => Exited 12 "" "cannot write" fs
          end
      | _ => Exited 11 "" "no such file" fs
      end
  | _ => Exited 10 "" "usage" fs
  end.

(** Metadata texts are a permalink, a colon and a title; the manifest
    text is a list of identifiers separated by spaces. *)
Fixpoint split_at (sep : ascii) (s : string) : list string :=
  match s with
  | EmptyString => [EmptyString]
  | String c r =>
      if Ascii.eqb c sep then EmptyString :: split_at sep r
      else match split_at sep r with
           | h :: t => String c h :: t
           | [] => [String c EmptyString]
           end
  end.

Definition yaml_safe_load (text : string) : option pyval :=
  match split_at ":" text with
  | [ids] => Some (PDict [("release_volume", PStr "25.1");
                          ("content_ids", PList (map PStr (split_at " " ids)))])
  | [permalink; title] => Some (PDict [("title", PStr title); ("permalink", PStr permalink)])
  | ["-"; k; v] => Some (PDict [(k, PStr v)])
  | _ => None
  end.

Definition py_repr (v : pyval) : string := "<container>".

(** A page lists the permalinks it was given, whatever the templates
    directory holds. *)
Definition jinja_render (fs : node) (name : string) (ctx : render_ctx) : option string :=
  let links := map (fun it => match dict_get "pdf_link" (fst it) with
                              | Some v => py_str py_repr v
                              | None => "?"
                              end) (ctx_content_list ctx) in
  Some (name +:+ ":" +:+ String.concat "," links).

Definition submission (yml tex : string) : node :=
  Dir [("paper.yml", File yml); ("paper.tex", File tex)].

(** The working directory holds the manifest, the submissions, an output
    directory left by an earlier run, and whatever [extra] adds. *)
Definition world (manifest : string) (subs extra : list (string * node)) : World :=
  mkWorld
    (Dir [("work", Dir ([("release-config.yml", File manifest);
                         ("submissions", Dir subs);
                         ("output", Dir [("stale.pdf", File "old")])] ++ extra))])
    [] [].

(** A compiler that always succeeds and leaves [<base>.pdf] alone. *)
Definition clean_latexmk (argv : list string) (fs : node) : proc_outcome :=
  match argv with
  | [_; _; _; tex] =>
      match fs_modify (put_file (base_name tex +:+ ".pdf") "%PDF")
                      (resolve cwd OUTPUT_DIR) fs with
      | Some fs' => Exited 0 "" "" fs'
      | None => Exited 12 "" "cannot write" fs
      end
  | _ => Exited 10 "" "usage" fs
  end.

(** A compiler that reads the source and leaves a log and an auxiliary
    file beside the PDF. *)
Definition noisy_latexmk (argv : list string) (fs : node) : proc_outcome :=
  match argv with
  | [_; _; _; tex] =>
      match fs_stat cwd tex fs with
      | Node (File src) =>
          match fs_modify
                  (fun es =>
                     Some (dict_set (base_name tex +:+ ".pdf") (File ("%PDF " +:+ src))
                             (dict_set (base_name tex +:+ ".log") (File "log")
                                (dict_set (base_name tex +:+ ".aux") (File "aux") es))))
                  (resolve cwd OUTPUT_DIR) fs with
          | Some fs' => Exited 0 "" "" fs'
          | None => Exited 12 "" "cannot write" fs
          end
      | _ => Exited 11 "" "no such file" fs
      end
  | _ => Exited 10 "" "usage" fs
  end.

Definition assets : list (string * node) :=
  [("assets", Dir [("style.css", File "body{}")])].

(** Two complete submissions and an assets directory. *)
Definition two_papers : World :=
  world "1 2" [("1", submission "paper-one:One" "x");
               ("2", submission "paper-two:Two" "y")] assets.

(** Two complete submissions that claim the same permalink. *)
Definition same_permalink : World :=
  world "1 2" [("1", submission "paper:One" "x");
               ("2", submission "paper:Two" "y")] [].

(** The second directory is empty. *)
Definition empty_directory : World :=
  world "1 2" [("1", submission "paper-one:One" "x"); ("2", Dir [])] [].

(** The second directory is not there. *)
Definition missing_directory : World :=
  world "1 2" [("1", submission "paper-one:One" "x")] [].

(** A regular file where the second directory should be. *)
Definition file_for_directory : World :=
  world "1 2" [("1", submission "paper-one:One" "x"); ("2", File "notes")] [].

(** The second source does not compile. *)
Definition broken_source : World :=
  world "1 2 3" [("1", submission "a:One" "x");
                 ("2", submission "b:Two" "!");
                 ("3", submission "c:Three" "z")] [].

(** The second metadata file has a title and no permalink; the third a
    permalink and no title. *)
Definition no_permalink : World :=
  world "1 2" [("1", submission "a:One" "x");
               ("2", submission "-:title:Two" "y")] [].

Definition no_title : World :=
  world "1 2" [("1", submission "a:One" "x");
               ("2", submission "-:permalink:b" "y")] [].

(** No manifest at all; a manifest that does not parse; a manifest
    that is a mapping without [content_ids]. *)
Definition no_manifest : World :=
  mkWorld (Dir [("work", Dir [("output", Dir [("stale.pdf", File "old")])])]) [] [].

Definition bad_manifest : World := world "a:b:c" [] [].

Definition manifest_without_ids : World := world "-:release_volume:25.1" [] [].

(** A regular file where the output directory should be. *)
Definition output_is_a_file : World :=
  mkWorld (Dir [("work", Dir [("release-config.yml", File "1");
                              ("output", File "notes")])]) [] [].

(** A regular file where the assets directory should be, and an output
    directory that has an assets entry already. *)
Definition assets_is_a_file : World :=
  world "1" [] [("assets", File "style")].

Definition assets_in_the_way : World :=
  mkWorld (Dir [("work", Dir [("output", Dir [("assets", Dir [])]);
                              ("assets", Dir [("style.css", File "body{}")])])]) [] [].

(** A compiler that reports success and writes nothing. *)
Definition silent_latexmk (argv : list string) (fs : node) : proc_outcome :=
  Exited 0 "" "" fs.

(** A manifest without identifiers, with an assets directory. *)
Definition no_papers : World := world "" [] assets.

(** Template engines that lack the page template, and the index
    template. *)
Definition no_page_template (fs : node) (name : string) (ctx : render_ctx)
  : option string :=
  if String.eqb name "paper.html.j2" then None else jinja_render fs name ctx.


End Fixture.

Section Script.

(** The working directory of the process. *)
Variable cwd : path.
(** Running a command line on a file system. *)
Variable os_exec : list string -> node -> proc_outcome.
(** [yaml.safe_load] on a file's text; [None] is a parse error. *)
Variable yaml_safe_load : string -> option pyval.
(** [env.get_template(name).render(...)], with the templates as the
    file system has them under [TEMPLATES_DIR]; [None] is any template
    error.  Rendering has no effect of its own. *)
Variable jinja_render : node -> string -> render_ctx -> option string.
(** Python's [repr] of a list or of a dict. *)
Variable py_repr : pyval -> string.

Abbreviation str := (py_str py_repr).

(** *** os, shutil, subprocess, yaml, jinja2 *)

Definition os_path_exists (p : string) : M bool :=
  fun w => match fs_stat cwd p (w_fs w) with
           | Node _ => (Ok true, w)
           | _ => (Ok false, w)
           end.

Definition os_listdir (p : string) : M (list string) :=
  fun w => match fs_stat cwd p (w_fs w) with
           | Node (Dir es) => (Ok (map fst es), w)
           | Node (File _) => (Raise (NotADirectoryError p), w)
           | Absent => (Raise (FileNotFoundError p), w)
           | Blocked => (Raise (NotADirectoryError p), w)
           end.

(** [open(p, 'r')] and reading it all. *)
Definition read_file (p : string) : M string :=
  fun w => match fs_stat cwd p (w_fs w) with
           | Node (File c) => (Ok c, w)
           | Node (Dir _) => (Raise (IsADirectoryError p), w)
           | Absent => (Raise (FileNotFoundError p), w)
           | Blocked => (Raise (NotADirectoryError p), w)
           end.

(** [open(p, 'w')] and writing [content]: the file is created or
    replaced; its directory must exist. *)
Definition write_file (p content : string) : M unit :=
  fun w =>
    match locate cwd p (w_fs w) with
    | Located q =>
        match fs_lookup q (w_fs w) with
        | Some (Dir _) => (Raise (IsADirectoryError p), w)
        | _ =>
            match split_last q with
            | Some (d, name) =>
                match fs_modify (put_file name content) d (w_fs w) with
                | Some fs' => (Ok tt, log (EvWrite p content) (set_fs fs' w))
                | None => (Raise (FileNotFoundError p), w)
                end
            | None => (Raise (IsADirectoryError p), w)
            end
        end
    | NoEntry => (Raise (FileNotFoundError p), w)
    | NotDir => (Raise (NotADirectoryError p), w)
    end.

Definition shutil_rmtree (p : string) : M unit :=
  fun w =>
    match locate cwd p (w_fs w) with
    | Located q =>
        match fs_lookup q (w_fs w) with
        | Some (Dir _) =>
            match split_last q with
            | Some (d, name) =>
                match fs_modify (fun es => Some (dict_remove name es)) d (w_fs w) with
                | Some fs' => (Ok tt, log (EvRmtree p) (set_fs fs' w))
                | None => (Raise (OSError p), w)
                end
            | None => (Raise (OSError p), w)
            end
        | Some (File _) => (Raise (NotADirectoryError p), w)
        | None => (Raise (FileNotFoundError p), w)
        end
    | NoEntry => (Raise (FileNotFoundError p), w)
    | NotDir => (Raise (NotADirectoryError p), w)
    end.

(** [os.makedirs(p)]: the directories above [p] are created as needed;
    [p] itself must be new.  What was created before a failure stays. *)
Definition os_makedirs (p : string) : M unit :=
  fun w =>
    match makedirs cwd p [] (w_fs w) with
    | (None, fs') => (Ok tt, log (EvMakedirs p) (set_fs fs' w))
    | (Some e, fs') => (Raise e, set_fs fs' w)
    end.

(** [shutil.copytree(src, dst)]: [src] is scanned first, then [dst] is
    made, which must be new, and receives the copy. *)
Definition shutil_copytree (src dst : string) : M unit :=
  fun w =>
    match fs_stat cwd src (w_fs w) with
    | Node (Dir es) =>
        match makedirs cwd dst es (w_fs w) with
        | (None, fs') => (Ok tt, log (EvCopytree src dst) (set_fs fs' w))
        | (Some e, fs') => (Raise e, set_fs fs' w)
        end
    | Node (File _) => (Raise (NotADirectoryError src), w)
    | Absent => (Raise (FileNotFoundError src), w)
    | Blocked => (Raise (NotADirectoryError src), w)
    end.

(** [os.rename(src, dst)] as [shutil.move] uses it: a file replaces a
    file, nothing replaces a directory, and renaming a path to itself
    changes nothing. *)
Definition os_rename (src dst : string) : M unit :=
  fun w =>
    match locate cwd src (w_fs w) with
    | Located qs =>
        match fs_lookup qs (w_fs w) with
        | None => (Raise (FileNotFoundError src), w)
        | Some x =>
            match locate cwd dst (w_fs w) with
            | Located qd =>
                if decide (qs = qd)
                then (Ok tt, log (EvMove src dst) w)
                else
                  match x, fs_lookup qd (w_fs w) with
                  | File _, Some (Dir _) => (Raise (IsADirectoryError dst), w)
                  | Dir _, Some _ => (Raise (FileExistsError dst), w)
                  | _, _ =>
                      match split_last qs, split_last qd with
                      | Some (ds, ns), Some (dd, nd) =>
                          match fs_modify (fun es => Some (dict_remove ns es)) ds (w_fs w) with
                          | Some fs1 =>
                              match fs_modify (fun es => Some (dict_set nd x es)) dd fs1 with
                              | Some fs2 => (Ok tt, log (EvMove src dst) (set_fs fs2 w))
                              | None => (Raise (FileNotFoundError dst), w)
                              end
                          | None => (Raise (OSError src), w)
                          end
                      | _, _ => (Raise (OSError src), w)
                      end
                  end
            | NoEntry => (Raise (FileNotFoundError dst), w)
            | NotDir => (Raise (NotADirectoryError dst), w)
            end
        end
    | NoEntry => (Raise (FileNotFoundError src), w)
    | NotDir => (Raise (NotADirectoryError src), w)
    end.

(** [shutil.move(src, dst)]: into [dst] when that is a directory,
    onto [dst] otherwise. *)
Definition shutil_move (src dst : string) : M unit :=
  fun w =>
    match fs_stat cwd dst (w_fs w) with
    | Node (Dir _) =>
        if decide (locate cwd src (w_fs w) = locate cwd dst (w_fs w))
        then os_rename src dst w
        else
          let real_dst := path_join dst (basename src) in
          match fs_stat cwd real_dst (w_fs w) with
          | Node _ => (Raise (ShutilError real_dst), w)
          | _ => os_rename src real_dst w
          end
    | _ => os_rename src dst w
    end.

(** [subprocess.run(argv, check=True, capture_output=True, text=True)] *)
Definition subprocess_run (argv : list string) : M unit :=
  fun w =>
    match os_exec argv (w_fs w) with
    | NotFound => (Raise (FileNotFoundError (hd "" argv)), w)
    | Exited rc out err fs' =>
        let w' := log (EvSpawn argv) (set_fs fs' w) in
        if (rc =? 0)%Z then (Ok tt, w')
        else (Raise (CalledProcessError rc argv out err), w')
    end.

Definition yaml_load (text : string) : M pyval :=
  match yaml_safe_load text with
  | Some v => ret v
  | None => raise YAMLError
  end.

Definition render (name : string) (ctx : render_ctx) : M string :=
  fun w =>
    match jinja_render (w_fs w) name ctx with
    | Some html => (Ok html, log (EvRender name ctx) w)
    | None => (Raise (TemplateError name), log (EvRender name ctx) w)
    end.

(** [v[k]] on a parsed value: only a mapping has string keys. *)
Definition subscript (v : pyval) (k : string) : M pyval :=
  match v with
  | PDict d =>
      match dict_get k d with
      | Some x => ret x
      | None => raise (KeyError k)
      end
  | _ => raise TypeError
  end.

(** [for x in v]: the elements of a list, the keys of a mapping, the
    characters of a string. *)
Definition py_iter (v : pyval) : M (list pyval) :=
  match v with
  | PList l => ret l
  | PDict d => ret (map (fun kv => PStr (fst kv)) d)
  | PStr s => ret (map (fun c => PStr (String c "")) (list_ascii_of_string s))
  | _ => raise TypeError
  end.

(** The view a template has of an item and of the content list. *)
Definition item_view (h : list pydict) (item : content_data) : pydict * string :=
  (deref h (cd_metadata item), cd_tex_path item).

Definition make_ctx (release : pyval) (content_list : list content_data)
  (item : option content_data) : M render_ctx :=
  fun w => (Ok (mkCtx release
                      (map (item_view (w_heap w)) content_list)
                      (option_map (item_view (w_heap w)) item)), w).

(** *** publish.py *)

(** Runs the compiler on a given .tex file. *)
Definition run_pdflatex (tex_file_path output_dir : string) : M unit :=
  try_except_cpe
    (subprocess_run
       [ "latexmk";
         "-pdf";
         "-output-directory=" +:+ output_dir;
         tex_file_path ])
    (fun rc cmd out err =>
       print ("Error compiling " +:+ tex_file_path +:+ ".") ;;
       print out ;;
       print err ;;
       raise (CalledProcessError rc cmd out err)).

(** 1. Load Configuration *)
Definition load_config : M pyval :=
  text <- read_file CONFIG_FILE ;;
  yaml_load text.

(** 2. Setup Output Directory *)
Definition setup_output : M unit :=
  ex <- os_path_exists OUTPUT_DIR ;;
  (if ex : bool then shutil_rmtree OUTPUT_DIR else ret tt) ;;
  os_makedirs OUTPUT_DIR.

Definition is_yml (f : string) : bool := endswith f ".yml".
Definition is_tex (f : string) : bool := endswith f ".tex".

Definition missing_warning (item_id : pyval) : string :=
  "Warning: Missing files in submission directory '" +:+ str item_id +:+ "'. Skipping.".

(** 3. One round of the loading loop; the result is [release_content]
    after the round.  A name found by extension is never empty, so
    [not metadata_file or not tex_file] holds exactly when one of the
    two searches came back with [None]. *)
Definition load_item (release_content : list content_data) (item_id : pyval)
  : M (list content_data) :=
  let item_dir := path_join SUBMISSIONS_DIR (str item_id) in
  names <- os_listdir item_dir ;;
  let metadata_file := List.find is_yml names in
  names' <- os_listdir item_dir ;;
  let tex_file := List.find is_tex names' in
  match metadata_file, tex_file with
  | Some metadata_file, Some tex_file =>
      text <- read_file (path_join item_dir metadata_file) ;;
      parsed <- yaml_load text ;;
      metadata <- match parsed with
                  | PDict d => alloc d
                  | _ => raise TypeError
                  end ;;
      setitem metadata "id" item_id ;;
      permalink <- getitem metadata "permalink" ;;
      setitem metadata "pdf_link" (PStr (str permalink +:+ ".pdf")) ;;
      let content := mkContent metadata (path_join item_dir tex_file) in
      let release_content := release_content ++ [content] in
      title <- getitem metadata "title" ;;
      print ("  - Loaded '" +:+ str title +:+ "'") ;;
      ret release_content
  | _, _ =>
      print (missing_warning item_id) ;;
      ret release_content
  end.

(** 3. Load all content and metadata *)
Definition load_content (config : pyval) : M (list content_data) :=
  print "Loading content and metadata..." ;;
  content_ids <- subscript config "content_ids" ;;
  ids <- py_iter content_ids ;;
  for_fold load_item ids [].

(** 4. One round of the build loop: compile, rename, render the page. *)
Definition build_item (config : pyval) (release_content : list content_data)
  (item : content_data) : M unit :=
  permalink <- getitem (cd_metadata item) "permalink" ;;
  print ("  - Compiling " +:+ str permalink +:+ ".pdf...") ;;
  run_pdflatex (cd_tex_path item) OUTPUT_DIR ;;
  let base_name := fst (splitext (basename (cd_tex_path item))) in
  permalink <- getitem (cd_metadata item) "permalink" ;;
  shutil_move (pdf_path base_name) (pdf_path (str permalink)) ;;
  print (nl +:+ "Building metadata page...") ;;
  ctx <- make_ctx config release_content (Some item) ;;
  web_html_content <- render "paper.html.j2" ctx ;;
  permalink <- getitem (cd_metadata item) "permalink" ;;
  write_file (html_path (str permalink)) web_html_content.

(** 4. Build Individual PDFs *)
Definition build_pdfs (config : pyval) (release_content : list content_data) : M unit :=
  print (nl +:+ "Building individual PDFs...") ;;
  for_each (build_item config release_content) release_content.

(** 6. Build Website *)
Definition build_website (config : pyval) (release_content : list content_data) : M unit :=
  print (nl +:+ "Building static website...") ;;
  ctx <- make_ctx config release_content None ;;
  web_html_content <- render "release.html.j2" ctx ;;
  write_file (path_join OUTPUT_DIR "index.html") web_html_content.

(** Copy assets *)
Definition copy_assets : M unit :=
  ex <- os_path_exists ASSETS_DIR ;;
  if ex : bool then shutil_copytree ASSETS_DIR (path_join OUTPUT_DIR ASSETS_DIR)
  else ret tt.

(** The nine bytes that follow the line break in the last message. *)
Definition party : string :=
  string_of_list_ascii
    (map ascii_of_nat [195; 176; 197; 184; 197; 189; 226; 128; 176]).

(** Steps 1 and 2: nothing is produced yet. *)
Definition main_init : M pyval :=
  print "--- Starting ARA Release Build Process ---" ;;
  config <- load_config ;;
  setup_output ;;
  ret config.

(** Steps 4 to 6.  Step 5, the master volume, is a print followed by a
    string literal: the code in it never runs. *)
Definition main_produce (config : pyval) (release_content : list content_data) : M unit :=
  build_pdfs config release_content ;;
  print (nl +:+ "Building master release volume PDF...") ;;
  build_website config release_content ;;
  copy_assets ;;
  print "  - Website created successfully." ;;
  print (nl +:+ party +:+ " ARA Release Build Complete! Artifacts are in the 'output' directory.").

(** Main script to build the entire release. *)
Definition main : M unit :=
  config <- main_init ;;
  release_content <- load_content config ;;
  main_produce config release_content.

(** *** Notions used in the statements *)

Abbreviation resolve' := (resolve cwd).

(** A relation between the world before and the world after that every
    step of a computation respects is respected by the whole. *)
Definition preserves {A} (R : World -> World -> Prop) (m : M A) : Prop :=
  forall w, R w (snd (m w)).

(** The relations of interest: same file system, same store, and a
    trace that grows by events of a given kind. *)
Definition same_fs (w w' : World) : Prop := w_fs w' = w_fs w.
Definition same_heap (w w' : World) : Prop := w_heap w' = w_heap w.
Definition grows_by (P : event -> Prop) (w w' : World) : Prop :=
  exists evs, w_trace w' = w_trace w ++ evs /\ Forall P evs.

(** The events of [w'] that [w] had not seen yet. *)
Definition events_since (w w' : World) : list event :=
  drop (length (w_trace w)) (w_trace w').

Definition loading_banner : event := EvPrint "Loading content and metadata...".

Definition item_dir_of (item_id : pyval) : string :=
  path_join SUBMISSIONS_DIR (str item_id).

(** The dict of a record once the loader is done with it. *)
Definition enriched (item_id permalink : pyval) (d : pydict) : pydict :=
  dict_set "pdf_link" (PStr (str permalink +:+ ".pdf")) (dict_set "id" item_id d).

Definition loaded_message (title : pyval) : event :=
  EvPrint ("  - Loaded '" +:+ str title +:+ "'").

(** What the files of a submission say: the parsed metadata mapping and
    the path of the source, when both files are there and the metadata
    parses to a mapping. *)
Definition metadata_of (fs : node) (item_id : pyval) : option (pydict * string) :=
  match fs_stat cwd (item_dir_of item_id) fs with
  | Node (Dir es) =>
      match List.find is_yml (map fst es), List.find is_tex (map fst es) with
      | Some mf, Some tf =>
          match fs_stat cwd (path_join (item_dir_of item_id) mf) fs with
          | Node (File text) =>
              match yaml_safe_load text with
              | Some (PDict d) => Some (d, path_join (item_dir_of item_id) tf)
              | _ => None
              end
          | _ => None
          end
      | _, _ => None
      end
  | _ => None
  end.

(** The loader passes over an identifier when its directory is there
    and one of the two files is not. *)
Definition skipped (fs : node) (item_id : pyval) : bool :=
  match fs_stat cwd (item_dir_of item_id) fs with
  | Node (Dir es) =>
      match List.find is_yml (map fst es), List.find is_tex (map fst es) with
      | Some _, Some _ => false
      | _, _ => true
      end
  | _ => false
  end.

Definition setitem_events (r : nat) (item_id permalink : pyval) : list event :=
  [EvSetItem r "id" item_id; EvSetItem r "pdf_link" (PStr (str permalink +:+ ".pdf"))].

(** Item assignments only reach records made from [lo] on. *)
Definition setitem_from (lo : nat) (e : event) : Prop :=
  match e with EvSetItem r _ _ => lo <= r | _ => True end.

(** The item [c] of the content list is the submission [item_id] as the
    files describe it: its record was made during loading, holds the
    parsed mapping plus the two added fields, and was assigned to twice. *)
Definition loaded_as (fs : node) (h : list pydict) (evs : list event) (lo : nat)
  (c : content_data) (item_id : pyval) : Prop :=
  exists d p t,
    metadata_of fs item_id = Some (d, cd_tex_path c) /\
    dict_get "permalink" d = Some p /\ dict_get "title" d = Some t /\
    lo <= cd_metadata c < length h /\
    deref h (cd_metadata c) = enriched item_id p d /\
    List.filter (is_setitem_of (cd_metadata c)) evs
      = setitem_events (cd_metadata c) item_id p.

Definition record_id (h : list pydict) (c : content_data) : option pyval :=
  dict_get "id" (deref h (cd_metadata c)).

Definition not_skipped (fs : node) : pyval -> bool :=
  fun item_id => negb (skipped fs item_id).

Definition is_render (e : event) : bool :=
  match e with EvRender _ _ => true | _ => false end.

(** Every rendering sees the content list with the records as the store
    [h] has them. *)
Definition renders_content (h : list pydict) (rc : list content_data) (e : event) : Prop :=
  match e with
  | EvRender _ ctx => ctx_content_list ctx = map (item_view h) rc
  | _ => True
  end.

Definition rendering (h : list pydict) (rc : list content_data) (w w' : World) : Prop :=
  w_heap w = h -> w_heap w' = h /\ grows_by (renders_content h rc) w w'.

(** The record of [c] holds the identifier and the PDF link, which is
    the permalink followed by [.pdf]; its other fields are those of the
    parsed mapping; and among the events [evs] the record is assigned
    to exactly twice. *)
Definition enriched_once (fs : node) (h : list pydict) (evs : list event)
  (c : content_data) (item_id : pyval) : Prop :=
  exists d p,
    metadata_of fs item_id = Some (d, cd_tex_path c) /\
    dict_get "permalink" d = Some p /\
    dict_get "id" (deref h (cd_metadata c)) = Some item_id /\
    dict_get "pdf_link" (deref h (cd_metadata c)) = Some (PStr (str p +:+ ".pdf")) /\
    (forall k, k <> "id" -> k <> "pdf_link" ->
               dict_get k (deref h (cd_metadata c)) = dict_get k d) /\
    List.filter (is_setitem_of (cd_metadata c)) evs
      = setitem_events (cd_metadata c) item_id p.

Definition building_banner : event := EvPrint (nl +:+ "Building individual PDFs...").

Definition compiling_message (permalink : pyval) : event :=
  EvPrint ("  - Compiling " +:+ str permalink +:+ ".pdf...").

Definition deref_permalink (h : list pydict) (item : content_data) : option pyval :=
  dict_get "permalink" (deref h (cd_metadata item)).

Definition no_artifact (evs : list event) : Prop :=
  Forall (fun e => is_artifact e = false) evs.

(** A name one can find in a directory listing: no separator in it, and
    not one of the three names that path resolution drops. *)
Definition plain_name (n : string) : Prop :=
  has_slash n = false /\ n <> "" /\ n <> "." /\ n <> "..".

Definition copied_assets : event := EvCopytree ASSETS_DIR (path_join OUTPUT_DIR ASSETS_DIR).

(** What is not below [output] keeps its place. *)
Definition beside_output (fs fs' : node) : Prop :=
  forall b q, b <> "output" -> fs_lookup (cwd ++ b :: q) fs' = fs_lookup (cwd ++ b :: q) fs.

(** The names that the script itself gives to entries of the output
    directory: the PDF files, the pages, and the copy of the assets.
    What the compiler leaves under other names (its logs and auxiliary
    files) is none of the script's business. *)
Definition is_product (n : string) : bool :=
  endswith n ".pdf" || endswith n ".html" || String.eqb n ASSETS_DIR.

Definition products (es : list (string * node)) : list (string * node) :=
  List.filter (fun e => is_product (fst e)) es.

(** A run of the compiler on [tex] that succeeds, from the file system
    [fs]: it exits with status 0, [<base>.pdf] is a regular file of the
    output directory afterwards, the other entries of that directory
    with a name of the script's are as they were, and nothing changes
    beside the output directory. *)
Definition compiled (tex : string) (fs : node) (r : proc_outcome) : Prop :=
  exists so se fs' E E' pdf,
    r = Exited 0 so se fs' /\
    fs_lookup (resolve' OUTPUT_DIR) fs = Some (Dir E) /\
    fs_lookup (resolve' OUTPUT_DIR) fs' = Some (Dir E') /\
    products E' = dict_set (base_name tex +:+ ".pdf") (File pdf) (products E) /\
    beside_output fs fs'.

(** The compiler succeeds in the run that builds [rc] from the world
    [w] on: each time the build loop gets to an item, the compiler run
    for that item succeeds on the file system of that moment. *)
Definition compiler_succeeds (config : pyval) (rc : list content_data) (w : World) : Prop :=
  forall pre item post w3,
    rc = pre ++ item :: post ->
    for_each (build_item config rc) pre (log building_banner w) = (Ok tt, w3) ->
    compiled (cd_tex_path item) (w_fs w3)
             (os_exec (latexmk_argv (cd_tex_path item) OUTPUT_DIR) (w_fs w3)).

(** What the two templates are rendered with in the run that builds
    [rc] with the store [h]. *)
Definition page_ctx (h : list pydict) (config : pyval) (rc : list content_data)
  (item : content_data) : render_ctx :=
  mkCtx config (map (item_view h) rc) (Some (item_view h item)).

Definition index_ctx (h : list pydict) (config : pyval) (rc : list content_data)
  : render_ctx :=
  mkCtx config (map (item_view h) rc) None.

(** The page template renders the item, and the index template renders
    the list, in the run that builds [rc] from the world [w] on,
    whatever the output directory holds by then. *)
Definition page_renders (config : pyval) (rc : list content_data) (w : World)
  (item : content_data) : Prop :=
  forall fs, beside_output (w_fs w) fs ->
    is_Some (jinja_render fs "paper.html.j2" (page_ctx (w_heap w) config rc item)).

Definition index_renders (config : pyval) (rc : list content_data) (w : World) : Prop :=
  forall fs, beside_output (w_fs w) fs ->
    is_Some (jinja_render fs "release.html.j2" (index_ctx (w_heap w) config rc)).

Definition templates_render (config : pyval) (rc : list content_data) (w : World) : Prop :=
  (forall item, In item rc -> page_renders config rc w item) /\ index_renders config rc w.

(** The public name of an item: its permalink as text. *)
Definition permalink_name (h : list pydict) (item : content_data) : string :=
  match deref_permalink h item with
  | Some v => str v
  | None => ""
  end.

(** The two files that each permalink gets in the output directory, in
    the order in which the build loop makes them. *)
Fixpoint listing_names (permalinks : list string) : list string :=
  match permalinks with
  | [] => []
  | p :: rest => (p +:+ ".pdf") :: (p +:+ ".html") :: listing_names rest
  end.

Definition is_file (x : node) : bool :=
  match x with File _ => true | Dir _ => false end.

(** No permalink and no base name of [items] has been used as a
    permalink before. *)
Fixpoint fresh (seen : list string) (items : list (string * string)) : Prop :=
  match items with
  | [] => True
  | (p, b) :: rest => ~ In p seen /\ ~ In b seen /\ fresh (seen ++ [p]) rest
  end.

Definition names_of (h : list pydict) (item : content_data) : string * string :=
  (permalink_name h item, base_name (cd_tex_path item)).

Definition file_names (es : list (string * node)) : list string :=
  map fst (List.filter (fun e => is_file (snd e)) es).

Definition dir_entries (es : list (string * node)) : list (string * node) :=
  List.filter (fun e => negb (is_file (snd e))) es.

Definition count (f : string -> bool) (names : list string) : nat :=
  length (List.filter f names).

Definition is_pdf (n : string) : bool := endswith n ".pdf".
Definition is_index (n : string) : bool := String.eqb n "index.html".
Definition is_item_page (n : string) : bool := endswith n ".html" && negb (is_index n).

(** The files of the output directory are [N] PDF files, [N] item pages
    and one index page. *)
Definition inventory (N : nat) (es : list (string * node)) : Prop :=
  count is_pdf (file_names es) = N /\
  count is_item_page (file_names es) = N /\
  count is_index (file_names es) = 1.

(** The path that an event of the script writes to, if it writes. *)
Definition written_path (e : event) : option string :=
  match e with
  | EvMove _ dst => Some dst
  | EvWrite p _ => Some p
  | EvCopytree _ dst => Some dst
  | _ => None
  end.

(** The paths that the script writes for the permalinks [ps]: a PDF and
    a page for each of them, then the index. *)
Definition own_paths (ps : list string) : list string :=
  flat_map (fun p => [pdf_path p; html_path p]) ps ++ [path_join OUTPUT_DIR "index.html"].

(** The inventory as it is claimed without further conditions: every run
    that loads all the submissions of its manifest, with a compiler that
    succeeds and templates that render, completes with that inventory. *)
Definition inventory_claim : Prop :=
  forall (dc : pydict) (ids : list pyval) (w w1 w2 : World) (rc : list content_data),
    main_init w = (Ok (PDict dc), w1) ->
    dict_get "content_ids" dc = Some (PList ids) ->
    load_content (PDict dc) w1 = (Ok rc, w2) ->
    length rc = length ids ->
    compiler_succeeds (PDict dc) rc w2 -> templates_render (PDict dc) rc w2 ->
    exists w' out,
      main w = (Ok tt, w') /\
      fs_lookup (resolve cwd OUTPUT_DIR) (w_fs w') = Some (Dir out) /\
      inventory (length ids) out.

(** *** Notions of the further properties *)

Definition starting_banner : event :=
  EvPrint "--- Starting ARA Release Build Process ---".

(** A submission is complete when both of its files are there and the
    metadata parses to a mapping with a permalink and a title. *)
Definition complete (fs : node) (item_id : pyval) : Prop :=
  exists d tex p t,
    metadata_of fs item_id = Some (d, tex) /\
    dict_get "permalink" d = Some p /\ dict_get "title" d = Some t.

Definition is_print (e : event) : bool :=
  match e with EvPrint _ => true | _ => false end.

(** The line that the loader prints for an identifier: the warning when
    it passes over it, the title when it loads it. *)
Definition loader_line (fs : node) (item_id : pyval) : option event :=
  if skipped fs item_id then Some (EvPrint (missing_warning item_id))
  else match metadata_of fs item_id with
       | Some (d, _) => option_map loaded_message (dict_get "title" d)
       | None => None
       end.

(** The run of the compiler for an item. *)
Definition spawn_of (item : content_data) : event :=
  EvSpawn (latexmk_argv (cd_tex_path item) OUTPUT_DIR).

(** From [w] to [w'] the trace grows, and the compiler runs it gains
    are [l]. *)
Definition spawns (l : list event) (w w' : World) : Prop :=
  exists evs, w_trace w' = w_trace w ++ evs /\ List.filter is_spawn evs = l.

(** What is outside the output directory keeps its place: a path that
    leaves the way to the output directory at some point leads to what
    it led to before. *)
Definition outside_output (fs fs' : node) : Prop :=
  forall d c r b q,
    resolve' OUTPUT_DIR = d ++ c :: r -> b <> c ->
    fs_lookup (d ++ b :: q) fs' = fs_lookup (d ++ b :: q) fs.

(** The compiler, run as the script runs it, changes nothing outside
    the output directory. *)
Definition compiler_confined : Prop :=
  forall tex fs rc so se fs',
    os_exec (latexmk_argv tex OUTPUT_DIR) fs = Exited rc so se fs' ->
    outside_output fs fs'.

(** A step that keeps the store and changes nothing outside the output
    directory; the same of a step that is taken with the store [h]. *)
Definition confined (w w' : World) : Prop :=
  w_heap w' = w_heap w /\ outside_output (w_fs w) (w_fs w').

Definition confined_with (h : list pydict) (w w' : World) : Prop :=
  w_heap w = h -> confined w w'.

(** A path that leads below the output directory. *)
Definition in_output (p : string) : Prop :=
  exists ps n, resolve' p = (resolve' OUTPUT_DIR ++ ps) ++ [n].

(** What a call of the template engine is given during production: the
    manifest, the content list as the store [h] has it, and either an
    item of the list, for the page template, or no item, for the index
    template. *)
Definition render_call (h : list pydict) (config : pyval) (rc : list content_data)
  (e : event) : Prop :=
  match e with
  | EvRender name ctx =>
      ctx_release ctx = config /\
      ctx_content_list ctx = map (item_view h) rc /\
      ((name = "paper.html.j2" /\
        exists item, In item rc /\ ctx_item ctx = Some (item_view h item)) \/
       (name = "release.html.j2" /\ ctx_item ctx = None))
  | _ => True
  end.

Definition calling (h : list pydict) (config : pyval) (rc : list content_data)
  (w w' : World) : Prop :=
  w_heap w = h -> w_heap w' = h /\ grows_by (render_call h config rc) w w'.

(** * Facts *)

Example split_slash_ex : split_slash "submissions/1/a.tex" = ["submissions"; "1"; "a.tex"].
Proof. reflexivity. Qed.

Example basename_ex : basename "submissions/1/a.tex" = "a.tex".
Proof. reflexivity. Qed.

Example splitext_ex : splitext "a.b.tex" = ("a.b", ".tex") /\ splitext ".tex" = (".tex", "").
Proof. split; reflexivity. Qed.

Example path_join_ex :
  path_join "output" "a.pdf" = "output/a.pdf" /\ path_join "submissions" "/etc" = "/etc".
Proof. split; reflexivity. Qed.

Example py_str_ex :
  map (py_str (fun _ => "[...]")) [PNone; PBool true; PInt 0; PInt 42; PInt (-7); PStr "a"]
  = ["None"; "True"; "0"; "42"; "-7"; "a"].
Proof. reflexivity. Qed.

Example resolve_ex :
  resolve ["srv"; "ara"] "submissions/1/./a.tex" = ["srv"; "ara"; "submissions"; "1"; "a.tex"]
  /\ resolve ["srv"; "ara"] "output/../assets" = ["srv"; "ara"; "assets"]
  /\ resolve ["srv"; "ara"] "/etc/passwd" = ["etc"; "passwd"].
Proof. repeat split; reflexivity. Qed.

(** Walking is not the lexical form: [..] does not undo a directory
    that is missing, nor one that is a regular file. *)
Example walk_ex :
  locate ["work"] "submissions/../output" (w_fs Fixture.two_papers)
    = Located ["work"; "output"]
  /\ locate ["work"] "submissions/../output" (w_fs Fixture.no_manifest) = NoEntry
  /\ locate ["work"] "release-config.yml/../output" (w_fs Fixture.two_papers) = NotDir
  /\ fs_stat ["work"] "submissions/3" (w_fs Fixture.two_papers) = Absent
  /\ fs_stat ["work"] "submissions/1/paper.tex/x" (w_fs Fixture.two_papers) = Blocked.
Proof. repeat split; reflexivity. Qed.

Example endswith_ex :
  endswith "a.yml" ".yml" = true /\ endswith "a.yml.bak" ".yml" = false
  /\ endswith ".tex" ".tex" = true /\ endswith "tex" ".tex" = false.
Proof. repeat split; reflexivity. Qed.

(** ** Dicts and directories *)

Section DictFacts.
Context {V : Type}.
Implicit Types (k : string) (v : V) (d : list (string * V)).

Lemma dict_get_set_eq k v d : dict_get k (dict_set k v d) = Some v.
Proof.
  induction d as [|[k' v'] d IH]; simpl.
  - by rewrite String.eqb_refl.
  - destruct (String.eqb k k') eqn:E; simpl; rewrite ?String.eqb_refl, ?E; auto.
Qed.

Lemma dict_get_set_ne k k' v d :
  k <> k' -> dict_get k' (dict_set k v d) = dict_get k' d.
Proof.
  intros Hne. induction d as [|[k0 v0] d IH]; simpl.
  - apply String.eqb_neq in Hne. rewrite String.eqb_sym in Hne. by rewrite Hne.
  - destruct (String.eqb k k0) eqn:E; simpl.
    + apply String.eqb_eq in E; subst k0.
      destruct (String.eqb k' k) eqn:E'; auto.
      apply String.eqb_eq in E'. congruence.
    + by rewrite IH.
Qed.

Lemma dict_set_fresh k v d : dict_get k d = None -> dict_set k v d = d ++ [(k, v)].
Proof.
  induction d as [|[k' v'] d IH]; simpl; auto.
  destruct (String.eqb k k'); [discriminate|]. intros H. by rewrite IH.
Qed.

Lemma dict_get_app k d d' :
  dict_get k (d ++ d') = match dict_get k d with Some v => Some v | None => dict_get k d' end.
Proof.
  induction d as [|[k' v'] d IH]; simpl; auto.
  destruct (String.eqb k k'); auto.
Qed.

Lemma dict_remove_absent k d : dict_get k d = None -> dict_remove k d = d.
Proof.
  unfold dict_remove. induction d as [|[k' v'] d IH]; simpl; auto.
  destruct (String.eqb k k'); [discriminate|]. intros H. simpl. by rewrite IH.
Qed.

Lemma dict_remove_last k v d : dict_get k d = None -> dict_remove k (d ++ [(k, v)]) = d.
Proof.
  intros H. unfold dict_remove. rewrite List.filter_app. fold (dict_remove k d).
  rewrite (dict_remove_absent _ _ H). simpl. rewrite String.eqb_refl. simpl.
  apply app_nil_r.
Qed.

Lemma dict_get_remove_eq k d : dict_get k (dict_remove k d) = None.
Proof.
  unfold dict_remove. induction d as [|[k' v'] d IH]; simpl; auto.
  destruct (String.eqb k k') eqn:E; simpl; [done|]. by rewrite E.
Qed.

Lemma dict_get_remove_ne k k' d : k <> k' -> dict_get k' (dict_remove k d) = dict_get k' d.
Proof.
  intros Hne. unfold dict_remove. induction d as [|[k0 v0] d IH]; simpl; auto.
  destruct (String.eqb k k0) eqn:E; simpl.
  - apply String.eqb_eq in E; subst k0.
    destruct (String.eqb k' k) eqn:E'; auto.
    apply String.eqb_eq in E'. congruence.
  - by rewrite IH.
Qed.

Lemma dict_get_None_notin k d : dict_get k d = None <-> ~ In k (map fst d).
Proof.
  induction d as [|[k' v'] d IH]; simpl; [tauto|].
  destruct (String.eqb k k') eqn:E.
  - apply String.eqb_eq in E. split; [discriminate|]. intros H; exfalso; apply H; auto.
  - apply String.eqb_neq in E. rewrite IH. split; [intros H [?|?]; [congruence|tauto] | tauto].
Qed.

End DictFacts.

(** ** The file system *)

Lemma fs_lookup_app p q n :
  fs_lookup (p ++ q) n = match fs_lookup p n with Some m => fs_lookup q m | None => None end.
Proof.
  revert n. induction p as [|c p IH]; intros n; simpl; auto.
  destruct n as [|es]; auto. destruct (dict_get c es); auto.
Qed.

(** A modification succeeds exactly on a directory whose entries [g]
    accepts, and leaves the new entries there. *)
Lemma fs_modify_ok g d n es es' :
  fs_lookup d n = Some (Dir es) -> g es = Some es' ->
  exists n', fs_modify g d n = Some n' /\ fs_lookup d n' = Some (Dir es').
Proof.
  revert n. induction d as [|c d IH]; intros n Hl Hg; simpl in *.
  - simplify_eq. rewrite Hg. eauto.
  - destruct n as [|es0]; [done|]. destruct (dict_get c es0) as [m|] eqn:E; [|done].
    destruct (IH m Hl Hg) as (m' & -> & Hm'). eexists; split; [done|].
    simpl. by rewrite dict_get_set_eq.
Qed.

Lemma fs_modify_inv g d n n' :
  fs_modify g d n = Some n' ->
  exists es es', fs_lookup d n = Some (Dir es) /\ g es = Some es'
                 /\ fs_lookup d n' = Some (Dir es').
Proof.
  revert n n'. induction d as [|c d IH]; intros n n' H; destruct n as [|es0]; simpl in *; try done.
  - destruct (g es0) eqn:E; simplify_eq. eauto.
  - destruct (dict_get c es0) as [m|] eqn:E; [|done].
    destruct (fs_modify g d m) as [m'|] eqn:E'; simplify_eq.
    destruct (IH _ _ E') as (es & es' & ? & ? & ?). exists es, es'.
    simpl. by rewrite dict_get_set_eq.
Qed.

(** What lies beside the entry that [g] touches is left alone. *)
Lemma fs_modify_frame g d b q n n' :
  fs_modify g d n = Some n' ->
  (forall es es', g es = Some es' -> dict_get b es' = dict_get b es) ->
  fs_lookup (d ++ b :: q) n' = fs_lookup (d ++ b :: q) n.
Proof.
  revert n n'. induction d as [|c d IH]; intros n n' H Hg; destruct n as [|es0]; simpl in *; try done.
  - destruct (g es0) eqn:E; simplify_eq. simpl. by rewrite (Hg _ _ E).
  - destruct (dict_get c es0) as [m|] eqn:E; [|done].
    destruct (fs_modify g d m) as [m'|] eqn:E'; simplify_eq.
    simpl. rewrite dict_get_set_eq. eauto.
Qed.

Lemma split_last_snoc d x : split_last (d ++ [x]) = Some (d, x).
Proof.
  induction d as [|c d IH]; simpl; [done|].
  rewrite IH. by destruct (d ++ [x]) eqn:E; [destruct d|].
Qed.

Lemma split_last_inv p d x : split_last p = Some (d, x) -> p = d ++ [x].
Proof.
  revert d. induction p as [|c p IH]; intros d H; simpl in *; [done|].
  destruct p as [|c' p]; [by simplify_eq|].
  destruct (split_last (c' :: p)) as [[d' x']|] eqn:E; simplify_eq.
  simpl. f_equal. by apply IH.
Qed.

(** ** Walking a path *)

Lemma rev_removelast (l : list string) : rev (removelast l) = tl (rev l).
Proof.
  destruct l as [|x l' _] using rev_ind; [done|].
  by rewrite removelast_last, rev_app_distr.
Qed.

(** A walk that gets through ends where the lexical form says. *)
Lemma walk_normalize fs cs : forall cur q,
  walk fs cur cs = Located q -> q = normalize (rev cur) cs.
Proof.
  induction cs as [|c cs IH]; intros cur q; cbn [walk normalize].
  - intros [= <-]. by rewrite rev_involutive.
  - destruct (fs_lookup cur fs) as [[|es]|]; try done.
    destruct (String.eqb c "" || String.eqb c "."); [apply IH|].
    destruct (String.eqb c "..").
    + intros H. apply IH in H. by rewrite rev_removelast in H.
    + intros H. apply IH in H. by rewrite rev_app_distr in H.
Qed.

Lemma locate_resolve p fs q : locate cwd p fs = Located q -> q = resolve' p.
Proof.
  unfold locate, start_of, resolve.
  destruct (String.eqb p ""); [done|].
  destruct (startswith p "/").
  - destruct (fs_lookup [] fs) as [[|?]|]; try done. apply walk_normalize.
  - destruct (fs_lookup cwd fs) as [[|?]|]; try done. apply walk_normalize.
Qed.

Lemma stat_node_inv p fs n :
  fs_stat cwd p fs = Node n ->
  locate cwd p fs = Located (resolve' p) /\ fs_lookup (resolve' p) fs = Some n.
Proof.
  unfold fs_stat. destruct (locate cwd p fs) as [q| |] eqn:E; try done.
  apply locate_resolve in E as ->.
  destruct (fs_lookup _ fs) eqn:E'; [|done]. by intros [= <-].
Qed.

(** *** Names and paths *)

Lemma chars_app a b :
  list_ascii_of_string (a +:+ b) = list_ascii_of_string a ++ list_ascii_of_string b.
Proof. induction a as [|c a IH]; simpl; [done|]. by rewrite IH. Qed.

Lemma chars_inj a b : list_ascii_of_string a = list_ascii_of_string b -> a = b.
Proof.
  intros H. apply (f_equal string_of_list_ascii) in H.
  by rewrite !string_of_list_ascii_of_string in H.
Qed.

Lemma append_inv_tail a b s : a +:+ s = b +:+ s -> a = b.
Proof.
  intros H. apply (f_equal list_ascii_of_string) in H. rewrite !chars_app in H.
  apply app_inv_tail in H. by apply chars_inj.
Qed.

(** Two strings whose last characters differ are different. *)
Ltac suffix_clash H :=
  apply (f_equal list_ascii_of_string) in H; rewrite ?chars_app in H;
  apply (f_equal (@rev ascii)) in H; rewrite ?rev_app_distr in H;
  simpl in H; discriminate H.

Lemma has_slash_app a b : has_slash (a +:+ b) = has_slash a || has_slash b.
Proof. induction a as [|c a IH]; simpl; [done|]. by rewrite IH, orb_assoc. Qed.

Lemma endswith_app p s : endswith (p +:+ s) s = true.
Proof.
  induction p as [|c p IH].
  - simpl. destruct s; cbn [endswith]; by rewrite String.eqb_refl.
  - cbn [String.append endswith]. rewrite IH. by destruct (String.eqb _ _).
Qed.

Lemma endswith_inv s suf : endswith s suf = true -> exists pre, s = pre +:+ suf.
Proof.
  induction s as [|c s IH]; cbn [endswith].
  - destruct (String.eqb_spec "" suf) as [<-|]; [by exists ""|done].
  - destruct (String.eqb_spec (String c s) suf) as [<-|]; [by exists ""|].
    intros H. destruct (IH H) as [pre ->]. by exists (String c pre).
Qed.

Lemma pdf_is_not_html p : endswith (p +:+ ".pdf") ".html" = false.
Proof.
  destruct (endswith _ _) eqn:E; [|done]. apply endswith_inv in E as [pre E].
  suffix_clash E.
Qed.

Lemma html_is_not_pdf p : endswith (p +:+ ".html") ".pdf" = false.
Proof.
  destruct (endswith _ _) eqn:E; [|done]. apply endswith_inv in E as [pre E].
  suffix_clash E.
Qed.

Lemma split_slash_plain n : has_slash n = false -> split_slash n = [n].
Proof.
  induction n as [|c n IH]; simpl; [done|].
  destruct (Ascii.eqb c "/"); [done|]. simpl. intros H. by rewrite IH.
Qed.

Lemma startswith_slash n : has_slash n = false -> startswith n "/" = false.
Proof.
  destruct n as [|c n]; [done|]. cbn [has_slash].
  destruct (Ascii.eqb_spec c "/") as [->|Hc]; [done|]. intros _.
  unfold startswith. cbn [String.prefix]. destruct (ascii_dec "/" c); [congruence|done].
Qed.

Lemma resolve_output : resolve' OUTPUT_DIR = cwd ++ ["output"].
Proof. unfold resolve. simpl. by rewrite rev_involutive. Qed.

Lemma resolve_config : resolve' CONFIG_FILE = cwd ++ ["release-config.yml"].
Proof. unfold resolve. simpl. by rewrite rev_involutive. Qed.

Lemma resolve_assets : resolve' ASSETS_DIR = cwd ++ ["assets"].
Proof. unfold resolve. simpl. by rewrite rev_involutive. Qed.

Lemma resolve_output_assets :
  resolve' (path_join OUTPUT_DIR ASSETS_DIR) = (cwd ++ ["output"]) ++ ["assets"].
Proof. unfold resolve. simpl. by rewrite rev_involutive, <- app_assoc. Qed.

Lemma resolve_in_output n :
  plain_name n -> resolve' (path_join OUTPUT_DIR n) = (cwd ++ ["output"]) ++ [n].
Proof.
  intros (Hs & H0 & H1 & H2). unfold path_join, resolve.
  rewrite (startswith_slash _ Hs). simpl. rewrite (split_slash_plain _ Hs). simpl.
  apply String.eqb_neq in H0, H1, H2. rewrite H0, H1, H2. simpl.
  by rewrite rev_involutive, <- app_assoc.
Qed.

Lemma plain_pdf p : has_slash p = false -> plain_name (p +:+ ".pdf").
Proof.
  intros Hp. split; [by rewrite has_slash_app, Hp|]. split_and!; intros E; suffix_clash E.
Qed.

Lemma plain_html p : has_slash p = false -> plain_name (p +:+ ".html").
Proof.
  intros Hp. split; [by rewrite has_slash_app, Hp|]. split_and!; intros E; suffix_clash E.
Qed.

Lemma plain_index : plain_name "index.html".
Proof. by split_and!. Qed.

(** Base names have no separator in them. *)
Lemma split_slash_no_slash s : Forall (fun c => has_slash c = false) (split_slash s).
Proof.
  induction s as [|c s IH]; simpl; [by repeat constructor|].
  destruct (Ascii.eqb c "/") eqn:E; [by constructor|].
  destruct (split_slash s) as [|h t]; [by repeat constructor; simpl; rewrite E|].
  apply Forall_cons in IH as [Hh Ht]. constructor; [|done]. simpl. by rewrite E.
Qed.

Lemma basename_no_slash s : has_slash (basename s) = false.
Proof.
  unfold basename. pose proof (split_slash_no_slash s) as H.
  induction H as [|x l Hx _ IH]; [done|]. destruct l; [done|]. exact IH.
Qed.

Lemma rsplit_dot_app s a e : rsplit_dot s = Some (a, e) -> s = a +:+ e.
Proof.
  revert a e. induction s as [|c s IH]; intros a e; simpl; [done|].
  destruct (rsplit_dot s) as [[a' e']|].
  - intros ?; simplify_eq. simpl. f_equal. by apply IH.
  - destruct (Ascii.eqb c "."); [|done]. intros ?; by simplify_eq.
Qed.

Lemma splitext_no_slash n : has_slash n = false -> has_slash (fst (splitext n)) = false.
Proof.
  intros Hn. unfold splitext. destruct (rsplit_dot n) as [[a e]|] eqn:E; [|done].
  destruct (all_dots a); [done|]. simpl.
  apply rsplit_dot_app in E. subst n. rewrite has_slash_app in Hn.
  by apply orb_false_elim in Hn as [? _].
Qed.

Lemma base_name_no_slash t : has_slash (base_name t) = false.
Proof. apply splitext_no_slash, basename_no_slash. Qed.

Lemma split_slash_nonempty s : split_slash s <> [].
Proof.
  destruct s as [|c s]; simpl; [done|].
  destruct (Ascii.eqb c "/"); [done|]. by destruct (split_slash s).
Qed.

Lemma split_slash_app_slash a b :
  split_slash (a +:+ "/" +:+ b) = split_slash a ++ split_slash b.
Proof.
  induction a as [|c a IH]; [done|].
  change (String c a +:+ "/" +:+ b) with (String c (a +:+ "/" +:+ b)).
  cbn [split_slash]. rewrite IH.
  destruct (Ascii.eqb c "/"); [done|].
  pose proof (split_slash_nonempty a). by destruct (split_slash a).
Qed.

Lemma normalize_plain ns : forall acc,
  Forall plain_name ns -> normalize acc ns = rev acc ++ ns.
Proof.
  induction ns as [|n ns IH]; intros acc Hns; simpl; [by rewrite app_nil_r|].
  apply Forall_cons in Hns as [(_ & H0 & H1 & H2) Hns].
  apply String.eqb_neq in H0, H1, H2. rewrite H0, H1, H2. simpl.
  rewrite (IH _ Hns). simpl. by rewrite <- app_assoc.
Qed.

(** *** Walking to the script's own paths *)

Lemma plain_not_empty n : plain_name n -> String.eqb n "" = false.
Proof. intros (_ & H & _). by apply String.eqb_neq. Qed.

Lemma plain_component n : plain_name n ->
  String.eqb n "" || String.eqb n "." = false /\ String.eqb n ".." = false.
Proof.
  intros (_ & H0 & H1 & H2). apply String.eqb_neq in H0, H1, H2. by rewrite H0, H1, H2.
Qed.

Lemma path_join_plain a b :
  plain_name a -> has_slash b = false -> path_join a b = a +:+ "/" +:+ b.
Proof.
  intros Ha Hb. unfold path_join. rewrite (startswith_slash _ Hb).
  rewrite (plain_not_empty _ Ha). destruct (endswith a "/") eqn:E; [|done].
  apply endswith_inv in E as [pre ->]. destruct Ha as (Hs & _).
  rewrite has_slash_app in Hs. by destruct (has_slash pre).
Qed.

Lemma append_not_empty a b : String.eqb (a +:+ "/" +:+ b) "" = false.
Proof. by destruct a. Qed.

Lemma startswith_app a b : a <> "" -> startswith (a +:+ b) "/" = startswith a "/".
Proof.
  destruct a as [|c a]; [done|]. intros _. unfold startswith.
  change (String c a +:+ b) with (String c (a +:+ b)). cbn [String.prefix].
  destruct (ascii_dec "/" c); [|done]. by destruct (a +:+ b), a.
Qed.

(** The working directory is a directory wherever a name is found in
    it. *)
Lemma start_of_cwd p fs es :
  String.eqb p "" = false -> startswith p "/" = false ->
  fs_lookup cwd fs = Some (Dir es) -> start_of cwd p fs = Some cwd.
Proof. intros Hp Hs Hc. unfold start_of. by rewrite Hp, Hs, Hc. Qed.

Lemma start_of_gone p fs :
  startswith p "/" = false ->
  (forall es, fs_lookup cwd fs <> Some (Dir es)) -> start_of cwd p fs = None.
Proof.
  intros Hs Hc. unfold start_of. rewrite Hs. destruct (String.eqb p ""); [done|].
  destruct (fs_lookup cwd fs) as [[|es]|]; try done. by destruct (Hc es).
Qed.

Lemma lookup_below_gone d r fs :
  (forall es, fs_lookup d fs <> Some (Dir es)) -> r <> [] -> fs_lookup (d ++ r) fs = None.
Proof.
  intros Hd Hr. rewrite fs_lookup_app. destruct (fs_lookup d fs) as [[|es]|]; try done.
  - by destruct r.
  - by destruct (Hd es).
Qed.

Lemma locate_plain n fs es :
  plain_name n -> fs_lookup cwd fs = Some (Dir es) -> locate cwd n fs = Located (cwd ++ [n]).
Proof.
  intros Hn Hc. unfold locate.
  rewrite (start_of_cwd _ _ es);
    [|by apply plain_not_empty|by apply startswith_slash, Hn|done].
  rewrite (split_slash_plain _ (proj1 Hn)). cbn [walk]. rewrite Hc.
  destruct (plain_component _ Hn) as [-> ->]. done.
Qed.

Lemma locate_plain_found n fs x :
  plain_name n -> fs_lookup (cwd ++ [n]) fs = Some x -> locate cwd n fs = Located (cwd ++ [n]).
Proof.
  intros Hn Hx. rewrite fs_lookup_app in Hx.
  destruct (fs_lookup cwd fs) as [[|es]|] eqn:Hc; try done.
  by eapply locate_plain.
Qed.

Lemma stat_plain n fs :
  plain_name n ->
  fs_stat cwd n fs = match fs_lookup (cwd ++ [n]) fs with
                     | Some x => Node x
                     | None => Absent
                     end.
Proof.
  intros Hn. unfold fs_stat.
  destruct (fs_lookup cwd fs) as [[|es]|] eqn:Hc.
  - unfold locate. rewrite start_of_gone;
      [|by apply startswith_slash, Hn|by intros es; rewrite Hc].
    by rewrite lookup_below_gone by (by rewrite ?Hc).
  - by rewrite (locate_plain _ _ _ Hn Hc).
  - unfold locate. rewrite start_of_gone;
      [|by apply startswith_slash, Hn|by intros es; rewrite Hc].
    by rewrite lookup_below_gone by (by rewrite ?Hc).
Qed.

Lemma split_slash_nested a b :
  plain_name a -> has_slash b = false -> split_slash (path_join a b) = [a; b].
Proof.
  intros Ha Hb. rewrite (path_join_plain _ _ Ha Hb), split_slash_app_slash.
  by rewrite (split_slash_plain _ (proj1 Ha)), (split_slash_plain _ Hb).
Qed.

Lemma start_of_nested a b fs es :
  plain_name a -> has_slash b = false ->
  fs_lookup cwd fs = Some (Dir es) -> start_of cwd (path_join a b) fs = Some cwd.
Proof.
  intros Ha Hb Hc. apply (start_of_cwd _ _ es); [| |done];
    rewrite (path_join_plain _ _ Ha Hb).
  - apply append_not_empty.
  - rewrite startswith_app by apply Ha. apply startswith_slash, Ha.
Qed.

(** A name in a directory that is there. *)
Lemma locate_nested a b fs es :
  plain_name a -> plain_name b ->
  fs_lookup (cwd ++ [a]) fs = Some (Dir es) ->
  locate cwd (path_join a b) fs = Located ((cwd ++ [a]) ++ [b]).
Proof.
  intros Ha Hb Hd. pose proof Hd as Hd'. rewrite fs_lookup_app in Hd'.
  destruct (fs_lookup cwd fs) as [[|es0]|] eqn:Hc; try done.
  unfold locate. rewrite (start_of_nested _ _ _ _ Ha (proj1 Hb) Hc).
  rewrite (split_slash_nested _ _ Ha (proj1 Hb)). cbn [walk]. rewrite Hc.
  destruct (plain_component _ Ha) as [-> ->]. rewrite Hd.
  destruct (plain_component _ Hb) as [-> ->]. done.
Qed.

Lemma stat_nested a b fs es :
  plain_name a -> plain_name b ->
  fs_lookup (cwd ++ [a]) fs = Some (Dir es) ->
  fs_stat cwd (path_join a b) fs = match dict_get b es with
                                   | Some x => Node x
                                   | None => Absent
                                   end.
Proof.
  intros Ha Hb Hd. unfold fs_stat. rewrite (locate_nested _ _ _ _ Ha Hb Hd).
  rewrite fs_lookup_app, Hd. cbn [fs_lookup]. by destruct (dict_get b es).
Qed.

Lemma plain_output : plain_name OUTPUT_DIR.
Proof. by split_and!. Qed.

Lemma plain_assets : plain_name ASSETS_DIR.
Proof. by split_and!. Qed.

Lemma plain_config : plain_name CONFIG_FILE.
Proof. by split_and!. Qed.

Lemma stat_output fs :
  fs_stat cwd OUTPUT_DIR fs = match fs_lookup (cwd ++ ["output"]) fs with
                              | Some x => Node x
                              | None => Absent
                              end.
Proof. exact (stat_plain _ _ plain_output). Qed.

Lemma stat_assets fs :
  fs_stat cwd ASSETS_DIR fs = match fs_lookup (cwd ++ ["assets"]) fs with
                              | Some x => Node x
                              | None => Absent
                              end.
Proof. exact (stat_plain _ _ plain_assets). Qed.

Lemma stat_config fs :
  fs_stat cwd CONFIG_FILE fs = match fs_lookup (cwd ++ ["release-config.yml"]) fs with
                               | Some x => Node x
                               | None => Absent
                               end.
Proof. exact (stat_plain _ _ plain_config). Qed.

Lemma locate_output fs x :
  fs_lookup (cwd ++ ["output"]) fs = Some x ->
  locate cwd OUTPUT_DIR fs = Located (cwd ++ ["output"]).
Proof. exact (locate_plain_found _ _ _ plain_output). Qed.

(** Below the output directory. *)
Lemma locate_in_output n fs es :
  plain_name n -> fs_lookup (cwd ++ ["output"]) fs = Some (Dir es) ->
  locate cwd (path_join OUTPUT_DIR n) fs = Located ((cwd ++ ["output"]) ++ [n]).
Proof. intros Hn. exact (locate_nested _ _ _ _ plain_output Hn). Qed.

Lemma stat_in_output n fs es :
  plain_name n -> fs_lookup (cwd ++ ["output"]) fs = Some (Dir es) ->
  fs_stat cwd (path_join OUTPUT_DIR n) fs = match dict_get n es with
                                            | Some x => Node x
                                            | None => Absent
                                            end.
Proof. intros Hn. exact (stat_nested _ _ _ _ plain_output Hn). Qed.

(** *** Making directories *)

Lemma set_fs_same w : set_fs (w_fs w) w = w.
Proof. by destruct w. Qed.

Lemma fs_lookup_entry d a n es :
  fs_lookup d n = Some (Dir es) -> fs_lookup (d ++ [a]) n = dict_get a es.
Proof. intros H. rewrite fs_lookup_app, H. simpl. by destruct (dict_get a es). Qed.

(** [os.mkdir] of a name in a directory that is there. *)
Lemma mkdir_entry d n p content fs es :
  plain_name n -> fs_lookup d fs = Some (Dir es) ->
  walk fs d [n] = Located (d ++ [n]) /\
  mkdir d [n] p content fs =
  match dict_get n es with
  | Some _ => Raise (FileExistsError p)
  | None =>
      match fs_modify (fun es => Some (es ++ [(n, Dir content)])) d fs with
      | Some fs' => Ok fs'
      | None => Raise (FileNotFoundError p)
      end
  end.
Proof.
  intros Hn Hd.
  assert (walk fs d [n] = Located (d ++ [n])) as Hw.
  { cbn [walk]. rewrite Hd. by destruct (plain_component _ Hn) as [-> ->]. }
  split; [done|]. unfold mkdir. rewrite Hw, (fs_lookup_entry _ _ _ _ Hd), split_last_snoc.
  by destruct (dict_get n es).
Qed.

Lemma makedirs_plain n content fs :
  plain_name n ->
  makedirs cwd n content fs =
  match fs_lookup cwd fs with
  | Some (Dir es) =>
      match dict_get n es with
      | Some _ => (Some (FileExistsError n), fs)
      | None =>
          match fs_modify (fun es => Some (es ++ [(n, Dir content)])) cwd fs with
          | Some fs' => (None, fs')
          | None => (Some (FileNotFoundError n), fs)
          end
      end
  | _ => (Some (FileNotFoundError n), fs)
  end.
Proof.
  intros Hn. unfold makedirs.
  destruct (fs_lookup cwd fs) as [[|es]|] eqn:Hc.
  - rewrite start_of_gone; [done|by apply startswith_slash, Hn|by intros es; rewrite Hc].
  - rewrite (start_of_cwd _ _ es);
      [|by apply plain_not_empty|by apply startswith_slash, Hn|done].
    rewrite (split_slash_plain _ (proj1 Hn)). cbn [mkdirs app].
    destruct (mkdir_entry cwd n n content fs es Hn Hc) as [_ ->].
    destruct (dict_get n es); [done|]. by destruct (fs_modify _ _ _).
  - rewrite start_of_gone; [done|by apply startswith_slash, Hn|by intros es; rewrite Hc].
Qed.

(** What [os.makedirs] of a name in the working directory comes to:
    a new entry at the end of the working directory, or no change. *)
Lemma makedirs_plain_inv n content fs r fs' :
  plain_name n -> makedirs cwd n content fs = (r, fs') ->
  match r with
  | None =>
      exists es, fs_lookup cwd fs = Some (Dir es) /\ dict_get n es = None /\
        fs_modify (fun es => Some (es ++ [(n, Dir content)])) cwd fs = Some fs' /\
        fs_lookup cwd fs' = Some (Dir (es ++ [(n, Dir content)]))
  | Some _ => fs' = fs
  end.
Proof.
  intros Hn. rewrite (makedirs_plain _ _ _ Hn).
  destruct (fs_lookup cwd fs) as [[|es]|] eqn:Hc; try (intros ?; by simplify_eq).
  destruct (dict_get n es) eqn:Hfree; [intros ?; by simplify_eq|].
  destruct (fs_modify_ok (fun es => Some (es ++ [(n, Dir content)])) _ _ _ _ Hc eq_refl)
    as (fs1 & Hmod & Hnew).
  rewrite Hmod. intros ?; simplify_eq. eauto.
Qed.

Lemma dict_get_snoc {V} k (v : V) d : dict_get k d = None -> dict_get k (d ++ [(k, v)]) = Some v.
Proof. intros H. rewrite dict_get_app, H. simpl. by rewrite String.eqb_refl. Qed.

(** [os.makedirs] of a name in a directory of the working directory:
    the directory is made if it is missing, then the name in it. *)
Lemma makedirs_nested a b content fs :
  plain_name a -> plain_name b ->
  makedirs cwd (path_join a b) content fs =
  let p := path_join a b in
  let add n x := fun es : list (string * node) => Some (es ++ [(n, x)]) in
  match fs_lookup cwd fs with
  | Some (Dir es) =>
      match dict_get a es with
      | Some (Dir ea) =>
          match dict_get b ea with
          | Some _ => (Some (FileExistsError p), fs)
          | None =>
              match fs_modify (add b (Dir content)) (cwd ++ [a]) fs with
              | Some fs' => (None, fs')
              | None => (Some (FileNotFoundError p), fs)
              end
          end
      | Some (File _) => (Some (NotADirectoryError p), fs)
      | None =>
          match fs_modify (add a (Dir [])) cwd fs with
          | Some fs1 =>
              match fs_modify (add b (Dir content)) (cwd ++ [a]) fs1 with
              | Some fs' => (None, fs')
              | None => (Some (FileNotFoundError p), fs1)
              end
          | None => (Some (FileNotFoundError p), fs)
          end
      end
  | _ => (Some (FileNotFoundError (path_join a b)), fs)
  end.
Proof.
  intros Ha Hb. cbn zeta. unfold makedirs.
  destruct (fs_lookup cwd fs) as [[|es]|] eqn:Hc.
  - rewrite start_of_gone; [done| |by intros es; rewrite Hc].
    rewrite (path_join_plain _ _ Ha (proj1 Hb)), startswith_app by apply Ha.
    apply startswith_slash, Ha.
  - rewrite (start_of_nested _ _ _ _ Ha (proj1 Hb) Hc).
    rewrite (split_slash_nested _ _ Ha (proj1 Hb)). cbn [mkdirs app].
    assert (forall fs0 es0 ea,
              fs_lookup cwd fs0 = Some (Dir es0) -> dict_get a es0 = Some (Dir ea) ->
              mkdir cwd [a; b] (path_join a b) content fs0 =
              match dict_get b ea with
              | Some _ => Raise (FileExistsError (path_join a b))
              | None =>
                  match fs_modify (fun es => Some (es ++ [(b, Dir content)])) (cwd ++ [a]) fs0 with
                  | Some fs' => Ok fs'
                  | None => Raise (FileNotFoundError (path_join a b))
                  end
              end) as Hlast.
    { intros fs0 es0 ea H0 Hea. unfold mkdir. cbn [walk]. rewrite H0.
      destruct (plain_component _ Ha) as [-> ->].
      assert (fs_lookup (cwd ++ [a]) fs0 = Some (Dir ea)) as Hda
        by (by rewrite (fs_lookup_entry _ _ _ _ H0)).
      rewrite Hda. destruct (plain_component _ Hb) as [-> ->].
      rewrite (fs_lookup_entry _ _ _ _ Hda), split_last_snoc.
      by destruct (dict_get b ea). }
    unfold exists_at. destruct (mkdir_entry cwd a (path_join a b) [] fs es Ha Hc) as [-> Hmk].
    rewrite (fs_lookup_entry _ _ _ _ Hc).
    destruct (dict_get a es) as [[c|ea]|] eqn:Hea.
    + unfold mkdir. cbn [walk]. rewrite Hc. destruct (plain_component _ Ha) as [-> ->].
      by rewrite (fs_lookup_entry _ _ _ _ Hc), Hea.
    + rewrite (Hlast _ _ _ Hc Hea). destruct (dict_get b ea); [done|].
      by destruct (fs_modify _ _ _).
    + rewrite Hmk.
      destruct (fs_modify_ok (fun es => Some (es ++ [(a, Dir [])])) _ _ _ _ Hc eq_refl)
        as (fs1 & Hmod & Hnew).
      rewrite Hmod. rewrite (Hlast _ _ [] Hnew) by (by apply dict_get_snoc).
      cbn [dict_get]. by destruct (fs_modify _ _ fs1).
  - rewrite start_of_gone; [done| |by intros es; rewrite Hc].
    rewrite (path_join_plain _ _ Ha (proj1 Hb)), startswith_app by apply Ha.
    apply startswith_slash, Ha.
Qed.

(** ** The monad *)

Lemma bind_Ok {A B} (m : M A) (k : A -> M B) w a w' :
  m w = (Ok a, w') -> bind m k w = k a w'.
Proof. unfold bind. by intros ->. Qed.

Lemma bind_Raise {A B} (m : M A) (k : A -> M B) w e w' :
  m w = (Raise e, w') -> bind m k w = (Raise e, w').
Proof. unfold bind. by intros ->. Qed.

Lemma for_fold_app {A S} (body : S -> A -> M S) l1 l2 s w :
  for_fold body (l1 ++ l2) s w =
  match for_fold body l1 s w with
  | (Ok s', w') => for_fold body l2 s' w'
  | (Raise e, w') => (Raise e, w')
  end.
Proof.
  revert s w. induction l1 as [|x l1 IH]; intros s w; simpl; [done|].
  unfold bind. destruct (body s x w) as [[s'|e] w']; auto.
Qed.

Lemma for_each_app {A} (body : A -> M unit) l1 l2 w :
  for_each body (l1 ++ l2) w =
  match for_each body l1 w with
  | (Ok _, w') => for_each body l2 w'
  | (Raise e, w') => (Raise e, w')
  end.
Proof.
  revert w. induction l1 as [|x l1 IH]; intros w; simpl; [done|].
  unfold bind. destruct (body x w) as [[[]|e] w']; auto.
Qed.

Section Preserves.
Context (R : World -> World -> Prop) `{!PreOrder R}.

Lemma preserves_ret {A} (a : A) : preserves R (ret a).
Proof. intros w. simpl. reflexivity. Qed.

Lemma preserves_raise {A} e : preserves R (raise (A:=A) e).
Proof. intros w. simpl. reflexivity. Qed.

Lemma preserves_bind {A B} (m : M A) (k : A -> M B) :
  preserves R m -> (forall a, preserves R (k a)) -> preserves R (bind m k).
Proof.
  intros Hm Hk w. unfold bind. specialize (Hm w).
  destruct (m w) as [[a|e] w']; simpl in *; [|done].
  etrans; [exact Hm|apply Hk].
Qed.

Lemma preserves_for_each {A} (body : A -> M unit) l :
  (forall x, preserves R (body x)) -> preserves R (for_each body l).
Proof.
  intros Hb. induction l; simpl; [apply preserves_ret|].
  apply preserves_bind; auto.
Qed.

Lemma preserves_for_fold {A S} (body : S -> A -> M S) l s :
  (forall s x, preserves R (body s x)) -> preserves R (for_fold body l s).
Proof.
  intros Hb. revert s. induction l; intros s; simpl; [apply preserves_ret|].
  apply preserves_bind; auto.
Qed.

Lemma preserves_try {A} (m : M A) h :
  preserves R m -> (forall rc cmd out err, preserves R (h rc cmd out err)) ->
  preserves R (try_except_cpe m h).
Proof.
  intros Hm Hh w. unfold try_except_cpe. specialize (Hm w).
  destruct (m w) as [[a|[]] w']; simpl in *; try done.
  etrans; [exact Hm|apply Hh].
Qed.

End Preserves.

#[local] Instance same_fs_preorder : PreOrder same_fs.
Proof. split; [done|]. intros x y z. unfold same_fs. congruence. Qed.

#[local] Instance same_heap_preorder : PreOrder same_heap.
Proof. split; [done|]. intros x y z. unfold same_heap. congruence. Qed.

#[local] Instance grows_by_preorder P : PreOrder (grows_by P).
Proof.
  split.
  - intros w. exists []. by rewrite app_nil_r.
  - intros x y z (e1 & H1 & F1) (e2 & H2 & F2). exists (e1 ++ e2).
    rewrite H2, H1, app_assoc. split; [done|]. by apply Forall_app.
Qed.

Lemma events_since_app w w' evs :
  w_trace w' = w_trace w ++ evs -> events_since w w' = evs.
Proof. unfold events_since. intros ->. apply drop_app_length. Qed.

(** ** The script *)

Ltac grows :=
  first [ exists []; split; [by rewrite app_nil_r | by constructor]
        | eexists [_]; split; [reflexivity | by repeat constructor] ].

Ltac prim :=
  intros w; unfold same_fs, same_heap, grows_by;
  repeat (case_match; simpl; try done); simpl; try done; try grows.

(** *** What each primitive leaves alone *)

Lemma print_fs s : preserves same_fs (print s).
Proof. done. Qed.
Lemma print_heap s : preserves same_heap (print s).
Proof. done. Qed.
Lemma print_grows (P : event -> Prop) s : P (EvPrint s) -> preserves (grows_by P) (print s).
Proof. intros HP w. eexists [_]. split; [done|]. by repeat constructor. Qed.

Lemma exists_fs p : preserves same_fs (os_path_exists p).
Proof. unfold os_path_exists. prim. Qed.
Lemma exists_heap p : preserves same_heap (os_path_exists p).
Proof. unfold os_path_exists. prim. Qed.
Lemma exists_grows P p : preserves (grows_by P) (os_path_exists p).
Proof. unfold os_path_exists. prim. Qed.

Lemma listdir_fs p : preserves same_fs (os_listdir p).
Proof. unfold os_listdir. prim. Qed.
Lemma listdir_heap p : preserves same_heap (os_listdir p).
Proof. unfold os_listdir. prim. Qed.
Lemma listdir_grows P p : preserves (grows_by P) (os_listdir p).
Proof. unfold os_listdir. prim. Qed.

Lemma read_file_fs p : preserves same_fs (read_file p).
Proof. unfold read_file. prim. Qed.
Lemma read_file_heap p : preserves same_heap (read_file p).
Proof. unfold read_file. prim. Qed.
Lemma read_file_grows P p : preserves (grows_by P) (read_file p).
Proof. unfold read_file. prim. Qed.

Lemma yaml_load_fs t : preserves same_fs (yaml_load t).
Proof. unfold yaml_load. prim. Qed.
Lemma yaml_load_heap t : preserves same_heap (yaml_load t).
Proof. unfold yaml_load. prim. Qed.
Lemma yaml_load_grows P t : preserves (grows_by P) (yaml_load t).
Proof. unfold yaml_load. prim. Qed.

Lemma subscript_fs v k : preserves same_fs (subscript v k).
Proof. unfold subscript. prim. Qed.
Lemma subscript_heap v k : preserves same_heap (subscript v k).
Proof. unfold subscript. prim. Qed.
Lemma subscript_grows P v k : preserves (grows_by P) (subscript v k).
Proof. unfold subscript. prim. Qed.

Lemma py_iter_fs v : preserves same_fs (py_iter v).
Proof. unfold py_iter. prim. Qed.
Lemma py_iter_heap v : preserves same_heap (py_iter v).
Proof. unfold py_iter. prim. Qed.
Lemma py_iter_grows P v : preserves (grows_by P) (py_iter v).
Proof. unfold py_iter. prim. Qed.

Lemma getitem_fs r k : preserves same_fs (getitem r k).
Proof. unfold getitem. prim. Qed.
Lemma getitem_heap r k : preserves same_heap (getitem r k).
Proof. unfold getitem. prim. Qed.
Lemma getitem_grows P r k : preserves (grows_by P) (getitem r k).
Proof. unfold getitem. prim. Qed.

Lemma alloc_fs d : preserves same_fs (alloc d).
Proof. done. Qed.
Lemma alloc_grows P d : preserves (grows_by P) (alloc d).
Proof. unfold alloc. prim. Qed.

Lemma setitem_fs r k v : preserves same_fs (setitem r k v).
Proof. done. Qed.
Lemma setitem_grows (P : event -> Prop) r k v :
  P (EvSetItem r k v) -> preserves (grows_by P) (setitem r k v).
Proof. intros HP w. eexists [_]. split; [done|]. by repeat constructor. Qed.

Lemma make_ctx_fs c l i : preserves same_fs (make_ctx c l i).
Proof. done. Qed.
Lemma make_ctx_heap c l i : preserves same_heap (make_ctx c l i).
Proof. done. Qed.
Lemma make_ctx_grows P c l i : preserves (grows_by P) (make_ctx c l i).
Proof. unfold make_ctx. prim. Qed.

Lemma render_fs n c : preserves same_fs (render n c).
Proof. unfold render. prim. Qed.
Lemma render_heap n c : preserves same_heap (render n c).
Proof. unfold render. prim. Qed.
Lemma render_grows (P : event -> Prop) n c :
  P (EvRender n c) -> preserves (grows_by P) (render n c).
Proof. intros HP. unfold render. prim. Qed.

Lemma write_file_heap p c : preserves same_heap (write_file p c).
Proof. unfold write_file. prim. Qed.
Lemma write_file_grows (P : event -> Prop) p c :
  P (EvWrite p c) -> preserves (grows_by P) (write_file p c).
Proof. intros HP. unfold write_file. prim. Qed.

Lemma rmtree_heap p : preserves same_heap (shutil_rmtree p).
Proof. unfold shutil_rmtree. prim. Qed.
Lemma rmtree_grows (P : event -> Prop) p :
  P (EvRmtree p) -> preserves (grows_by P) (shutil_rmtree p).
Proof. intros HP. unfold shutil_rmtree. prim. Qed.

Lemma makedirs_heap p : preserves same_heap (os_makedirs p).
Proof. unfold os_makedirs. prim. Qed.
Lemma makedirs_grows (P : event -> Prop) p :
  P (EvMakedirs p) -> preserves (grows_by P) (os_makedirs p).
Proof. intros HP. unfold os_makedirs. prim. Qed.

Lemma copytree_heap s d : preserves same_heap (shutil_copytree s d).
Proof. unfold shutil_copytree. prim. Qed.
Lemma copytree_grows (P : event -> Prop) s d :
  P (EvCopytree s d) -> preserves (grows_by P) (shutil_copytree s d).
Proof. intros HP. unfold shutil_copytree. prim. Qed.

Lemma rename_heap s d : preserves same_heap (os_rename s d).
Proof. unfold os_rename. prim. Qed.
Lemma rename_grows (P : event -> Prop) s d :
  P (EvMove s d) -> preserves (grows_by P) (os_rename s d).
Proof. intros HP. unfold os_rename. prim. Qed.

Lemma move_heap s d : preserves same_heap (shutil_move s d).
Proof.
  intros w. unfold shutil_move. repeat case_match; try apply rename_heap; done.
Qed.
Lemma move_grows (P : event -> Prop) s d :
  (forall d', P (EvMove s d')) -> preserves (grows_by P) (shutil_move s d).
Proof.
  intros HP w. unfold shutil_move.
  repeat case_match; try (apply rename_grows; apply HP); reflexivity.
Qed.

Lemma subprocess_run_heap argv : preserves same_heap (subprocess_run argv).
Proof. unfold subprocess_run. prim. Qed.
Lemma subprocess_run_grows (P : event -> Prop) argv :
  P (EvSpawn argv) -> preserves (grows_by P) (subprocess_run argv).
Proof. intros HP. unfold subprocess_run. prim. Qed.

Create HintDb pres discriminated.

#[local] Hint Resolve
  print_fs print_heap exists_fs exists_heap exists_grows
  listdir_fs listdir_heap listdir_grows read_file_fs read_file_heap read_file_grows
  yaml_load_fs yaml_load_heap yaml_load_grows subscript_fs subscript_heap subscript_grows
  py_iter_fs py_iter_heap py_iter_grows getitem_fs getitem_heap getitem_grows
  alloc_fs alloc_grows setitem_fs make_ctx_fs make_ctx_heap make_ctx_grows
  render_fs render_heap write_file_heap rmtree_heap makedirs_heap copytree_heap
  rename_heap move_heap subprocess_run_heap : pres.

(** Walk down a computation, bind after bind. *)
Ltac pres :=
  repeat first
    [ solve [ eauto with pres ]
    | apply preserves_bind; [apply _ | | intros ? ]
    | apply preserves_ret; apply _
    | apply preserves_raise; apply _
    | apply preserves_for_each; [apply _ | intros ? ]
    | apply preserves_for_fold; [apply _ | intros ? ? ]
    | apply preserves_try; [apply _ | | intros ? ? ? ? ]
    | apply print_grows; done
    | apply setitem_grows; done
    | apply render_grows; done
    | apply write_file_grows; done
    | apply rmtree_grows; done
    | apply makedirs_grows; done
    | apply copytree_grows; done
    | apply move_grows; done
    | apply subprocess_run_grows; done
    | case_match ].

(** *** The two halves of the run *)

(** Loading reads the file system and never writes it. *)
Lemma load_item_fs rc item_id : preserves same_fs (load_item rc item_id).
Proof. unfold load_item. pres. Qed.
#[local] Hint Resolve load_item_fs : pres.

Lemma load_content_fs config : preserves same_fs (load_content config).
Proof. unfold load_content. pres. Qed.

(** Loading puts nothing into the output tree. *)
Lemma load_item_no_artifact rc item_id :
  preserves (grows_by (fun e => is_artifact e = false)) (load_item rc item_id).
Proof. unfold load_item. pres. Qed.

#[local] Hint Resolve load_item_no_artifact : pres.

Lemma load_content_no_artifact config :
  preserves (grows_by (fun e => is_artifact e = false)) (load_content config).
Proof. unfold load_content. pres. Qed.

(** Nothing after the loading step touches a metadata record. *)
Lemma run_pdflatex_heap tex out : preserves same_heap (run_pdflatex tex out).
Proof. unfold run_pdflatex. pres. Qed.
#[local] Hint Resolve run_pdflatex_heap : pres.

Lemma build_item_heap config rc item : preserves same_heap (build_item config rc item).
Proof. unfold build_item. pres. Qed.
#[local] Hint Resolve build_item_heap : pres.

Lemma main_produce_heap config rc : preserves same_heap (main_produce config rc).
Proof. unfold main_produce, build_pdfs, build_website, copy_assets. pres. Qed.

Lemma main_produce_no_setitem config rc :
  preserves (grows_by (fun e => is_setitem e = false)) (main_produce config rc).
Proof.
  unfold main_produce, build_pdfs, build_website, copy_assets, build_item, run_pdflatex.
  pres.
Qed.

(** Steps 1 and 2 touch no record and produce no artifact. *)
Lemma main_init_heap : preserves same_heap main_init.
Proof. unfold main_init, load_config, setup_output. pres. Qed.

Lemma main_init_no_artifact :
  preserves (grows_by (fun e => is_artifact e = false)) main_init.
Proof. unfold main_init, load_config, setup_output. pres. Qed.

(** *** How [main] is put together *)

Lemma load_content_ids d ids w :
  dict_get "content_ids" d = Some (PList ids) ->
  load_content (PDict d) w = for_fold load_item ids [] (log loading_banner w).
Proof. intros H. unfold load_content, bind, print, subscript. simpl. by rewrite H. Qed.

Lemma main_aborts_in_load w config w1 e w2 :
  main_init w = (Ok config, w1) ->
  load_content config w1 = (Raise e, w2) ->
  main w = (Raise e, w2).
Proof.
  intros H1 H2. unfold main. rewrite (bind_Ok _ _ _ _ _ H1).
  by rewrite (bind_Raise _ _ _ _ _ H2).
Qed.

Lemma main_reaches_produce w config w1 rc w2 :
  main_init w = (Ok config, w1) ->
  load_content config w1 = (Ok rc, w2) ->
  main w = main_produce config rc w2.
Proof.
  intros H1 H2. unfold main. rewrite (bind_Ok _ _ _ _ _ H1).
  by rewrite (bind_Ok _ _ _ _ _ H2).
Qed.

(** A round that raises ends the loop, whatever is still to come. *)
Lemma for_fold_raises {A S} (body : S -> A -> M S) pre x post s w s' w' e w'' :
  for_fold body pre s w = (Ok s', w') ->
  body s' x w' = (Raise e, w'') ->
  for_fold body (pre ++ x :: post) s w = (Raise e, w'').
Proof.
  intros H1 H2. rewrite for_fold_app, H1. simpl. by rewrite (bind_Raise _ _ _ _ _ H2).
Qed.

Lemma for_each_raises {A} (body : A -> M unit) pre x post w w' e w'' :
  for_each body pre w = (Ok tt, w') ->
  body x w' = (Raise e, w'') ->
  for_each body (pre ++ x :: post) w = (Raise e, w'').
Proof.
  intros H1 H2. rewrite for_each_app, H1. simpl. by rewrite (bind_Raise _ _ _ _ _ H2).
Qed.

(** *** The compiler invoker *)

(** C1 (the code departs from it): one call of [run_pdflatex] starts the
    external compiler once, not twice: the trace gains exactly one spawn
    event when the command can be started, and none otherwise. *)
Theorem run_pdflatex_invokes_compiler_once (tex out : string) (w : World) :
  List.filter is_spawn (events_since w (snd (run_pdflatex tex out w))) =
  match os_exec (latexmk_argv tex out) (w_fs w) with
  | NotFound => []
  | Exited _ _ _ _ => [EvSpawn (latexmk_argv tex out)]
  end.
Proof.
  unfold run_pdflatex, try_except_cpe, subprocess_run. fold (latexmk_argv tex out).
  destruct (os_exec (latexmk_argv tex out) (w_fs w)) as [|rc so se fs'] eqn:E.
  - simpl. unfold events_since. by rewrite drop_all.
  - destruct (rc =? 0)%Z eqn:Hrc; simpl.
    + by rewrite (events_since_app _ _ [EvSpawn (latexmk_argv tex out)]).
    + rewrite (events_since_app _ _
        [EvSpawn (latexmk_argv tex out); EvPrint ("Error compiling " +:+ tex +:+ ".");
         EvPrint so; EvPrint se]); [done|].
      simpl. by rewrite <- !app_assoc.
Qed.

(** *** The content loader *)

(** A name found by its extension is not the empty string, so that the
    truth value of [metadata_file] and of [tex_file] is that of having
    found a name. *)
Lemma found_name_nonempty ext names f :
  ext <> "" -> List.find (fun n => endswith n ext) names = Some f -> f <> "".
Proof.
  intros Hext Hfind ->. apply List.find_some in Hfind as [_ Hends].
  cbn [endswith] in Hends. destruct (String.eqb_spec "" ext); [by subst|done].
Qed.

Lemma load_item_incomplete rc item_id w es :
  fs_stat cwd (item_dir_of item_id) (w_fs w) = Node (Dir es) ->
  List.find is_yml (map fst es) = None \/ List.find is_tex (map fst es) = None ->
  load_item rc item_id w = (Ok rc, log (EvPrint (missing_warning item_id)) w).
Proof.
  intros Hdir Hmiss.
  unfold load_item, bind, os_listdir. fold (item_dir_of item_id). rewrite Hdir.
  cbn beta iota zeta. rewrite Hdir. cbn beta iota zeta.
  destruct Hmiss as [-> | ->]; [done|]. by destruct (List.find is_yml _).
Qed.

(** C3: an identifier whose directory holds no metadata file or no
    source file costs a warning and nothing else: the content list is
    left as it was and the loop goes on with the next identifier. *)
Theorem load_item_skips_incomplete
  (rc : list content_data) (item_id : pyval) (rest : list pyval) (w : World)
  (es : list (string * node)) :
  fs_stat cwd (item_dir_of item_id) (w_fs w) = Node (Dir es) ->
  List.find is_yml (map fst es) = None \/ List.find is_tex (map fst es) = None ->
  load_item rc item_id w = (Ok rc, log (EvPrint (missing_warning item_id)) w) /\
  for_fold load_item (item_id :: rest) rc w =
    for_fold load_item rest rc (log (EvPrint (missing_warning item_id)) w).
Proof.
  intros Hdir Hmiss. pose proof (load_item_incomplete rc _ _ _ Hdir Hmiss) as Hstep.
  split; [done|]. simpl. by rewrite (bind_Ok _ _ _ _ _ Hstep).
Qed.


(** *** Records in the store *)

Lemma deref_snoc (h : list pydict) d : deref (h ++ [d]) (length h) = d.
Proof. unfold deref. by rewrite list_lookup_middle. Qed.

Lemma insert_snoc (h : list pydict) d x : <[length h := x]> (h ++ [d]) = h ++ [x].
Proof. rewrite insert_app_r_alt by lia. by rewrite Nat.sub_diag. Qed.

Lemma deref_app_l (h h' : list pydict) r : r < length h -> deref (h ++ h') r = deref h r.
Proof. intros Hr. unfold deref. by rewrite lookup_app_l. Qed.

(** One round of the loader on a directory that has both files and a
    metadata file that parses to a mapping. *)
Lemma load_item_found rc item_id w es mf tf text d :
  fs_stat cwd (item_dir_of item_id) (w_fs w) = Node (Dir es) ->
  List.find is_yml (map fst es) = Some mf ->
  List.find is_tex (map fst es) = Some tf ->
  fs_stat cwd (path_join (item_dir_of item_id) mf) (w_fs w) = Node (File text) ->
  yaml_safe_load text = Some (PDict d) ->
  load_item rc item_id w =
  let r := length (w_heap w) in
  match dict_get "permalink" d with
  | None =>
      (Raise (KeyError "permalink"),
       mkWorld (w_fs w) (w_heap w ++ [dict_set "id" item_id d])
               (w_trace w ++ [EvSetItem r "id" item_id]))
  | Some p =>
      let w' evs := mkWorld (w_fs w) (w_heap w ++ [enriched item_id p d])
                            (w_trace w ++ [EvSetItem r "id" item_id;
                                           EvSetItem r "pdf_link" (PStr (str p +:+ ".pdf"))]
                                       ++ evs) in
      match dict_get "title" d with
      | None => (Raise (KeyError "title"), w' [])
      | Some t =>
          (Ok (rc ++ [mkContent r (path_join (item_dir_of item_id) tf)]),
           w' [loaded_message t])
      end
  end.
Proof.
  intros Hdir Hyml Htex Htext Hparse.
  unfold load_item, bind, os_listdir, read_file, yaml_load.
  fold (item_dir_of item_id). rewrite Hdir. cbn beta iota zeta.
  rewrite Hdir. cbn beta iota zeta. rewrite Hyml, Htex, Htext, Hparse.
  unfold ret, alloc, setitem, getitem, print, log; simpl.
  repeat (rewrite ?deref_snoc, ?insert_snoc).
  rewrite (dict_get_set_ne "id" "permalink") by done.
  destruct (dict_get "permalink" d) as [p|] eqn:Hp; [|done].
  simpl. repeat (rewrite ?deref_snoc, ?insert_snoc).
  rewrite (dict_get_set_ne "pdf_link" "title"), (dict_get_set_ne "id" "title") by done.
  destruct (dict_get "title" d) as [t|] eqn:Ht; simpl.
  - unfold enriched, loaded_message. by rewrite <- !app_assoc.
  - unfold enriched. by rewrite <- ?app_assoc, ?app_nil_r.
Qed.

(** A round of the loader that does not raise either skipped the
    identifier or loaded it as the files say. *)
Lemma load_item_inv rc item_id w rc' w' :
  load_item rc item_id w = (Ok rc', w') ->
  (skipped (w_fs w) item_id = true /\ rc' = rc /\
   w' = log (EvPrint (missing_warning item_id)) w)
  \/
  (skipped (w_fs w) item_id = false /\
   exists d tex p t,
     metadata_of (w_fs w) item_id = Some (d, tex) /\
     dict_get "permalink" d = Some p /\ dict_get "title" d = Some t /\
     rc' = rc ++ [mkContent (length (w_heap w)) tex] /\
     w' = mkWorld (w_fs w) (w_heap w ++ [enriched item_id p d])
                  (w_trace w ++ setitem_events (length (w_heap w)) item_id p
                             ++ [loaded_message t])).
Proof.
  intros H. unfold skipped, metadata_of.
  destruct (fs_stat cwd (item_dir_of item_id) (w_fs w)) as [[|es]| |] eqn:Hdir;
    try (unfold load_item, bind, os_listdir in H; fold (item_dir_of item_id) in H;
         rewrite Hdir in H; done).
  destruct (List.find is_yml (map fst es)) as [mf|] eqn:Hyml;
    [destruct (List.find is_tex (map fst es)) as [tf|] eqn:Htex|].
  - right. split; [done|].
    destruct (fs_stat cwd (path_join (item_dir_of item_id) mf) (w_fs w))
      as [[text|?]| |] eqn:Htext;
      try (unfold load_item, bind, os_listdir, read_file in H;
           fold (item_dir_of item_id) in H; rewrite Hdir in H; cbn beta iota zeta in H;
           rewrite Hdir in H; cbn beta iota zeta in H; rewrite Hyml, Htex, Htext in H; done).
    destruct (yaml_safe_load text) as [[| | | | |d]|] eqn:Hparse;
      try (unfold load_item, bind, os_listdir, read_file, yaml_load in H;
           fold (item_dir_of item_id) in H; rewrite Hdir in H; cbn beta iota zeta in H;
           rewrite Hdir in H; cbn beta iota zeta in H;
           rewrite Hyml, Htex, Htext, Hparse in H; done).
    rewrite (load_item_found _ _ _ _ _ _ _ _ Hdir Hyml Htex Htext Hparse) in H.
    cbn zeta in H. destruct (dict_get "permalink" d) as [p|] eqn:Hp; [|done].
    destruct (dict_get "title" d) as [t|] eqn:Ht; [|done]. simplify_eq.
    by exists d, (path_join (item_dir_of item_id) tf), p, t.
  - left. rewrite (load_item_incomplete rc _ _ _ Hdir) in H by (by right). by simplify_eq.
  - left. rewrite (load_item_incomplete rc _ _ _ Hdir) in H by (by left). by simplify_eq.
Qed.

(** C9: when there is no directory at the path of an identifier,
    listing it raises ([FileNotFoundError] when nothing is there,
    [NotADirectoryError] when a regular file is there or on the way),
    the exception reaches [main] and the run ends there, in the world
    in which the round began; a round of the loader that passes over
    the identifier has found the directory, with one of the two files
    missing from it. *)
Theorem missing_directory_aborts
  (d : pydict) (pre post : list pyval) (item_id : pyval)
  (w w1 w2 : World) (rc : list content_data) :
  main_init w = (Ok (PDict d), w1) ->
  dict_get "content_ids" d = Some (PList (pre ++ item_id :: post)) ->
  for_fold load_item pre [] (log loading_banner w1) = (Ok rc, w2) ->
  (forall es, fs_stat cwd (item_dir_of item_id) (w_fs w2) <> Node (Dir es)) ->
  let e := match fs_stat cwd (item_dir_of item_id) (w_fs w2) with
           | Absent => FileNotFoundError (item_dir_of item_id)
           | _ => NotADirectoryError (item_dir_of item_id)
           end in
  load_item rc item_id w2 = (Raise e, w2) /\
  main w = (Raise e, w2) /\
  (forall rc0 w0 w0',
     load_item rc0 item_id w0 = (Ok rc0, w0') ->
     skipped (w_fs w0) item_id = true /\
     exists es, fs_stat cwd (item_dir_of item_id) (w_fs w0) = Node (Dir es)).
Proof.
  intros Hinit Hids Hpre Hdir e.
  assert (load_item rc item_id w2 = (Raise e, w2)) as Hstep.
  { unfold load_item, bind, os_listdir. fold (item_dir_of item_id). subst e.
    destruct (fs_stat cwd (item_dir_of item_id) (w_fs w2)) as [[|es]| |]; try done.
    by destruct (Hdir es). }
  split; [done|]. split.
  - eapply main_aborts_in_load; [done|]. rewrite (load_content_ids _ _ _ Hids).
    eapply for_fold_raises; eauto.
  - intros rc0 w0 w0' Hround.
    apply load_item_inv in Hround
      as [(Hsk & _) | (_ & dd & tex & p & t & _ & _ & _ & Happ & _)].
    + split; [done|]. unfold skipped in Hsk.
      destruct (fs_stat cwd (item_dir_of item_id) (w_fs w0)) as [[|es]| |];
        eauto; done.
    + apply (f_equal length) in Happ. rewrite length_app in Happ. simpl in Happ. lia.
Qed.

Lemma filter_setitem_none lo r evs :
  Forall (setitem_from lo) evs -> r < lo -> List.filter (is_setitem_of r) evs = [].
Proof.
  induction 1 as [|e evs He _ IH]; intros Hr; simpl; [done|].
  rewrite IH by done. destruct e; simpl in *; try done.
  destruct (Nat.eqb_spec r ref); [lia|done].
Qed.

Lemma setitem_from_mono lo lo' evs :
  lo <= lo' -> Forall (setitem_from lo') evs -> Forall (setitem_from lo) evs.
Proof.
  intros Hle H. eapply Forall_impl; [exact H|]. intros []; simpl; auto; lia.
Qed.

(** The loading loop, when it comes to its end. *)
Lemma load_loop_spec ids : forall rc0 w rc w',
  for_fold load_item ids rc0 w = (Ok rc, w') ->
  exists new evs,
    rc = rc0 ++ new /\ w_fs w' = w_fs w /\ w_trace w' = w_trace w ++ evs /\
    length (w_heap w) <= length (w_heap w') /\
    (forall r, r < length (w_heap w) -> deref (w_heap w') r = deref (w_heap w) r) /\
    Forall (setitem_from (length (w_heap w))) evs /\
    Forall (fun e => is_artifact e = false) evs /\
    Forall2 (loaded_as (w_fs w) (w_heap w') evs (length (w_heap w))) new
            (List.filter (fun item_id => negb (skipped (w_fs w) item_id)) ids).
Proof.
  induction ids as [|item_id ids IH]; intros rc0 w rc w' H; simpl in H.
  { unfold ret in H. simplify_eq. exists [], []. rewrite !app_nil_r.
    repeat split; auto. }
  unfold bind in H. destruct (load_item rc0 item_id w) as [[rc1|e] w1] eqn:E; [|done].
  apply load_item_inv in E as [(Hsk & -> & ->) | (Hsk & d & tex & p & t & Hmeta & Hp & Ht & -> & ->)].
  - destruct (IH _ _ _ _ H) as (new & evs & -> & Hfs & Htr & Hlen & Hder & Hset & Hart & Hall).
    simpl in *. exists new, (EvPrint (missing_warning item_id) :: evs).
    rewrite Hsk. simpl. split_and!.
    + done.
    + done.
    + by rewrite Htr, <- app_assoc.
    + done.
    + done.
    + by constructor.
    + by constructor.
    + eapply Forall2_impl; [exact Hall|].
      intros c i (d & p & t & ?). exists d, p, t. simpl. done.
  - destruct (IH _ _ _ _ H) as (new & evs & -> & Hfs & Htr & Hlen & Hder & Hset & Hart & Hall).
    simpl in *. rewrite length_app in *. simpl in *.
    set (r := length (w_heap w)) in *.
    exists (mkContent r tex :: new), (setitem_events r item_id p ++ [loaded_message t] ++ evs).
    rewrite Hsk. simpl. split_and!.
    + by rewrite <- app_assoc.
    + done.
    + rewrite Htr. by rewrite <- !app_assoc.
    + lia.
    + intros r' Hr'. rewrite Hder by lia. by apply deref_app_l.
    + repeat (constructor; [simpl; lia || done|]).
      eapply setitem_from_mono; [|done]. lia.
    + by repeat (constructor; [done|]).
    + constructor.
      * exists d, p, t. simpl. split_and!; auto; try lia.
        -- rewrite Hder by lia. apply deref_snoc.
        -- rewrite !Nat.eqb_refl. unfold setitem_events. do 2 f_equal.
           apply (filter_setitem_none (r + 1)); [done|lia].
      * eapply Forall2_impl; [exact Hall|].
        intros c i (d' & p' & t' & ? & ? & ? & Hr & ? & Hf). exists d', p', t'.
        split_and!; auto; try lia. simpl.
        destruct (Nat.eqb_spec (cd_metadata c) r); [lia|done].
Qed.

Lemma enriched_id item_id p d : dict_get "id" (enriched item_id p d) = Some item_id.
Proof.
  unfold enriched. rewrite (dict_get_set_ne "pdf_link" "id") by done. apply dict_get_set_eq.
Qed.

Lemma enriched_pdf_link item_id p d :
  dict_get "pdf_link" (enriched item_id p d) = Some (PStr (str p +:+ ".pdf")).
Proof. apply dict_get_set_eq. Qed.

Lemma enriched_other item_id p d k :
  k <> "id" -> k <> "pdf_link" -> dict_get k (enriched item_id p d) = dict_get k d.
Proof.
  intros H1 H2. unfold enriched. by rewrite !dict_get_set_ne.
Qed.

(** C5: the content list that the loader hands on lists the
    identifiers of the manifest that were not skipped, in the order of
    the manifest. *)
Theorem content_list_follows_manifest
  (d : pydict) (ids : list pyval) (w w' : World) (rc : list content_data) :
  dict_get "content_ids" d = Some (PList ids) ->
  load_content (PDict d) w = (Ok rc, w') ->
  map (record_id (w_heap w')) rc = map Some (List.filter (not_skipped (w_fs w)) ids).
Proof.
  intros Hids H. rewrite (load_content_ids _ _ _ Hids) in H.
  apply load_loop_spec in H as (new & evs & -> & _ & _ & _ & _ & _ & _ & Hall).
  simpl in *. fold (not_skipped (w_fs w)) in Hall.
  induction Hall as [|c i new l (dd & p & t & _ & _ & _ & _ & Hd & _) _ IH];
    simpl; [done|].
  f_equal; [|done]. unfold record_id. rewrite Hd. apply enriched_id.
Qed.

(** A metadata file that parses to something else than a mapping (an
    empty file parses to [None]) does not get as far as the key
    lookups: the first item assignment raises a type error. *)
Lemma load_item_not_a_mapping rc item_id w es mf tf text v :
  fs_stat cwd (item_dir_of item_id) (w_fs w) = Node (Dir es) ->
  List.find is_yml (map fst es) = Some mf ->
  List.find is_tex (map fst es) = Some tf ->
  fs_stat cwd (path_join (item_dir_of item_id) mf) (w_fs w) = Node (File text) ->
  yaml_safe_load text = Some v ->
  (forall d, v <> PDict d) ->
  load_item rc item_id w = (Raise TypeError, w).
Proof.
  intros Hdir Hyml Htex Htext Hparse Hv.
  unfold load_item, bind, os_listdir, read_file, yaml_load.
  fold (item_dir_of item_id). rewrite Hdir. cbn beta iota zeta.
  rewrite Hdir. cbn beta iota zeta. rewrite Hyml, Htex, Htext, Hparse.
  destruct v; try done. by destruct (Hv d).
Qed.

(** C10: a metadata mapping without a permalink makes the loader raise
    a key error, and so does one with a permalink and without a title,
    a little later; either way [main] ends with that error and no
    warning is printed for the submission. *)
Theorem missing_key_aborts
  (dc : pydict) (pre post : list pyval) (item_id : pyval)
  (w w1 w2 : World) (rc : list content_data)
  (es : list (string * node)) (mf tf text : string) (d : pydict) :
  main_init w = (Ok (PDict dc), w1) ->
  dict_get "content_ids" dc = Some (PList (pre ++ item_id :: post)) ->
  for_fold load_item pre [] (log loading_banner w1) = (Ok rc, w2) ->
  fs_stat cwd (item_dir_of item_id) (w_fs w2) = Node (Dir es) ->
  List.find is_yml (map fst es) = Some mf ->
  List.find is_tex (map fst es) = Some tf ->
  fs_stat cwd (path_join (item_dir_of item_id) mf) (w_fs w2) = Node (File text) ->
  yaml_safe_load text = Some (PDict d) ->
  let r := length (w_heap w2) in
  (dict_get "permalink" d = None ->
   main w = (Raise (KeyError "permalink"),
              mkWorld (w_fs w2) (w_heap w2 ++ [dict_set "id" item_id d])
                      (w_trace w2 ++ [EvSetItem r "id" item_id]))) /\
  (forall p, dict_get "permalink" d = Some p -> dict_get "title" d = None ->
   main w = (Raise (KeyError "title"),
              mkWorld (w_fs w2) (w_heap w2 ++ [enriched item_id p d])
                      (w_trace w2 ++ setitem_events r item_id p))).
Proof.
  intros Hinit Hids Hpre Hdir Hyml Htex Htext Hparse r.
  pose proof (load_item_found rc _ _ _ _ _ _ _ Hdir Hyml Htex Htext Hparse) as Hstep.
  cbn zeta in Hstep. split.
  - intros Hp. rewrite Hp in Hstep.
    eapply main_aborts_in_load; [done|]. rewrite (load_content_ids _ _ _ Hids).
    eapply for_fold_raises; eauto.
  - intros p Hp Ht. rewrite Hp, Ht, app_nil_r in Hstep.
    eapply main_aborts_in_load; [done|]. rewrite (load_content_ids _ _ _ Hids).
    eapply for_fold_raises; eauto.
Qed.

(** *** What the templates are given *)

#[local] Instance rendering_preorder h rc : PreOrder (rendering h rc).
Proof.
  split.
  - intros w Hw. split; [done|]. reflexivity.
  - intros x y z Hxy Hyz Hx. destruct (Hxy Hx) as [Hy G1]. destruct (Hyz Hy) as [Hz G2].
    split; [done|]. by etrans.
Qed.

Lemma rendering_quiet {A} (m : M A) h rc :
  preserves same_heap m ->
  preserves (grows_by (fun e => is_render e = false)) m ->
  preserves (rendering h rc) m.
Proof.
  intros Hh Hg w Hw. split; [by rewrite Hh|].
  destruct (Hg w) as (evs & Htr & Hall). exists evs. split; [done|].
  eapply Forall_impl; [exact Hall|]. by intros [].
Qed.

Lemma rendering_render {A} h rc config item name (k : string -> M A) :
  (forall html, preserves (rendering h rc) (k html)) ->
  preserves (rendering h rc)
    (ctx <- make_ctx config rc item ;; html <- render name ctx ;; k html).
Proof.
  intros Hk w. unfold bind, make_ctx, render.
  destruct (jinja_render _ _ _) as [html|]; simpl.
  - etrans; [|apply Hk]. intros Hw. split; [done|].
    eexists [_]. split; [done|]. repeat constructor. simpl. by rewrite Hw.
  - intros Hw. split; [done|].
    eexists [_]. split; [done|]. repeat constructor. simpl. by rewrite Hw.
Qed.

Ltac quiet :=
  repeat first
    [ apply rendering_render; intros ?
    | apply preserves_bind; [apply _ | | intros ? ]
    | apply preserves_ret; apply _
    | apply preserves_raise; apply _
    | apply preserves_for_each; [apply _ | intros ? ]
    | apply preserves_try; [apply _ | | intros ? ? ? ? ]
    | apply rendering_quiet; [ solve [eauto with pres] | solve [pres] ]
    | case_match ].

Lemma main_produce_rendering h config rc :
  preserves (rendering h rc) (main_produce config rc).
Proof.
  unfold main_produce, build_pdfs, build_website, copy_assets, build_item, run_pdflatex.
  quiet.
Qed.

Lemma main_init_no_setitem :
  preserves (grows_by (fun e => is_setitem e = false)) main_init.
Proof. unfold main_init, load_config, setup_output. pres. Qed.

Lemma filter_no_setitem r evs :
  Forall (fun e => is_setitem e = false) evs -> List.filter (is_setitem_of r) evs = [].
Proof.
  induction 1 as [|e evs He _ IH]; simpl; [done|]. rewrite IH. by destruct e.
Qed.

(** C6: each loaded record is changed at load time only, by the two
    assignments of the identifier and of the PDF link, the latter being
    the permalink followed by [.pdf]; its other fields stay as parsed;
    the later steps leave the store as loading left it, and hand it to
    the templates that way. *)
Theorem metadata_enriched_once_at_load
  (dc : pydict) (ids : list pyval) (w w1 w2 : World) (rc : list content_data) :
  main_init w = (Ok (PDict dc), w1) ->
  dict_get "content_ids" dc = Some (PList ids) ->
  load_content (PDict dc) w1 = (Ok rc, w2) ->
  let w3 := snd (main w) in
  w_heap w3 = w_heap w2 /\
  Forall (renders_content (w_heap w2) rc) (events_since w2 w3) /\
  Forall2 (enriched_once (w_fs w1) (w_heap w3) (events_since w w3))
          rc (List.filter (not_skipped (w_fs w1)) ids).
Proof.
  intros Hinit Hids Hload w3. subst w3.
  rewrite (main_reaches_produce _ _ _ _ _ Hinit Hload).
  pose proof (main_produce_heap (PDict dc) rc w2) as Hheap. unfold same_heap in Hheap.
  destruct (main_produce_rendering (w_heap w2) (PDict dc) rc w2 eq_refl)
    as (_ & evr & Htr3 & Hrender).
  destruct (main_produce_no_setitem (PDict dc) rc w2) as (evr' & Htr3' & Hquiet3).
  rewrite Htr3 in Htr3'. apply app_inv_head in Htr3'. subst evr'.
  pose proof (main_init_no_setitem w) as (ev0 & Htr1 & Hquiet1). rewrite Hinit in Htr1.
  simpl in Htr1.
  rewrite (load_content_ids _ _ _ Hids) in Hload.
  apply load_loop_spec in Hload
    as (new & evl & -> & _ & Htr2 & _ & _ & _ & _ & Hall). simpl in *.
  split; [done|]. split; [by rewrite (events_since_app _ _ _ Htr3)|].
  rewrite (events_since_app w _ (ev0 ++ [loading_banner] ++ evl ++ evr))
    by (rewrite Htr3, Htr2, Htr1; by rewrite <- !app_assoc).
  rewrite Hheap. eapply Forall2_impl; [exact Hall|].
  intros c i (d & p & t & Hmeta & Hp & Ht & Hr & Hd & Hf). exists d, p.
  rewrite Hd. split_and!; auto using enriched_id, enriched_pdf_link, enriched_other.
  rewrite !List.filter_app, Hf. simpl.
  by rewrite (filter_no_setitem _ _ Hquiet1), (filter_no_setitem _ _ Hquiet3), ?app_nil_r.
Qed.

(** *** Compiling *)

(** A round of the build loop in which the compiler exits nonzero. *)
Lemma build_item_compile_fails config rc item w p code out err fs' :
  deref_permalink (w_heap w) item = Some p ->
  os_exec (latexmk_argv (cd_tex_path item) OUTPUT_DIR) (w_fs w) = Exited code out err fs' ->
  code <> 0%Z ->
  build_item config rc item w =
  (Raise (CalledProcessError code (latexmk_argv (cd_tex_path item) OUTPUT_DIR) out err),
   mkWorld fs' (w_heap w)
     (w_trace w ++ [compiling_message p;
                    EvSpawn (latexmk_argv (cd_tex_path item) OUTPUT_DIR);
                    EvPrint ("Error compiling " +:+ cd_tex_path item +:+ ".");
                    EvPrint out; EvPrint err])).
Proof.
  intros Hp Hexec Hcode. unfold deref_permalink in Hp.
  unfold build_item, bind, getitem, print, run_pdflatex, try_except_cpe, subprocess_run.
  rewrite Hp. unfold latexmk_argv in *. simpl in *. rewrite Hexec.
  apply Z.eqb_neq in Hcode. rewrite Hcode. unfold bind, print, raise, log. simpl.
  rewrite <- ?app_assoc. reflexivity.
Qed.

Lemma main_produce_aborts_in_build config rc pre item post w w3 e w4 :
  rc = pre ++ item :: post ->
  for_each (build_item config rc) pre (log building_banner w) = (Ok tt, w3) ->
  build_item config rc item w3 = (Raise e, w4) ->
  main_produce config rc w = (Raise e, w4).
Proof.
  intros Hrc Hpre Hitem. unfold main_produce, build_pdfs.
  apply bind_Raise. unfold bind at 1, print at 1. fold building_banner.
  rewrite Hrc at 2. eapply for_each_raises; eauto.
Qed.

(** Every item of a loaded content list has a permalink. *)
Lemma loaded_permalinks config d ids w rc w' :
  config = PDict d -> dict_get "content_ids" d = Some (PList ids) ->
  load_content config w = (Ok rc, w') ->
  Forall (fun item => is_Some (deref_permalink (w_heap w') item)) rc.
Proof.
  intros -> Hids H. rewrite (load_content_ids _ _ _ Hids) in H.
  apply load_loop_spec in H as (new & evs & -> & _ & _ & _ & _ & _ & _ & Hall).
  simpl. induction Hall as [|c i new l (dd & p & t & _ & Hp & _ & _ & Hd & _) _ IH];
    constructor; [|done].
  unfold deref_permalink. rewrite Hd, enriched_other by done. eauto.
Qed.

(** C2: when the compiler exits nonzero for a submission, the run
    prints the captured output and error streams and ends in the
    compiler's exception right there: the trace stops after the two
    prints, so neither the page of that submission nor anything of a
    later submission is compiled, renamed, rendered or written. *)
Theorem compiler_failure_aborts
  (dc : pydict) (ids : list pyval) (w w1 w2 w3 : World)
  (rc pre post : list content_data) (item : content_data)
  (code : Z) (out err : string) (fs' : node) :
  main_init w = (Ok (PDict dc), w1) ->
  dict_get "content_ids" dc = Some (PList ids) ->
  load_content (PDict dc) w1 = (Ok rc, w2) ->
  rc = pre ++ item :: post ->
  for_each (build_item (PDict dc) rc) pre (log building_banner w2) = (Ok tt, w3) ->
  os_exec (latexmk_argv (cd_tex_path item) OUTPUT_DIR) (w_fs w3) = Exited code out err fs' ->
  code <> 0%Z ->
  exists p,
    deref_permalink (w_heap w3) item = Some p /\
    main w =
    (Raise (CalledProcessError code (latexmk_argv (cd_tex_path item) OUTPUT_DIR) out err),
     mkWorld fs' (w_heap w3)
       (w_trace w3 ++ [compiling_message p;
                       EvSpawn (latexmk_argv (cd_tex_path item) OUTPUT_DIR);
                       EvPrint ("Error compiling " +:+ cd_tex_path item +:+ ".");
                       EvPrint out; EvPrint err])).
Proof.
  intros Hinit Hids Hload Hrc Hpre Hexec Hcode.
  pose proof (loaded_permalinks _ _ _ _ _ _ eq_refl Hids Hload) as Hperm.
  assert (w_heap w3 = w_heap w2) as Hheap.
  { pose proof (preserves_for_each same_heap (build_item (PDict dc) rc) pre
                  (build_item_heap _ _) (log building_banner w2)) as H.
    by rewrite Hpre in H. }
  rewrite Hrc in Hperm. apply Forall_app in Hperm as [_ Hperm].
  apply Forall_cons in Hperm as [[p Hp] _]. rewrite <- Hheap in Hp.
  exists p. split; [done|].
  rewrite (main_reaches_produce _ _ _ _ _ Hinit Hload).
  eapply main_produce_aborts_in_build; [done..|].
  by apply build_item_compile_fails.
Qed.

(** *** The output directory *)

Lemma dict_set_set {V} k (x y : V) d : dict_set k x (dict_set k y d) = dict_set k x d.
Proof.
  induction d as [|[k' v'] d IH]; simpl.
  - by rewrite String.eqb_refl.
  - destruct (String.eqb k k') eqn:E; simpl; rewrite ?String.eqb_refl, ?E; [done|].
    by rewrite IH.
Qed.

Lemma fs_modify_modify g h d : forall n n1,
  fs_modify g d n = Some n1 ->
  fs_modify h d n1
  = fs_modify (fun es => match g es with Some es' => h es' | None => None end) d n.
Proof.
  induction d as [|c d IH]; intros n n1 H; destruct n as [|es]; simpl in *; try done.
  - destruct (g es) as [es'|]; simplify_eq. done.
  - destruct (dict_get c es) as [m|] eqn:E; [|done].
    destruct (fs_modify g d m) as [m'|] eqn:E'; simplify_eq. simpl.
    rewrite dict_get_set_eq, (IH _ _ E'). clear E'.
    destruct (fs_modify _ d m); [|done]. by rewrite dict_set_set.
Qed.

Lemma dict_set_same {V} k (v : V) d : dict_get k d = Some v -> dict_set k v d = d.
Proof.
  induction d as [|[k' v'] d IH]; simpl; [done|].
  destruct (String.eqb_spec k k') as [->|]; [by intros [= ->]|]. intros H. by rewrite IH.
Qed.

Lemma fs_modify_same g d : forall n es,
  fs_lookup d n = Some (Dir es) -> g es = Some es -> fs_modify g d n = Some n.
Proof.
  induction d as [|c d IH]; intros n es Hl Hg; destruct n as [|es0]; simpl in *; try done.
  - simplify_eq. by rewrite Hg.
  - destruct (dict_get c es0) as [m|] eqn:E; [|done].
    rewrite (IH _ _ Hl Hg). by rewrite dict_set_same.
Qed.

Lemma load_config_same w r w' : load_config w = (r, w') -> w' = w.
Proof.
  unfold load_config, bind, read_file, yaml_load.
  destruct (fs_stat _ _ _) as [[text|es]| |]; try (intros ?; by simplify_eq).
  destruct (yaml_safe_load text); unfold ret, raise; intros ?; by simplify_eq.
Qed.

(** A manifest that was read lies in the working directory, which is
    therefore there. *)
Lemma load_config_cwd w config w' :
  load_config w = (Ok config, w') -> exists es, fs_lookup cwd (w_fs w) = Some (Dir es).
Proof.
  unfold load_config, bind, read_file. rewrite (stat_plain _ _ plain_config).
  rewrite fs_lookup_app. destruct (fs_lookup cwd (w_fs w)) as [[|es]|]; try done. eauto.
Qed.

Lemma rmtree_entry n w es x :
  plain_name n -> fs_lookup cwd (w_fs w) = Some (Dir es) -> dict_get n es = Some (Dir x) ->
  exists fs',
    shutil_rmtree n w = (Ok tt, log (EvRmtree n) (set_fs fs' w)) /\
    fs_modify (fun es => Some (dict_remove n es)) cwd (w_fs w) = Some fs' /\
    fs_lookup cwd fs' = Some (Dir (dict_remove n es)).
Proof.
  intros Hn Hc Hx. unfold shutil_rmtree.
  rewrite (locate_plain _ _ _ Hn Hc), (fs_lookup_entry _ _ _ _ Hc), Hx, split_last_snoc.
  destruct (fs_modify_ok (fun es => Some (dict_remove n es)) _ _ _ _ Hc eq_refl)
    as (fs' & Hmod & Hnew).
  rewrite Hmod. eauto.
Qed.

Lemma makedirs_entry n w es :
  plain_name n -> fs_lookup cwd (w_fs w) = Some (Dir es) -> dict_get n es = None ->
  exists fs',
    os_makedirs n w = (Ok tt, log (EvMakedirs n) (set_fs fs' w)) /\
    fs_modify (fun es => Some (es ++ [(n, Dir [])])) cwd (w_fs w) = Some fs' /\
    fs_lookup cwd fs' = Some (Dir (es ++ [(n, Dir [])])).
Proof.
  intros Hn Hc Hfree. unfold os_makedirs. rewrite (makedirs_plain _ _ _ Hn), Hc, Hfree.
  destruct (fs_modify_ok (fun es => Some (es ++ [(n, Dir [])])) _ _ _ _ Hc eq_refl)
    as (fs' & Hmod & Hnew).
  rewrite Hmod. eauto.
Qed.

(** Step 2 in a working directory whose [output] entry is not a regular
    file: what is there under that name is removed, and an empty
    directory of that name comes last. *)
Lemma setup_output_run w es :
  fs_lookup cwd (w_fs w) = Some (Dir es) ->
  (forall c, dict_get OUTPUT_DIR es <> Some (File c)) ->
  exists fs1,
    setup_output w
    = (Ok tt, mkWorld fs1 (w_heap w)
                (w_trace w ++ match dict_get OUTPUT_DIR es with
                              | Some _ => [EvRmtree OUTPUT_DIR; EvMakedirs OUTPUT_DIR]
                              | None => [EvMakedirs OUTPUT_DIR]
                              end)) /\
    fs_lookup cwd fs1 = Some (Dir (dict_remove OUTPUT_DIR es ++ [(OUTPUT_DIR, Dir [])])).
Proof.
  intros Hc Hfile. unfold setup_output, bind, os_path_exists.
  rewrite (stat_plain _ _ plain_output), (fs_lookup_entry _ _ _ _ Hc).
  destruct (dict_get OUTPUT_DIR es) as [[c|x]|] eqn:Hout.
  - by destruct (Hfile c).
  - destruct (rmtree_entry _ w _ _ plain_output Hc Hout) as (fs' & -> & _ & Hnew).
    destruct (makedirs_entry OUTPUT_DIR (log (EvRmtree OUTPUT_DIR) (set_fs fs' w))
                (dict_remove OUTPUT_DIR es) plain_output Hnew (dict_get_remove_eq _ _))
      as (fs1 & -> & _ & Hnew1).
    exists fs1. split; [|done]. unfold log, set_fs. simpl. by rewrite <- app_assoc.
  - unfold ret. cbn beta iota.
    destruct (makedirs_entry OUTPUT_DIR w es plain_output Hc Hout) as (fs1 & -> & _ & Hnew1).
    exists fs1. split; [done|]. by rewrite dict_remove_absent.
Qed.

(** Step 2 when it goes through: the working directory ends in an
    empty [output], and has no other entry of that name. *)
Lemma setup_output_inv w w' :
  setup_output w = (Ok tt, w') ->
  exists es, fs_lookup cwd (w_fs w') = Some (Dir (es ++ [(OUTPUT_DIR, Dir [])])) /\
             dict_get OUTPUT_DIR es = None.
Proof.
  assert (forall w0, os_makedirs OUTPUT_DIR w0 = (Ok tt, w') ->
            exists es, fs_lookup cwd (w_fs w') = Some (Dir (es ++ [(OUTPUT_DIR, Dir [])])) /\
                       dict_get OUTPUT_DIR es = None) as Hmk.
  { intros w0. unfold os_makedirs.
    destruct (makedirs cwd OUTPUT_DIR [] (w_fs w0)) as [[e|] fs'] eqn:E; [done|].
    apply (makedirs_plain_inv _ _ _ _ _ plain_output) in E as (es & _ & Hfree & _ & Hnew).
    intros ?; simplify_eq. eauto. }
  unfold setup_output, bind.
  destruct (os_path_exists OUTPUT_DIR w) as [[[]|e] wa]; [| |done].
  - destruct (shutil_rmtree OUTPUT_DIR wa) as [[[]|e] wb]; [apply Hmk|done].
  - apply Hmk.
Qed.

Lemma setup_output_empty w w' :
  setup_output w = (Ok tt, w') ->
  fs_lookup (resolve' OUTPUT_DIR) (w_fs w') = Some (Dir []).
Proof.
  intros H. apply setup_output_inv in H as (es & Hc & Hfree).
  by rewrite resolve_output, (fs_lookup_entry _ _ _ _ Hc), dict_get_snoc.
Qed.

Lemma main_init_output_empty w config w1 :
  main_init w = (Ok config, w1) ->
  fs_lookup (resolve' OUTPUT_DIR) (w_fs w1) = Some (Dir []).
Proof.
  unfold main_init. unfold bind at 1 2, print at 1.
  destruct (load_config _) as [[c|e] wa]; [|done]. unfold bind.
  destruct (setup_output wa) as [[[]|e] wb] eqn:E; [|done].
  unfold ret. intros ?; simplify_eq. by eapply setup_output_empty.
Qed.

(** C7: however the run goes, steps 1 and 2 come first and put nothing
    into the output tree; when they succeed the output directory is
    there and empty, loading leaves it so, and only then does the
    production of artifacts start.  And they do succeed whenever the
    manifest loads and the output path is not taken by a regular file:
    an output directory that is there is deleted with all it holds,
    then an empty one is made, and nothing else happens. *)
Theorem output_directory_recreated_empty (w : World) :
  match main_init w with
  | (Ok config, w1) =>
      fs_lookup (resolve' OUTPUT_DIR) (w_fs w1) = Some (Dir []) /\
      match load_content config w1 with
      | (Ok rc, w2) =>
          fs_lookup (resolve' OUTPUT_DIR) (w_fs w2) = Some (Dir []) /\
          no_artifact (events_since w w2) /\
          main w = main_produce config rc w2
      | (Raise e, w2) =>
          no_artifact (events_since w w2) /\ main w = (Raise e, w2)
      end
  | (Raise e, w1) =>
      no_artifact (events_since w w1) /\ main w = (Raise e, w1)
  end /\
  (forall config w0,
     load_config (log starting_banner w) = (Ok config, w0) ->
     (forall c, fs_lookup (resolve' OUTPUT_DIR) (w_fs w) <> Some (File c)) ->
     exists w1,
       main_init w = (Ok config, w1) /\
       fs_lookup (resolve' OUTPUT_DIR) (w_fs w1) = Some (Dir []) /\
       w_heap w1 = w_heap w /\
       events_since w w1
       = starting_banner ::
         match fs_lookup (resolve' OUTPUT_DIR) (w_fs w) with
         | Some _ => [EvRmtree OUTPUT_DIR; EvMakedirs OUTPUT_DIR]
         | None => [EvMakedirs OUTPUT_DIR]
         end).
Proof.
  split.
  - pose proof (main_init_no_artifact w) as (ev0 & Htr1 & Hq1).
    destruct (main_init w) as [[config|e] w1] eqn:Hinit; simpl in Htr1.
    + pose proof (main_init_output_empty _ _ _ Hinit) as Hout. split; [done|].
      destruct (load_content_no_artifact config w1) as (ev1 & Htr2 & Hq2).
      pose proof (load_content_fs config w1) as Hfs. unfold same_fs in Hfs.
      destruct (load_content config w1) as [[rc|e] w2] eqn:Hl; simpl in *.
      * rewrite Hfs. split; [done|]. split.
        -- rewrite (events_since_app w w2 (ev0 ++ ev1)) by (by rewrite Htr2, Htr1, app_assoc).
           by apply Forall_app.
        -- by eapply main_reaches_produce.
      * split.
        -- rewrite (events_since_app w w2 (ev0 ++ ev1)) by (by rewrite Htr2, Htr1, app_assoc).
           by apply Forall_app.
        -- by eapply main_aborts_in_load.
    + split; [by rewrite (events_since_app _ _ _ Htr1)|].
      unfold main. by rewrite (bind_Raise _ _ _ _ _ Hinit).
  - intros config w0 Hcfg Hfile.
    pose proof (load_config_same _ _ _ Hcfg) as ->.
    destruct (load_config_cwd _ _ _ Hcfg) as [es Hc]. cbn [w_fs log] in Hc.
    rewrite resolve_output, (fs_lookup_entry _ _ _ _ Hc) in *.
    destruct (setup_output_run (log starting_banner w) es Hc Hfile) as (fs1 & Hrun & Hnew).
    eexists. unfold main_init. unfold bind at 1, print at 1. fold starting_banner.
    unfold bind at 1. rewrite Hcfg. unfold bind. rewrite Hrun. unfold ret.
    split; [reflexivity|]. cbn [w_fs w_heap w_trace log].
    split; [by rewrite (fs_lookup_entry _ _ _ _ Hnew), dict_get_snoc
              by apply dict_get_remove_eq|].
    split; [done|]. unfold events_since. cbn [w_trace].
    rewrite <- app_assoc, drop_app_length. done.
Qed.

(** *** Copying the assets *)

(** A change below one entry of a directory leaves the other entries
    alone. *)
Lemma fs_modify_beside g d a r b q n n' :
  fs_modify g (d ++ a :: r) n = Some n' -> a <> b ->
  fs_lookup (d ++ b :: q) n' = fs_lookup (d ++ b :: q) n.
Proof.
  revert n n'. induction d as [|c d IH]; intros n n' H Hne; destruct n as [|es]; simpl in *;
    try done.
  - destruct (dict_get a es) as [m|] eqn:E; [|done].
    destruct (fs_modify g r m) as [m'|]; simplify_eq. simpl.
    by rewrite dict_get_set_ne.
  - destruct (dict_get c es) as [m|] eqn:E; [|done].
    destruct (fs_modify g (d ++ a :: r) m) as [m'|] eqn:E'; simplify_eq. simpl.
    rewrite dict_get_set_eq. eauto.
Qed.

(** An entry of a directory that is there: the directory above is there
    and holds it. *)
Lemma lookup_entry_inv d a n x :
  fs_lookup (d ++ [a]) n = Some x ->
  exists es, fs_lookup d n = Some (Dir es) /\ dict_get a es = Some x.
Proof.
  rewrite fs_lookup_app. destruct (fs_lookup d n) as [[|es]|]; try done.
  simpl. destruct (dict_get a es) eqn:E; [|done]. intros [= <-]. eauto.
Qed.

Lemma copy_assets_absent w :
  fs_lookup (resolve' ASSETS_DIR) (w_fs w) = None -> copy_assets w = (Ok tt, w).
Proof.
  intros H. unfold copy_assets, bind, os_path_exists.
  rewrite stat_assets. rewrite resolve_assets in H. by rewrite H.
Qed.

Lemma copy_assets_present w es out :
  fs_lookup (resolve' ASSETS_DIR) (w_fs w) = Some (Dir es) ->
  fs_lookup (resolve' OUTPUT_DIR) (w_fs w) = Some (Dir out) ->
  dict_get ASSETS_DIR out = None ->
  exists fs',
    copy_assets w = (Ok tt, log copied_assets (set_fs fs' w)) /\
    fs_lookup (resolve' OUTPUT_DIR) fs' = Some (Dir (out ++ [(ASSETS_DIR, Dir es)])) /\
    fs_lookup (resolve' ASSETS_DIR) fs' = Some (Dir es).
Proof.
  intros Hsrc Hout Hfree. unfold copy_assets, bind, os_path_exists, shutil_copytree.
  rewrite resolve_assets, resolve_output in *.
  rewrite stat_assets, Hsrc. cbn beta iota.
  rewrite stat_assets, Hsrc.
  rewrite (makedirs_nested _ _ _ _ plain_output plain_assets). cbn zeta.
  destruct (lookup_entry_inv _ _ _ _ Hout) as (es0 & -> & Hes0).
  unfold OUTPUT_DIR at 1. rewrite Hes0, Hfree. unfold copied_assets, OUTPUT_DIR, ASSETS_DIR in *.
  destruct (fs_modify_ok (fun es0 => Some (es0 ++ [("assets", Dir es)])) _ _ _ _ Hout eq_refl)
    as (fs' & Hmod & Hnew).
  rewrite Hmod. exists fs'. split; [done|]. split; [done|].
  rewrite <- Hsrc.
  eapply (fs_modify_beside _ cwd "output" [] "assets" []); [exact Hmod|done].
Qed.

(** C8: the assets step copies the whole assets directory to
    [output/assets] when there is one, and does nothing at all when
    there is none; in both cases it returns without an exception. *)
Theorem copy_assets_copies_or_skips (w : World) :
  (fs_lookup (resolve' ASSETS_DIR) (w_fs w) = None ->
   copy_assets w = (Ok tt, w)) /\
  (forall es out,
     fs_lookup (resolve' ASSETS_DIR) (w_fs w) = Some (Dir es) ->
     fs_lookup (resolve' OUTPUT_DIR) (w_fs w) = Some (Dir out) ->
     dict_get ASSETS_DIR out = None ->
     exists fs',
       copy_assets w = (Ok tt, log copied_assets (set_fs fs' w)) /\
       fs_lookup (resolve' OUTPUT_DIR) fs' = Some (Dir (out ++ [(ASSETS_DIR, Dir es)])) /\
       fs_lookup (resolve' ASSETS_DIR) fs' = Some (Dir es)).
Proof.
  split; [apply copy_assets_absent|]. intros es out. apply copy_assets_present.
Qed.

(** *** Producing into the output directory *)

Lemma beside_output_refl fs : beside_output fs fs.
Proof. done. Qed.

Lemma beside_output_trans fs1 fs2 fs3 :
  beside_output fs1 fs2 -> beside_output fs2 fs3 -> beside_output fs1 fs3.
Proof. intros H1 H2 b q Hb. by rewrite H2, H1. Qed.

Lemma modify_output_beside g fs fs' :
  fs_modify g (cwd ++ ["output"]) fs = Some fs' -> beside_output fs fs'.
Proof. intros H b q Hb. eapply fs_modify_beside; [exact H|done]. Qed.

(** The entries with a name of the script's, under the changes that the
    script makes to a directory. *)
Lemma products_app es es' : products (es ++ es') = products es ++ products es'.
Proof. apply List.filter_app. Qed.

Lemma products_set n x es :
  is_product n = true -> products (dict_set n x es) = dict_set n x (products es).
Proof.
  intros Hn. unfold products. induction es as [|[k v] es IH]; simpl.
  - by rewrite Hn.
  - destruct (String.eqb n k) eqn:E; simpl.
    + apply String.eqb_eq in E. subst k. rewrite Hn. simpl. by rewrite String.eqb_refl.
    + destruct (is_product k); simpl; by rewrite ?E, IH.
Qed.

Lemma products_remove n es : products (dict_remove n es) = dict_remove n (products es).
Proof.
  unfold products, dict_remove. induction es as [|[k v] es IH]; simpl; [done|].
  destruct (String.eqb n k) eqn:E, (is_product k) eqn:Hk; simpl;
    rewrite ?E, ?Hk; simpl; by rewrite ?IH.
Qed.

Lemma dict_get_products n es : is_product n = true -> dict_get n (products es) = dict_get n es.
Proof.
  intros Hn. unfold products. induction es as [|[k v] es IH]; simpl; [done|].
  destruct (String.eqb n k) eqn:E.
  - apply String.eqb_eq in E. subst k. rewrite Hn. simpl. by rewrite String.eqb_refl.
  - destruct (is_product k); simpl; by rewrite ?E.
Qed.

Lemma dict_remove_set {V} n (x : V) es : dict_remove n (dict_set n x es) = dict_remove n es.
Proof.
  unfold dict_remove. induction es as [|[k v] es IH]; simpl.
  - by rewrite String.eqb_refl.
  - destruct (String.eqb n k) eqn:E; simpl; rewrite ?String.eqb_refl, ?E; simpl; [done|].
    by rewrite IH.
Qed.

Lemma is_product_pdf p : is_product (p +:+ ".pdf") = true.
Proof. unfold is_product. by rewrite endswith_app. Qed.

Lemma is_product_html p : is_product (p +:+ ".html") = true.
Proof. unfold is_product. by rewrite endswith_app, orb_true_r. Qed.

Lemma products_set_other n x es :
  is_product n = false -> products (dict_set n x es) = products es.
Proof.
  intros Hn. unfold products. induction es as [|[k v] es IH]; simpl.
  - by rewrite Hn.
  - destruct (String.eqb n k) eqn:E; simpl.
    + apply String.eqb_eq in E. subst k. by rewrite Hn.
    + by rewrite IH.
Qed.

Lemma by_product_name b ext :
  ext = ".aux" \/ ext = ".log" -> is_product (b +:+ ext) = false.
Proof.
  intros Hext. unfold is_product.
  destruct (endswith (b +:+ ext) ".pdf") eqn:E1.
  { apply endswith_inv in E1 as [pre E1]. destruct Hext as [-> | ->]; suffix_clash E1. }
  destruct (endswith (b +:+ ext) ".html") eqn:E2.
  { apply endswith_inv in E2 as [pre E2]. destruct Hext as [-> | ->]; suffix_clash E2. }
  simpl. apply String.eqb_neq. intros E3.
  change "assets" with ("" +:+ "assets") in E3.
  destruct Hext as [-> | ->]; suffix_clash E3.
Qed.

(** Writing a file into the output directory. *)
Lemma write_in_output w E n c :
  plain_name n ->
  fs_lookup (resolve' OUTPUT_DIR) (w_fs w) = Some (Dir E) ->
  (forall es, dict_get n E <> Some (Dir es)) ->
  exists fs',
    write_file (path_join OUTPUT_DIR n) c w
      = (Ok tt, log (EvWrite (path_join OUTPUT_DIR n) c) (set_fs fs' w)) /\
    fs_lookup (resolve' OUTPUT_DIR) fs' = Some (Dir (dict_set n (File c) E)) /\
    beside_output (w_fs w) fs'.
Proof.
  intros Hn Hout Hfile. unfold write_file. rewrite resolve_output in *.
  rewrite (locate_in_output _ _ _ Hn Hout), (fs_lookup_entry _ _ _ _ Hout), split_last_snoc.
  assert (put_file n c E = Some (dict_set n (File c) E)) as Hput.
  { unfold put_file. destruct (dict_get n E) as [[|es]|]; try done. by destruct (Hfile es). }
  destruct (fs_modify_ok _ _ _ _ _ Hout Hput) as (fs' & Hmod & Hnew).
  rewrite Hmod. exists fs'.
  split; [|split; [done|by eapply modify_output_beside]].
  destruct (dict_get n E) as [[|es]|]; try done. by destruct (Hfile es).
Qed.

(** Moving a file of the output directory to a name of the output
    directory that is free or held by a file. *)
Lemma move_in_output w E b p x :
  plain_name b -> plain_name p ->
  fs_lookup (resolve' OUTPUT_DIR) (w_fs w) = Some (Dir E) ->
  dict_get b E = Some (File x) ->
  (forall es, dict_get p E <> Some (Dir es)) ->
  exists fs',
    shutil_move (path_join OUTPUT_DIR b) (path_join OUTPUT_DIR p) w
      = (Ok tt, log (EvMove (path_join OUTPUT_DIR b) (path_join OUTPUT_DIR p)) (set_fs fs' w)) /\
    fs_lookup (resolve' OUTPUT_DIR) fs'
      = Some (Dir (if decide (b = p) then E else dict_set p (File x) (dict_remove b E))) /\
    beside_output (w_fs w) fs'.
Proof.
  intros Hb Hp Hout Hsrc Hdst. rewrite resolve_output in *.
  assert (os_rename (path_join OUTPUT_DIR b) (path_join OUTPUT_DIR p) w
          = if decide (b = p)
            then (Ok tt, log (EvMove (path_join OUTPUT_DIR b) (path_join OUTPUT_DIR p)) w)
            else match fs_modify (fun es => Some (dict_remove b es)) (cwd ++ ["output"]) (w_fs w) with
                 | Some fs1 =>
                     match fs_modify (fun es => Some (dict_set p (File x) es))
                                     (cwd ++ ["output"]) fs1 with
                     | Some fs2 =>
                         (Ok tt, log (EvMove (path_join OUTPUT_DIR b) (path_join OUTPUT_DIR p))
                                     (set_fs fs2 w))
                     | None => (Raise (FileNotFoundError (path_join OUTPUT_DIR p)), w)
                     end
                 | None => (Raise (OSError (path_join OUTPUT_DIR b)), w)
                 end) as Hren.
  { unfold os_rename.
    rewrite (locate_in_output _ _ _ Hb Hout), (locate_in_output _ _ _ Hp Hout).
    rewrite !(fs_lookup_entry _ _ _ _ Hout), Hsrc.
    destruct (decide (b = p)) as [->|Hne].
    - by rewrite decide_True.
    - rewrite decide_False by (intros H; apply app_inv_head in H; congruence).
      rewrite !split_last_snoc.
      destruct (dict_get p E) as [[|es]|]; try done. by destruct (Hdst es). }
  assert (shutil_move (path_join OUTPUT_DIR b) (path_join OUTPUT_DIR p) w
          = os_rename (path_join OUTPUT_DIR b) (path_join OUTPUT_DIR p) w) as ->.
  { unfold shutil_move. rewrite (stat_in_output _ _ _ Hp Hout).
    destruct (dict_get p E) as [[|es]|]; try done. by destruct (Hdst es). }
  rewrite Hren. destruct (decide (b = p)) as [->|Hne].
  - exists (w_fs w). rewrite set_fs_same. split; [done|]. split; [done|].
    apply beside_output_refl.
  - destruct (fs_modify_ok (fun es => Some (dict_remove b es)) _ _ _ _ Hout eq_refl)
      as (fs1 & Hmod1 & Hnew1).
    rewrite Hmod1.
    destruct (fs_modify_ok (fun es => Some (dict_set p (File x) es)) _ _ _ _ Hnew1 eq_refl)
      as (fs2 & Hmod2 & Hnew2).
    rewrite Hmod2. exists fs2. split_and!; [done..|].
    eapply beside_output_trans; eapply modify_output_beside; eauto.
Qed.

(** A run of the compiler that succeeds. *)
Lemma compile_in_output w tex :
  compiled tex (w_fs w) (os_exec (latexmk_argv tex OUTPUT_DIR) (w_fs w)) ->
  exists so se fs' E E' pdf,
    os_exec (latexmk_argv tex OUTPUT_DIR) (w_fs w) = Exited 0 so se fs' /\
    run_pdflatex tex OUTPUT_DIR w
      = (Ok tt, log (EvSpawn (latexmk_argv tex OUTPUT_DIR)) (set_fs fs' w)) /\
    fs_lookup (resolve' OUTPUT_DIR) (w_fs w) = Some (Dir E) /\
    fs_lookup (resolve' OUTPUT_DIR) fs' = Some (Dir E') /\
    products E' = dict_set (base_name tex +:+ ".pdf") (File pdf) (products E) /\
    beside_output (w_fs w) fs'.
Proof.
  intros (so & se & fs' & E & E' & pdf & Hexec & Hout & Hout' & Hprod & Hbeside).
  exists so, se, fs', E, E', pdf. split_and!; try done.
  unfold run_pdflatex, try_except_cpe, subprocess_run.
  unfold latexmk_argv in *. simpl in *. by rewrite Hexec.
Qed.

(** One round of the build loop in which the compiler succeeds and the
    page template renders: the PDF goes under the permalink, the page
    beside it. *)
Lemma build_item_run config rc item w v E :
  deref_permalink (w_heap w) item = Some v ->
  has_slash (str v) = false ->
  fs_lookup (resolve' OUTPUT_DIR) (w_fs w) = Some (Dir E) ->
  compiled (cd_tex_path item) (w_fs w)
           (os_exec (latexmk_argv (cd_tex_path item) OUTPUT_DIR) (w_fs w)) ->
  (forall fs, beside_output (w_fs w) fs ->
     is_Some (jinja_render fs "paper.html.j2" (page_ctx (w_heap w) config rc item))) ->
  let b := base_name (cd_tex_path item) +:+ ".pdf" in
  let p := str v +:+ ".pdf" in
  let h := str v +:+ ".html" in
  (forall es, dict_get p E <> Some (Dir es)) ->
  (forall es, dict_get h E <> Some (Dir es)) ->
  exists pdf html w' E',
    build_item config rc item w = (Ok tt, w') /\
    fs_lookup (resolve' OUTPUT_DIR) (w_fs w') = Some (Dir E') /\
    products E' = dict_set h (File html)
                    (dict_set p (File pdf)
                       (if decide (b = p) then products E else dict_remove b (products E))) /\
    w_heap w' = w_heap w /\ beside_output (w_fs w) (w_fs w') /\
    (exists evs, w_trace w' = w_trace w ++ evs /\
                 omap written_path evs = [pdf_path (str v); html_path (str v)]) /\
    (exists so se fs1,
       os_exec (latexmk_argv (cd_tex_path item) OUTPUT_DIR) (w_fs w) = Exited 0 so se fs1 /\
       fs_lookup (resolve' OUTPUT_DIR ++ [b]) fs1 = Some (File pdf)) /\
    (exists fs2, beside_output (w_fs w) fs2 /\
       jinja_render fs2 "paper.html.j2" (page_ctx (w_heap w) config rc item) = Some html).
Proof.
  intros Hp Hplain Hout Hcomp Hrender b p h Hpfile Hhfile. unfold deref_permalink in Hp.
  assert (is_product b = true /\ is_product p = true /\ is_product h = true)
    as (Hpb & Hpp & Hph)
    by (split_and!; [apply is_product_pdf..|apply is_product_html]).
  assert (plain_name b /\ plain_name p /\ plain_name h) as (Hnb & Hnp & Hnh).
  { split_and!; [apply plain_pdf, base_name_no_slash|by apply plain_pdf|by apply plain_html]. }
  assert (h <> p) as Hhp by (unfold h, p; intros E0; suffix_clash E0).
  assert (h <> b) as Hhb by (unfold h, b; intros E0; suffix_clash E0).
  unfold build_item. fold (base_name (cd_tex_path item)).
  unfold bind at 1, getitem at 1. rewrite Hp.
  unfold bind at 1, print at 1.
  destruct (compile_in_output (log (compiling_message v) w) (cd_tex_path item) Hcomp)
    as (so & se & fs1 & E0 & E1 & pdf & Hexec & Hrun & Hout0 & Hout1 & Hprod1 & Hb1).
  cbn [w_fs log] in Hout0, Hexec, Hb1. rewrite Hout in Hout0.
  injection Hout0 as <-.
  unfold compiling_message in Hrun. unfold bind at 1. rewrite Hrun. clear Hrun.
  unfold bind at 1, getitem at 1. cbn [w_heap log set_fs]. rewrite Hp.
  set (w1 := log _ (set_fs fs1 _)).
  assert (dict_get b E1 = Some (File pdf)) as Hsrc.
  { rewrite <- (dict_get_products _ _ Hpb), Hprod1. apply dict_get_set_eq. }
  assert (forall es, dict_get p E1 <> Some (Dir es)) as Hdst.
  { intros es. rewrite <- (dict_get_products _ _ Hpp), Hprod1.
    destruct (decide (b = p)) as [Hbp|Hbp].
    - fold b. rewrite Hbp, dict_get_set_eq. done.
    - fold b. rewrite dict_get_set_ne by done. rewrite (dict_get_products _ _ Hpp).
      apply Hpfile. }
  destruct (move_in_output w1 E1 b p pdf Hnb Hnp Hout1 Hsrc Hdst)
    as (fs2 & Hmove & Hout2 & Hb2).
  unfold pdf_path. fold b p. unfold bind at 1. rewrite Hmove. clear Hmove.
  unfold bind at 1, print at 1. unfold bind at 1, make_ctx at 1.
  cbn [w_heap log set_fs option_map]. change (w_heap w1) with (w_heap w).
  fold (page_ctx (w_heap w) config rc item).
  unfold bind at 1, render at 1. cbn [w_fs log set_fs].
  assert (beside_output (w_fs w) fs2) as Hb12 by (by eapply beside_output_trans).
  destruct (Hrender fs2 Hb12) as [html Hhtml]. rewrite Hhtml.
  unfold bind at 1, getitem at 1. cbn [w_heap log set_fs].
  change (w_heap w1) with (w_heap w). rewrite Hp.
  set (w2 := log (EvRender _ _) _).
  set (E2 := if decide (b = p) then E1 else dict_set p (File pdf) (dict_remove b E1)) in *.
  assert (products E2
          = dict_set p (File pdf) (if decide (b = p) then products E else dict_remove b (products E)))
    as Hprod2.
  { subst E2. destruct (decide (b = p)) as [Hbp|Hbp].
    - rewrite Hprod1. fold b. by rewrite Hbp.
    - rewrite (products_set _ _ _ Hpp), products_remove, Hprod1. fold b.
      by rewrite dict_remove_set. }
  assert (forall es, dict_get h E2 <> Some (Dir es)) as Hhfile2.
  { intros es. rewrite <- (dict_get_products _ _ Hph), Hprod2.
    rewrite dict_get_set_ne by done.
    destruct (decide (b = p)).
    - rewrite (dict_get_products _ _ Hph). apply Hhfile.
    - rewrite dict_get_remove_ne by done. rewrite (dict_get_products _ _ Hph). apply Hhfile. }
  destruct (write_in_output w2 E2 h html Hnh Hout2 Hhfile2) as (fs3 & Hwrite & Hout3 & Hb3).
  unfold html_path. fold h. rewrite Hwrite. exists pdf, html. eexists. eexists.
  split; [reflexivity|]. cbn [w_fs w_heap w_trace log set_fs].
  split; [exact Hout3|]. split; [by rewrite (products_set _ _ _ Hph), Hprod2|].
  split; [done|]. split; [by eapply beside_output_trans|]. split; [|split].
  - subst w2 w1. cbn [w_trace log set_fs]. eexists.
    split; [rewrite <- !app_assoc; reflexivity|]. reflexivity.
  - exists so, se, fs1. split; [done|].
    by rewrite (fs_lookup_entry _ _ _ _ Hout1).
  - by exists fs2.
Qed.

Lemma listing_names_app ps qs :
  listing_names (ps ++ qs) = listing_names ps ++ listing_names qs.
Proof. induction ps as [|p ps IH]; simpl; [done|]. by rewrite IH. Qed.

Lemma in_listing_pdf x ps : In (x +:+ ".pdf") (listing_names ps) -> In x ps.
Proof.
  induction ps as [|p ps IH]; simpl; [done|].
  intros [E|[E|H]]; [left; by apply append_inv_tail in E | suffix_clash E | right; auto].
Qed.

Lemma in_listing_html x ps : In (x +:+ ".html") (listing_names ps) -> In x ps.
Proof.
  induction ps as [|p ps IH]; simpl; [done|].
  intros [E|[E|H]]; [suffix_clash E | left; by apply append_inv_tail in E | right; auto].
Qed.

(** The build loop on items whose names do not collide, from the point
    that the loop has reached after the items [done]. *)
Lemma build_loop_ok config rc h w0 : forall items done w E,
  rc = done ++ items ->
  for_each (build_item config rc) done w0 = (Ok tt, w) ->
  (forall pre item post w3,
     rc = pre ++ item :: post ->
     for_each (build_item config rc) pre w0 = (Ok tt, w3) ->
     compiled (cd_tex_path item) (w_fs w3)
              (os_exec (latexmk_argv (cd_tex_path item) OUTPUT_DIR) (w_fs w3))) ->
  (forall item, In item rc -> forall fs, beside_output (w_fs w0) fs ->
     is_Some (jinja_render fs "paper.html.j2" (page_ctx h config rc item))) ->
  w_heap w = h -> beside_output (w_fs w0) (w_fs w) ->
  Forall (fun item => is_Some (deref_permalink h item)) items ->
  Forall (fun item => has_slash (permalink_name h item) = false) items ->
  fresh (map (permalink_name h) done) (map (names_of h) items) ->
  fs_lookup (resolve' OUTPUT_DIR) (w_fs w) = Some (Dir E) ->
  map fst (products E) = listing_names (map (permalink_name h) done) ->
  Forall (fun e => is_file (snd e) = true) (products E) ->
  exists E' w',
    for_each (build_item config rc) items w = (Ok tt, w') /\
    fs_lookup (resolve' OUTPUT_DIR) (w_fs w') = Some (Dir E') /\
    map fst (products E') = listing_names (map (permalink_name h) (done ++ items)) /\
    Forall (fun e => is_file (snd e) = true) (products E') /\
    w_heap w' = h /\ beside_output (w_fs w0) (w_fs w') /\
    exists evs, w_trace w' = w_trace w ++ evs /\
      omap written_path evs
      = flat_map (fun p => [pdf_path p; html_path p]) (map (permalink_name h) items).
Proof.
  induction items as [|item items IH];
    intros done w E Hrc Hdone Hcomp Hrender Hh Hbes Hperm Hplain Hfresh Hout Hnames Hfiles.
  { exists E, w. rewrite app_nil_r. split_and!; try done. exists []. by rewrite app_nil_r. }
  apply Forall_cons in Hperm as [[v Hv] Hperm]. apply Forall_cons in Hplain as [Hpl Hplain].
  simpl in Hfresh. destruct Hfresh as (Hp & Hb & Hfresh).
  set (seen := map (permalink_name h) done) in *.
  assert (permalink_name h item = str v) as Hname
    by (unfold permalink_name; by rewrite Hv).
  rewrite Hname in Hpl, Hp, Hfresh.
  assert (forall n, is_product n = true -> ~ In n (listing_names seen) ->
                    dict_get n (products E) = None /\ dict_get n E = None) as Hfree.
  { intros n Hn Hnot. rewrite <- (dict_get_products n E Hn).
    split; by apply dict_get_None_notin; rewrite Hnames. }
  destruct (Hfree (str v +:+ ".pdf")) as [HpP HpE];
    [apply is_product_pdf|by intros Hin; apply in_listing_pdf in Hin|].
  destruct (Hfree (str v +:+ ".html")) as [HhP HhE];
    [apply is_product_html|by intros Hin; apply in_listing_html in Hin|].
  destruct (Hfree (base_name (cd_tex_path item) +:+ ".pdf")) as [HbP HbE];
    [apply is_product_pdf|by intros Hin; apply in_listing_pdf in Hin|].
  destruct (build_item_run config rc item w v E)
    as (pdf & html & w1 & E1 & Hstep & Hout1 & Hprod1 & Hh1 & Hb1 & (ev1 & Htr1 & Hev1) & _);
    try done.
  { by rewrite Hh. }
  { by apply (Hcomp done item items). }
  { intros fs Hfs. rewrite Hh. apply Hrender.
    - rewrite Hrc. apply in_app_iff. right. by left.
    - by eapply beside_output_trans. }
  { intros es. by rewrite HpE. }
  { intros es. by rewrite HhE. }
  cbn zeta in Hprod1.
  assert (products E1
          = products E ++ [(str v +:+ ".pdf", File pdf); (str v +:+ ".html", File html)])
    as Hprod1'.
  { rewrite Hprod1.
    assert ((if decide (base_name (cd_tex_path item) +:+ ".pdf" = str v +:+ ".pdf")
             then products E
             else dict_remove (base_name (cd_tex_path item) +:+ ".pdf") (products E))
            = products E) as ->.
    { destruct (decide _); [done|]. by apply dict_remove_absent. }
    rewrite (dict_set_fresh _ _ _ HpP). rewrite dict_set_fresh.
    - by rewrite <- app_assoc.
    - rewrite dict_get_app, HhP. simpl.
      destruct (String.eqb_spec (str v +:+ ".html") (str v +:+ ".pdf")) as [E'|]; [|done].
      suffix_clash E'. }
  destruct (IH (done ++ [item]) w1 E1)
    as (E' & w' & Hloop & Hout' & Hn' & Hf' & Hh' & Hb' & (ev2 & Htr2 & Hev2)); try done.
  { by rewrite <- app_assoc. }
  { rewrite for_each_app, Hdone. simpl. by rewrite (bind_Ok _ _ _ _ _ Hstep). }
  { congruence. }
  { by eapply beside_output_trans. }
  { rewrite map_app. simpl. by rewrite Hname. }
  { rewrite Hprod1', !map_app, Hnames, listing_names_app. simpl. by rewrite Hname. }
  { rewrite Hprod1'. apply Forall_app. split; [done|]. by repeat constructor. }
  exists E', w'. simpl. rewrite (bind_Ok _ _ _ _ _ Hstep). split_and!; try done.
  - by rewrite Hn', <- app_assoc.
  - exists (ev1 ++ ev2). split; [by rewrite Htr2, Htr1, app_assoc|].
    by rewrite omap_app, Hev1, Hev2, Hname.
Qed.

(** *** The inventory of the output directory *)

Lemma file_names_all_files es :
  Forall (fun e => is_file (snd e) = true) es -> file_names es = map fst es.
Proof.
  unfold file_names. induction 1 as [|e es He _ IH]; simpl; [done|].
  rewrite He. simpl. by rewrite IH.
Qed.

Lemma dir_entries_all_files es :
  Forall (fun e => is_file (snd e) = true) es -> dir_entries es = [].
Proof.
  unfold dir_entries. induction 1 as [|e es He _ IH]; simpl; [done|]. by rewrite He.
Qed.

Lemma index_is_no_item p : p <> "index" -> is_index (p +:+ ".html") = false.
Proof.
  intros Hp. unfold is_index. apply String.eqb_neq. intros E.
  apply Hp. by apply (append_inv_tail p "index" ".html").
Qed.

Lemma pdf_is_no_index p : is_index (p +:+ ".pdf") = false.
Proof. unfold is_index. apply String.eqb_neq. intros E. suffix_clash E. Qed.

Lemma count_listing ps :
  ~ In "index" ps ->
  count is_pdf (listing_names ps) = length ps /\
  count is_item_page (listing_names ps) = length ps /\
  count is_index (listing_names ps) = 0.
Proof.
  unfold count. induction ps as [|p ps IH]; intros Hidx; simpl; [done|].
  destruct IH as (H1 & H2 & H3); [by intros ?; apply Hidx; right|].
  assert (p <> "index") as Hp by (intros ->; apply Hidx; by left).
  unfold is_pdf, is_item_page.
  rewrite !endswith_app, pdf_is_not_html, html_is_not_pdf, pdf_is_no_index,
    (index_is_no_item _ Hp). simpl.
  fold is_pdf. fold is_item_page. rewrite H1, H2, H3. split_and!; lia.
Qed.

Lemma listing_has_no x ps :
  (forall p, x <> p +:+ ".pdf") -> (forall p, In p ps -> x <> p +:+ ".html") ->
  ~ In x (listing_names ps).
Proof.
  intros Hpdf Hhtml. induction ps as [|p ps IH]; simpl; [tauto|].
  intros [E|[E|H]].
  - by apply (Hpdf p).
  - apply (Hhtml p); [by left|done].
  - apply IH; [|done]. intros q Hq. apply Hhtml. by right.
Qed.

Lemma fresh_intro items : forall seen,
  NoDup (seen ++ map fst items) ->
  (forall pre x post, items = pre ++ x :: post -> ~ In (snd x) (seen ++ map fst pre)) ->
  fresh seen items.
Proof.
  induction items as [|[p b] items IH]; intros seen Hnd Hbase; simpl; [done|].
  split_and!.
  - apply NoDup_app in Hnd as (_ & Hnd & _). intros Hp. apply (Hnd p).
    + by apply list_elem_of_In.
    + simpl. left.
  - intros Hb. apply (Hbase [] (p, b) items eq_refl). by rewrite app_nil_r.
  - apply IH.
    + by rewrite <- app_assoc.
    + intros pre x post ->. rewrite <- app_assoc. apply (Hbase ((p, b) :: pre) x post eq_refl).
Qed.

(** Building the site when the index template renders and the name of
    the index is free or held by a file. *)
Lemma build_website_ok config rc w E :
  is_Some (jinja_render (w_fs w) "release.html.j2" (index_ctx (w_heap w) config rc)) ->
  fs_lookup (resolve' OUTPUT_DIR) (w_fs w) = Some (Dir E) ->
  (forall es, dict_get "index.html" E <> Some (Dir es)) ->
  exists idx w',
    build_website config rc w = (Ok tt, w') /\
    jinja_render (w_fs w) "release.html.j2" (index_ctx (w_heap w) config rc) = Some idx /\
    fs_lookup (resolve' OUTPUT_DIR) (w_fs w') = Some (Dir (dict_set "index.html" (File idx) E)) /\
    w_heap w' = w_heap w /\
    beside_output (w_fs w) (w_fs w') /\
    w_trace w' = w_trace w ++ [EvPrint (nl +:+ "Building static website...");
                               EvRender "release.html.j2" (index_ctx (w_heap w) config rc);
                               EvWrite (path_join OUTPUT_DIR "index.html") idx].
Proof.
  intros [idx Hidx] Hout Hfree. unfold build_website.
  unfold bind at 1, print at 1. unfold bind at 1, make_ctx at 1.
  cbn [w_heap log option_map]. fold (index_ctx (w_heap w) config rc).
  unfold bind at 1, render at 1. cbn [w_fs log]. rewrite Hidx.
  set (w1 := log (EvRender _ _) _).
  destruct (write_in_output w1 E "index.html" idx plain_index Hout Hfree)
    as (fs' & Hwrite & Hnew & Hb).
  rewrite Hwrite. exists idx. eexists. split; [reflexivity|].
  subst w1. cbn [w_fs w_heap w_trace log set_fs] in *. split_and!; try done.
  by rewrite <- !app_assoc.
Qed.

Lemma count_app f l l' : count f (l ++ l') = count f l + count f l'.
Proof. unfold count. by rewrite List.filter_app, length_app. Qed.

Lemma file_names_app es es' : file_names (es ++ es') = file_names es ++ file_names es'.
Proof. unfold file_names. by rewrite List.filter_app, map_app. Qed.

(** Counting the files with names of the script's needs the entries
    with such names only. *)
Lemma count_products f es :
  (forall n, f n = true -> is_product n = true) ->
  count f (file_names (products es)) = count f (file_names es).
Proof.
  intros Hf. unfold count, file_names, products.
  induction es as [|[k x] es IH]; simpl; [done|].
  destruct (is_product k) eqn:Hk; simpl.
  - destruct (is_file x); simpl; [|done]. destruct (f k); simpl; by rewrite IH.
  - destruct (is_file x); simpl; [|done].
    destruct (f k) eqn:Hfk; [by rewrite (Hf _ Hfk) in Hk|done].
Qed.

Lemma pdf_is_product n : is_pdf n = true -> is_product n = true.
Proof. unfold is_pdf, is_product. by intros ->. Qed.

Lemma item_page_is_product n : is_item_page n = true -> is_product n = true.
Proof.
  unfold is_item_page, is_product. intros H. apply andb_prop in H as [-> _].
  by rewrite orb_true_r.
Qed.

Lemma index_is_product n : is_index n = true -> is_product n = true.
Proof. unfold is_index. intros H. apply String.eqb_eq in H. by subst. Qed.

Lemma inventory_of_listing ps out L idx extra :
  products out = L ++ [("index.html", File idx)] ++ extra ->
  map fst L = listing_names ps ->
  Forall (fun e => is_file (snd e) = true) L ->
  ~ In "index" ps ->
  file_names extra = [] ->
  inventory (length ps) out.
Proof.
  intros Hprod Hnames Hfiles Hidx Hextra. unfold inventory.
  rewrite <- !(count_products _ out)
    by auto using pdf_is_product, item_page_is_product, index_is_product.
  rewrite Hprod, !file_names_app, Hextra, app_nil_r, (file_names_all_files _ Hfiles), Hnames.
  destruct (count_listing ps Hidx) as (H1 & H2 & H3).
  rewrite !count_app, H1, H2, H3.
  change (file_names [("index.html", File idx)]) with ["index.html"].
  change (count is_pdf ["index.html"]) with 0.
  change (count is_item_page ["index.html"]) with 0.
  change (count is_index ["index.html"]) with 1.
  lia.
Qed.

Lemma index_not_listed ps : ~ In "index" ps -> ~ In "index.html" (listing_names ps).
Proof.
  intros Hidx. apply listing_has_no.
  - intros p E. suffix_clash E.
  - intros p Hp E. apply Hidx. apply (append_inv_tail "index" p ".html") in E. by subst.
Qed.

Lemma assets_not_listed ps : ~ In "assets" (listing_names ps).
Proof. apply listing_has_no; intros p; [|intros _]; intros E; suffix_clash E. Qed.

Lemma dict_get_file k (E : list (string * node)) :
  In k (map fst E) -> Forall (fun e => is_file (snd e) = true) E ->
  exists c, dict_get k E = Some (File c).
Proof.
  induction E as [|[k' x] E IH]; simpl; [done|]. intros Hin Hall.
  apply Forall_cons in Hall as [Hx Hall].
  destruct (String.eqb_spec k k') as [->|Hne].
  - destruct x as [c|]; [by exists c|done].
  - destruct Hin as [?|Hin]; [congruence|]. by apply IH.
Qed.

(** The run on submissions whose names do not collide, up to its end:
    the entries of the output directory with names of the script's are
    the PDF and the page of each permalink, the index, and the copy of
    the assets if there are assets; and these are the paths that the
    script has written to. *)
Lemma release_built dc ids w w1 w2 rc :
  main_init w = (Ok (PDict dc), w1) ->
  dict_get "content_ids" dc = Some (PList ids) ->
  load_content (PDict dc) w1 = (Ok rc, w2) ->
  compiler_succeeds (PDict dc) rc w2 -> templates_render (PDict dc) rc w2 ->
  NoDup (map (permalink_name (w_heap w2)) rc) ->
  (forall c, In c rc -> has_slash (permalink_name (w_heap w2) c) = false
                        /\ permalink_name (w_heap w2) c <> "index") ->
  (forall pre c post, rc = pre ++ c :: post ->
     ~ In (base_name (cd_tex_path c)) (map (permalink_name (w_heap w2)) pre)) ->
  (forall text, fs_lookup (resolve' ASSETS_DIR) (w_fs w2) <> Some (File text)) ->
  exists w' out L idx,
    main w = (Ok tt, w') /\
    fs_lookup (resolve' OUTPUT_DIR) (w_fs w') = Some (Dir out) /\
    products out = L ++ [("index.html", File idx)]
                     ++ match fs_lookup (resolve' ASSETS_DIR) (w_fs w2) with
                        | Some assets => [(ASSETS_DIR, assets)]
                        | None => []
                        end /\
    map fst L = listing_names (map (permalink_name (w_heap w2)) rc) /\
    Forall (fun e => is_file (snd e) = true) L /\
    w_heap w' = w_heap w2 /\
    omap written_path (events_since w2 w')
    = own_paths (map (permalink_name (w_heap w2)) rc)
      ++ match fs_lookup (resolve' ASSETS_DIR) (w_fs w2) with
         | Some _ => [path_join OUTPUT_DIR ASSETS_DIR]
         | None => []
         end.
Proof.
  intros Hinit Hids Hload Hcomp [Hpage Hindex] Hnd Hnames Hbase Hassets.
  pose proof (main_produce_heap (PDict dc) rc w2) as Hheap. unfold same_heap in Hheap.
  rewrite (main_reaches_produce _ _ _ _ _ Hinit Hload).
  pose proof (main_init_output_empty _ _ _ Hinit) as Hout.
  rewrite <- (load_content_fs (PDict dc) w1), Hload in Hout. simpl in Hout.
  pose proof (loaded_permalinks _ _ _ _ _ _ eq_refl Hids Hload) as Hperm.
  set (h := w_heap w2) in *. set (ps := map (permalink_name h) rc) in *.
  assert (~ In "index" ps) as Hidx.
  { intros Hin. apply in_map_iff in Hin as (c & Hc & Hin). by destruct (Hnames c Hin). }
  destruct (build_loop_ok (PDict dc) rc h (log building_banner w2) rc []
              (log building_banner w2) [])
    as (E & w3 & Hloop & Hout3 & HE & Hfiles & Hh3 & Hb3 & (ev3 & Htr3 & Hev3)); try done.
  { apply Forall_forall. intros c Hc. apply list_elem_of_In in Hc. by destruct (Hnames c Hc). }
  { apply fresh_intro.
    - by rewrite map_map.
    - intros pre x post Heq. apply map_eq_app in Heq as (pre' & rest & -> & <- & Heq).
      apply map_eq_cons in Heq as (c & post' & -> & <- & _).
      rewrite map_map. simpl. by apply (Hbase pre' c post'). }
  simpl in HE. fold ps in HE, Hev3. cbn [w_fs w_trace log] in Hb3, Htr3.
  set (wm := log (EvPrint (nl +:+ "Building master release volume PDF...")) w3).
  assert (forall n, is_product n = true -> ~ In n (map fst (products E)) -> dict_get n E = None)
    as Hfree.
  { intros n Hn Hnot. rewrite <- (dict_get_products n E Hn). by apply dict_get_None_notin. }
  destruct (build_website_ok (PDict dc) rc wm E)
    as (idx & w4 & Hweb & _ & Hout4 & Hh4 & Hb4 & Htr4).
  { cbn [w_fs w_heap log wm]. rewrite Hh3. by apply Hindex. }
  { done. }
  { intros es. rewrite Hfree; [done|done|]. rewrite HE. by apply index_not_listed. }
  assert (products (dict_set "index.html" (File idx) E)
          = products E ++ [("index.html", File idx)]) as Hprod4.
  { rewrite products_set by done. apply dict_set_fresh.
    apply dict_get_None_notin. rewrite HE. by apply index_not_listed. }
  assert (fs_lookup (resolve' ASSETS_DIR) (w_fs w4) = fs_lookup (resolve' ASSETS_DIR) (w_fs w2))
    as Hsame.
  { rewrite resolve_assets. rewrite (Hb4 "assets" []) by done. simpl.
    by rewrite (Hb3 "assets" []). }
  assert (dict_get ASSETS_DIR (dict_set "index.html" (File idx) E) = None) as Hnoassets.
  { rewrite dict_get_set_ne by done. apply Hfree; [done|]. rewrite HE.
    apply assets_not_listed. }
  assert (w_trace w4
          = w_trace w2 ++ [building_banner] ++ ev3
              ++ [EvPrint (nl +:+ "Building master release volume PDF...");
                  EvPrint (nl +:+ "Building static website...");
                  EvRender "release.html.j2" (index_ctx (w_heap wm) (PDict dc) rc);
                  EvWrite (path_join OUTPUT_DIR "index.html") idx]) as Htr4'.
  { rewrite Htr4. cbn [w_trace log wm]. rewrite Htr3. by rewrite <- !app_assoc. }
  unfold main_produce.
  rewrite (bind_Ok _ _ _ _ _ (Hloop : build_pdfs (PDict dc) rc w2 = (Ok tt, w3))).
  unfold bind at 1, print at 1. fold wm. rewrite (bind_Ok _ _ _ _ _ Hweb).
  destruct (fs_lookup (resolve' ASSETS_DIR) (w_fs w2)) as [[text|assets]|] eqn:Ha.
  - by destruct (Hassets text).
  - destruct (copy_assets_present w4 assets _ Hsame Hout4 Hnoassets)
      as (fs5 & Hcopy & Hout5 & _).
    rewrite (bind_Ok _ _ _ _ _ Hcopy). unfold bind, print.
    eexists _, _, (products E), idx. split; [reflexivity|].
    cbn [w_fs w_heap log set_fs]. split; [exact Hout5|].
    split; [by rewrite products_app, Hprod4, <- app_assoc|].
    split; [done|]. split; [done|]. split; [rewrite Hh4; exact Hh3|].
    erewrite events_since_app;
      [|cbn [w_trace log set_fs]; rewrite Htr4', <- !app_assoc; reflexivity].
    rewrite !omap_app, Hev3. unfold own_paths. simpl. by rewrite <- ?app_assoc.
  - rewrite (bind_Ok _ _ _ _ _ (copy_assets_absent w4 Hsame)). unfold bind, print.
    eexists _, _, (products E), idx. split; [reflexivity|].
    cbn [w_fs w_heap log set_fs]. split; [exact Hout4|].
    split; [by rewrite Hprod4|].
    split; [done|]. split; [done|]. split; [rewrite Hh4; exact Hh3|].
    erewrite events_since_app;
      [|cbn [w_trace log set_fs]; rewrite Htr4', <- !app_assoc; reflexivity].
    rewrite !omap_app, Hev3. unfold own_paths. simpl. by rewrite <- ?app_assoc.
Qed.

(** C4, as amended: with [N] submissions loaded and none skipped, a
    compiler that succeeds in each of its runs, templates that render,
    permalinks that are pairwise different file names other than
    [index], no source whose base name is the permalink of an earlier
    submission, and an assets path that is no regular file, the run
    completes and the files of the output directory are [N] PDF files,
    [N] item pages and one [index.html]; the only directory with a name
    of the script's, if any, is the copy of the assets; and the script
    itself has written to the paths of these files and of that copy,
    and to no other.  What the compiler leaves beside its PDF, under
    names that end neither in [.pdf] nor in [.html], does not count. *)
Theorem clean_release_inventory
  (dc : pydict) (ids : list pyval) (w w1 w2 : World) (rc : list content_data) :
  main_init w = (Ok (PDict dc), w1) ->
  dict_get "content_ids" dc = Some (PList ids) ->
  load_content (PDict dc) w1 = (Ok rc, w2) ->
  length rc = length ids ->
  compiler_succeeds (PDict dc) rc w2 -> templates_render (PDict dc) rc w2 ->
  NoDup (map (permalink_name (w_heap w2)) rc) ->
  (forall c, In c rc -> has_slash (permalink_name (w_heap w2) c) = false
                        /\ permalink_name (w_heap w2) c <> "index") ->
  (forall pre c post, rc = pre ++ c :: post ->
     ~ In (base_name (cd_tex_path c)) (map (permalink_name (w_heap w2)) pre)) ->
  (forall text, fs_lookup (resolve' ASSETS_DIR) (w_fs w2) <> Some (File text)) ->
  exists w' out,
    main w = (Ok tt, w') /\
    fs_lookup (resolve' OUTPUT_DIR) (w_fs w') = Some (Dir out) /\
    inventory (length ids) out /\
    dir_entries (products out) = match fs_lookup (resolve' ASSETS_DIR) (w_fs w2) with
                                 | Some assets => [(ASSETS_DIR, assets)]
                                 | None => []
                                 end /\
    omap written_path (events_since w2 w')
    = own_paths (map (permalink_name (w_heap w2)) rc)
      ++ match fs_lookup (resolve' ASSETS_DIR) (w_fs w2) with
         | Some _ => [path_join OUTPUT_DIR ASSETS_DIR]
         | None => []
         end.
Proof.
  intros Hinit Hids Hload Hlen Hcomp Hrender Hnd Hnames Hbase Hassets.
  destruct (release_built dc ids w w1 w2 rc)
    as (w' & out & L & idx & Hmain & Hout & Hprod & HL & Hfiles & _ & Hown); try done.
  exists w', out. split; [done|]. split; [done|].
  assert (~ In "index" (map (permalink_name (w_heap w2)) rc)) as Hidx.
  { intros Hin. apply in_map_iff in Hin as (c & Hc & Hin). by destruct (Hnames c Hin). }
  split; [|split; [|done]].
  - rewrite <- Hlen, <- (length_map (permalink_name (w_heap w2)) rc).
    eapply inventory_of_listing; [exact Hprod|done..|].
    destruct (fs_lookup _ (w_fs w2)) as [[text|assets]|]; try done.
    by destruct (Hassets text).
  - rewrite Hprod. unfold dir_entries. rewrite !List.filter_app.
    fold (dir_entries L). rewrite (dir_entries_all_files _ Hfiles). simpl.
    destruct (fs_lookup _ (w_fs w2)) as [[text|assets]|]; try done.
    by destruct (Hassets text).
Qed.

(** * Further properties of the script *)

(** ** The manifest and the output directory *)

(** A manifest that is missing, or that does not parse, ends the run
    before anything is touched: the file system is as it was, the
    output of an earlier run included, and only the first line has been
    printed. *)
Theorem manifest_failure_keeps_previous_output (w : World) :
  (fs_lookup (resolve' CONFIG_FILE) (w_fs w) = None ->
   main w = (Raise (FileNotFoundError CONFIG_FILE), log starting_banner w)) /\
  (forall text,
     fs_lookup (resolve' CONFIG_FILE) (w_fs w) = Some (File text) ->
     yaml_safe_load text = None ->
     main w = (Raise YAMLError, log starting_banner w)).
Proof.
  rewrite resolve_config. split.
  - intros Hcfg. unfold main, main_init, load_config, bind, print, read_file.
    cbn [w_fs log]. by rewrite stat_config, Hcfg.
  - intros text Hcfg Hparse. unfold main, main_init, load_config, bind, print, read_file, yaml_load.
    cbn [w_fs log]. by rewrite stat_config, Hcfg, Hparse.
Qed.

(** A manifest that parses but is no mapping, or a mapping without
    [content_ids], is found out only when the loading loop starts: by
    then the output directory has been emptied, and the run ends
    there. *)
Theorem manifest_without_identifiers_aborts (w w1 : World) (config : pyval) :
  main_init w = (Ok config, w1) ->
  match config with PDict d => dict_get "content_ids" d = None | _ => True end ->
  main w = (Raise (match config with
                   | PDict _ => KeyError "content_ids"
                   | _ => TypeError
                   end), log loading_banner w1) /\
  fs_lookup (resolve' OUTPUT_DIR) (w_fs w1) = Some (Dir []).
Proof.
  intros Hinit Hids. split; [|by eapply main_init_output_empty].
  eapply main_aborts_in_load; [done|].
  unfold load_content, bind, print, subscript. fold loading_banner.
  destruct config as [| | | | |d]; try done. by rewrite Hids.
Qed.

(** When the output path is taken by a regular file, the manifest is
    read, the removal of the output tree fails on the file and the run
    ends, the file being left where it is. *)
Theorem output_path_taken_by_a_file (w w0 : World) (config : pyval) (text : string) :
  load_config (log starting_banner w) = (Ok config, w0) ->
  fs_lookup (resolve' OUTPUT_DIR) (w_fs w) = Some (File text) ->
  main w = (Raise (NotADirectoryError OUTPUT_DIR), log starting_banner w).
Proof.
  intros Hcfg Hout. rewrite resolve_output in Hout.
  pose proof (load_config_same _ _ _ Hcfg) as ->.
  unfold main, main_init. unfold bind at 1 2 3, print at 1. fold starting_banner.
  rewrite Hcfg. unfold setup_output, bind, os_path_exists, shutil_rmtree.
  cbn [w_fs log]. rewrite stat_output, Hout. cbn [w_fs log].
  by rewrite (locate_output _ _ Hout), Hout.
Qed.

(** The asset copier fails in two ways, each time without changing
    anything: on an assets path that is a regular file, and on an
    output directory that has an assets entry already. *)
Theorem copy_assets_failures (w : World) :
  (forall text,
     fs_lookup (resolve' ASSETS_DIR) (w_fs w) = Some (File text) ->
     copy_assets w = (Raise (NotADirectoryError ASSETS_DIR), w)) /\
  (forall es x,
     fs_lookup (resolve' ASSETS_DIR) (w_fs w) = Some (Dir es) ->
     fs_lookup (resolve' (path_join OUTPUT_DIR ASSETS_DIR)) (w_fs w) = Some x ->
     copy_assets w = (Raise (FileExistsError (path_join OUTPUT_DIR ASSETS_DIR)), w)).
Proof.
  rewrite resolve_assets, resolve_output_assets. split.
  - intros text Hsrc. unfold copy_assets, bind, os_path_exists, shutil_copytree.
    rewrite stat_assets, Hsrc. cbn beta iota. by rewrite stat_assets, Hsrc.
  - intros es x Hsrc Hdst. unfold copy_assets, bind, os_path_exists, shutil_copytree.
    rewrite stat_assets, Hsrc. cbn beta iota. rewrite stat_assets, Hsrc.
    rewrite (makedirs_nested _ _ _ _ plain_output plain_assets). cbn zeta.
    destruct (lookup_entry_inv _ _ _ _ Hdst) as (ea & Hout & Hx).
    destruct (lookup_entry_inv _ _ _ _ Hout) as (es0 & -> & Hea).
    unfold OUTPUT_DIR at 1. rewrite Hea. unfold ASSETS_DIR at 1. rewrite Hx.
    by rewrite set_fs_same.
Qed.

(** ** The content loader, case by case *)

(** A round of the loader returns in two cases only: the directory is
    there and lacks one of the two files, or the submission is complete.
    In every other case (no directory, a metadata file that cannot be
    read or parsed or is no mapping, no permalink, no title) the round
    raises, which ends the run. *)
Theorem load_item_returns_iff (rc : list content_data) (item_id : pyval) (w : World) :
  (exists rc' w', load_item rc item_id w = (Ok rc', w')) <->
  skipped (w_fs w) item_id = true \/ complete (w_fs w) item_id.
Proof.
  split.
  - intros (rc' & w' & H).
    apply load_item_inv in H as [(Hsk & _) | (_ & d & tex & p & t & Hm & Hp & Ht & _)].
    + by left.
    + right. by exists d, tex, p, t.
  - intros [Hsk | (d & tex & p & t & Hm & Hp & Ht)].
    + unfold skipped in Hsk.
      destruct (fs_stat cwd (item_dir_of item_id) (w_fs w)) as [[|es]| |] eqn:Hdir;
        try done.
      eexists _, _. apply (load_item_incomplete rc _ _ _ Hdir).
      destruct (List.find is_yml (map fst es)); [|by left].
      destruct (List.find is_tex (map fst es)); [done|by right].
    + unfold metadata_of in Hm.
      destruct (fs_stat cwd (item_dir_of item_id) (w_fs w)) as [[|es]| |] eqn:Hdir;
        try done.
      destruct (List.find is_yml (map fst es)) as [mf|] eqn:Hyml; [|done].
      destruct (List.find is_tex (map fst es)) as [tf|] eqn:Htex; [|done].
      destruct (fs_stat cwd (path_join (item_dir_of item_id) mf) (w_fs w))
        as [[text|]| |] eqn:Htext; try done.
      destruct (yaml_safe_load text) as [[| | | | |d']|] eqn:Hparse; try done.
      simplify_eq.
      rewrite (load_item_found rc _ _ _ _ _ _ _ Hdir Hyml Htex Htext Hparse).
      cbn zeta. rewrite Hp, Ht. by eexists _, _.
Qed.

Lemma load_loop_lines ids : forall rc0 w rc w',
  for_fold load_item ids rc0 w = (Ok rc, w') ->
  exists evs,
    w_trace w' = w_trace w ++ evs /\
    map Some (List.filter is_print evs) = map (loader_line (w_fs w)) ids.
Proof.
  induction ids as [|item_id ids IH]; intros rc0 w rc w' H; simpl in H.
  { unfold ret in H. simplify_eq. exists []. by rewrite app_nil_r. }
  unfold bind in H. destruct (load_item rc0 item_id w) as [[rc1|e] w1] eqn:E; [|done].
  apply load_item_inv in E
    as [(Hsk & -> & ->) | (Hsk & d & tex & p & t & Hmeta & Hp & Ht & -> & ->)];
    destruct (IH _ _ _ _ H) as (evs & Htr & Hlines); simpl in *.
  - exists (EvPrint (missing_warning item_id) :: evs). split.
    + by rewrite Htr, <- app_assoc.
    + simpl. rewrite Hlines. unfold loader_line at 2. by rewrite Hsk.
  - exists (setitem_events (length (w_heap w)) item_id p ++ [loaded_message t] ++ evs). split.
    + by rewrite Htr, <- !app_assoc.
    + simpl. rewrite Hlines. unfold loader_line at 2. by rewrite Hsk, Hmeta, Ht.
Qed.

(** What the loader prints when it comes to its end: its first line,
    then one line for each identifier of the manifest, in the order of
    the manifest: the warning for one that is passed over, the title
    for one that is loaded. *)
Theorem loader_prints_one_line_per_identifier
  (d : pydict) (ids : list pyval) (w w' : World) (rc : list content_data) :
  dict_get "content_ids" d = Some (PList ids) ->
  load_content (PDict d) w = (Ok rc, w') ->
  map Some (List.filter is_print (events_since w w'))
  = Some loading_banner :: map (loader_line (w_fs w)) ids.
Proof.
  intros Hids H. rewrite (load_content_ids _ _ _ Hids) in H.
  apply load_loop_lines in H as (evs & Htr & Hlines). simpl in *.
  rewrite (events_since_app w w' (loading_banner :: evs)) by (by rewrite Htr, <- app_assoc).
  simpl. by rewrite Hlines.
Qed.

(** ** The runs of the compiler *)

Lemma spawns_refl w : spawns [] w w.
Proof. exists []. by rewrite app_nil_r. Qed.

Lemma spawns_trans l1 l2 w1 w2 w3 :
  spawns l1 w1 w2 -> spawns l2 w2 w3 -> spawns (l1 ++ l2) w1 w3.
Proof.
  intros (e1 & H1 & F1) (e2 & H2 & F2). exists (e1 ++ e2).
  by rewrite H2, H1, app_assoc, List.filter_app, F1, F2.
Qed.

Lemma spawns_quiet {A} (m : M A) w :
  preserves (grows_by (fun e => is_spawn e = false)) m -> spawns [] w (snd (m w)).
Proof.
  intros Hm. destruct (Hm w) as (evs & Htr & Hall). exists evs. split; [done|].
  clear Htr. induction Hall as [|e evs He _ IH]; simpl; [done|]. by rewrite He.
Qed.

Lemma spawns_log e w : is_spawn e = false -> spawns [] w (log e w).
Proof. intros He. exists [e]. simpl. by rewrite He. Qed.

(** A round of the build loop starts the compiler once, unless it ends
    before it gets there. *)
Lemma build_item_spawns config rc item w :
  spawns [spawn_of item] w (snd (build_item config rc item w)) \/
  (spawns [] w (snd (build_item config rc item w)) /\
   fst (build_item config rc item w) <> Ok tt).
Proof.
  destruct (build_item config rc item w) as [r w1] eqn:E. simpl.
  revert E. unfold build_item. unfold bind at 1, getitem at 1.
  destruct (dict_get "permalink" _) as [p|];
    [|intros ?; simplify_eq; right; split; [apply spawns_refl|done]].
  unfold bind at 1, print at 1. unfold bind at 1.
  unfold run_pdflatex, try_except_cpe, subprocess_run.
  fold (latexmk_argv (cd_tex_path item) OUTPUT_DIR). fold (spawn_of item).
  fold (compiling_message p). cbn [w_fs log].
  destruct (os_exec _ (w_fs w)) as [|code so se fs'].
  - intros ?; simplify_eq. right. split; [by apply spawns_log|done].
  - intros E. left. destruct (code =? 0)%Z.
    + match type of E with
      | ?m ?w2 = _ => pose proof (spawns_quiet m w2 ltac:(pres)) as H; rewrite E in H
      end.
      eapply (spawns_trans [spawn_of item] []); [|exact H].
      exists [compiling_message p; spawn_of item].
      split; [simpl; by rewrite <- app_assoc|done].
    + unfold bind, print, raise, log in E. simpl in E. simplify_eq.
      exists [compiling_message p; spawn_of item;
              EvPrint ("Error compiling " +:+ cd_tex_path item +:+ ".");
              EvPrint so; EvPrint se].
      split; [|done]. simpl. by rewrite <- !app_assoc.
Qed.

Lemma build_loop_spawns config rc items : forall w,
  exists n, n <= length items /\
    spawns (map spawn_of (take n items)) w
           (snd (for_each (build_item config rc) items w)) /\
    (fst (for_each (build_item config rc) items w) = Ok tt -> n = length items).
Proof.
  induction items as [|item items IH]; intros w; simpl.
  { exists 0. split; [done|]. split; [apply spawns_refl|done]. }
  unfold bind. pose proof (build_item_spawns config rc item w) as Hstep.
  destruct (build_item config rc item w) as [[[]|e] w1]; simpl in Hstep.
  - destruct Hstep as [Hone|[_ Hno]]; [|done].
    destruct (IH w1) as (n & Hn & Hsp & Hok). exists (S n). split; [lia|]. split.
    + apply (spawns_trans [spawn_of item] _ _ _ _ Hone Hsp).
    + intros H. by rewrite (Hok H).
  - destruct Hstep as [Hone|[Hnone _]].
    + exists 1. split; [lia|]. split; [exact Hone|done].
    + exists 0. split; [lia|]. by split.
Qed.

(** During production the compiler is started once for each item of the
    content list, in the order of the list, and for nothing else: a run
    that completes has started it for every item, a run that ends early
    for the items it got to. *)
Theorem compiler_runs_once_per_item
  (config : pyval) (rc : list content_data) (w : World) :
  exists n, n <= length rc /\
    List.filter is_spawn (events_since w (snd (main_produce config rc w)))
      = map spawn_of (take n rc) /\
    (fst (main_produce config rc w) = Ok tt -> n = length rc).
Proof.
  destruct (main_produce config rc w) as [r w'] eqn:E. simpl.
  revert E. unfold main_produce, build_pdfs. unfold bind at 1 2, print at 1.
  fold building_banner.
  destruct (build_loop_spawns config rc rc (log building_banner w)) as (n & Hn & Hsp & Hok).
  pose proof (spawns_trans [] _ _ _ _ (spawns_log building_banner w eq_refl) Hsp) as Hloop.
  simpl in Hloop.
  destruct (for_each _ rc _) as [[[]|e] w1]; simpl in *; intros E.
  - exists n. split; [done|]. split; [|intros _; by apply Hok].
    match type of E with
    | ?m ?w2 = _ =>
        pose proof (spawns_quiet m w2 ltac:(unfold build_website, copy_assets; pres)) as H;
        rewrite E in H; simpl in H
    end.
    destruct (spawns_trans _ _ _ _ _ Hloop H) as (evs & Htr & Hf).
    rewrite (events_since_app _ _ _ Htr), Hf. by rewrite app_nil_r.
  - simplify_eq. exists n. split; [done|]. split; [|done].
    destruct Hloop as (evs & Htr & Hf). by rewrite (events_since_app _ _ _ Htr), Hf.
Qed.

(** ** What the run leaves alone *)

(** Where a path can leave the way to the output directory: at the
    output directory itself, or above it. *)
Lemma output_way_split d c r :
  resolve' OUTPUT_DIR = d ++ c :: r ->
  (d = cwd /\ c = "output" /\ r = []) \/
  (exists r', r = r' ++ ["output"] /\ cwd = d ++ c :: r').
Proof.
  rewrite resolve_output. intros H. destruct r as [|y r' _] using rev_ind.
  - apply app_inj_tail in H as [-> ->]. by left.
  - right. exists r'. change (d ++ c :: r' ++ [y]) with (d ++ (c :: r') ++ [y]) in H.
    rewrite app_assoc in H. by apply app_inj_tail in H as [-> ->].
Qed.

Lemma outside_output_refl fs : outside_output fs fs.
Proof. done. Qed.

Lemma outside_output_trans fs1 fs2 fs3 :
  outside_output fs1 fs2 -> outside_output fs2 fs3 -> outside_output fs1 fs3.
Proof. intros H1 H2 d c r b q Hd Hb. by rewrite (H2 _ _ _ _ _ Hd Hb), (H1 _ _ _ _ _ Hd Hb). Qed.

Lemma modify_below_output g p fs fs' :
  fs_modify g (resolve' OUTPUT_DIR ++ p) fs = Some fs' -> outside_output fs fs'.
Proof.
  intros H d c r b q Hd Hb. rewrite Hd, <- app_assoc, <- app_comm_cons in H.
  eapply fs_modify_beside; [exact H|done].
Qed.

Lemma modify_output_entry g fs fs' :
  fs_modify g cwd fs = Some fs' ->
  (forall es es' b, g es = Some es' -> b <> "output" -> dict_get b es' = dict_get b es) ->
  outside_output fs fs'.
Proof.
  intros H Hg d c r b q Hd Hb.
  apply output_way_split in Hd as [(-> & -> & ->) | (r' & -> & Hcwd)].
  - eapply fs_modify_frame; [exact H|]. intros es es' Hes. by eapply Hg.
  - rewrite Hcwd in H. eapply fs_modify_beside; [exact H|done].
Qed.

#[local] Instance confined_preorder : PreOrder confined.
Proof.
  split.
  - intros w. split; [done|apply outside_output_refl].
  - intros x y z [H1 F1] [H2 F2]. split; [congruence|by eapply outside_output_trans].
Qed.

#[local] Instance confined_with_preorder h : PreOrder (confined_with h).
Proof.
  split.
  - intros w _. reflexivity.
  - intros x y z Hxy Hyz Hx. pose proof (Hxy Hx) as Hy.
    etrans; [exact Hy|]. apply Hyz. destruct Hy as [Hy _]. congruence.
Qed.

(** A step that changes neither the file system nor the store. *)
Lemma confined_quiet {A} (m : M A) :
  preserves same_fs m -> preserves same_heap m -> preserves confined m.
Proof.
  intros Hfs Hh w. split; [apply Hh|]. rewrite (Hfs w). apply outside_output_refl.
Qed.

Lemma confined_with_of {A} (m : M A) h : preserves confined m -> preserves (confined_with h) m.
Proof. intros Hm w _. apply Hm. Qed.

(** What is read from a record of the store [h] is what [h] holds. *)
Lemma confined_with_getitem {A} h r k (f : pyval -> M A) :
  (forall v, dict_get k (deref h r) = Some v -> preserves (confined_with h) (f v)) ->
  preserves (confined_with h) (bind (getitem r k) f).
Proof.
  intros Hf w Hw. unfold bind, getitem. rewrite Hw.
  destruct (dict_get k (deref h r)) as [v|]; [|reflexivity].
  by apply (Hf v eq_refl w).
Qed.

Lemma preserves_for_each_in {A} (R : World -> World -> Prop) `{!PreOrder R}
  (body : A -> M unit) l :
  (forall x, In x l -> preserves R (body x)) -> preserves R (for_each body l).
Proof.
  induction l as [|x l IH]; intros Hb; simpl; [by apply preserves_ret|].
  apply preserves_bind; [done|apply Hb; by left|].
  intros _. apply IH. intros y Hy. apply Hb. by right.
Qed.

(** *** Paths below the output directory *)

Lemma pdf_path_eq b : has_slash b = false -> pdf_path b = "output/" +:+ b +:+ ".pdf".
Proof.
  intros Hb. unfold pdf_path, path_join.
  rewrite startswith_slash by (by rewrite has_slash_app, Hb). reflexivity.
Qed.

Lemma in_output_plain n : plain_name n -> in_output (path_join OUTPUT_DIR n).
Proof.
  intros Hn. exists [], n. by rewrite app_nil_r, (resolve_in_output _ Hn), resolve_output.
Qed.

(** The place of a PDF that is moved into a directory named like a
    PDF is below the output directory as well. *)
Lemma in_output_nested b v :
  has_slash b = false -> has_slash v = false ->
  in_output (path_join (pdf_path v) (basename (pdf_path b))).
Proof.
  intros Hb Hv.
  assert (basename (pdf_path b) = b +:+ ".pdf") as ->.
  { rewrite (pdf_path_eq _ Hb). unfold basename. simpl.
    rewrite split_slash_plain by (by rewrite has_slash_app, Hb). reflexivity. }
  assert (path_join (pdf_path v) (b +:+ ".pdf") = (pdf_path v) +:+ "/" +:+ b +:+ ".pdf") as ->.
  { unfold path_join. rewrite startswith_slash by (by rewrite has_slash_app, Hb).
    rewrite (pdf_path_eq _ Hv).
    destruct (endswith ("output/" +:+ v +:+ ".pdf") "/") eqn:E.
    - apply endswith_inv in E as [pre E]. suffix_clash E.
    - reflexivity. }
  exists [v +:+ ".pdf"], (b +:+ ".pdf"). unfold resolve.
  rewrite split_slash_app_slash, (pdf_path_eq _ Hv). simpl.
  rewrite !split_slash_plain by (by rewrite has_slash_app, ?Hb, ?Hv).
  rewrite normalize_plain.
  - simpl. by rewrite <- !app_assoc.
  - constructor; [by apply plain_pdf|]. constructor; [by apply plain_pdf|]. constructor.
Qed.

(** *** The steps that write, one by one *)

Lemma rmtree_confined : preserves confined (shutil_rmtree OUTPUT_DIR).
Proof.
  intros w. unfold shutil_rmtree.
  destruct (locate cwd OUTPUT_DIR (w_fs w)) as [q| |] eqn:El; try reflexivity.
  apply locate_resolve in El as ->. rewrite resolve_output, split_last_snoc.
  destruct (fs_lookup _ _) as [[|es]|]; try reflexivity.
  destruct (fs_modify _ cwd (w_fs w)) as [fs'|] eqn:E; [|reflexivity].
  split; [done|]. simpl. eapply modify_output_entry; [exact E|].
  intros es0 es' b H Hb. simpl in H. simplify_eq. apply dict_get_remove_ne. by intros <-.
Qed.

Lemma append_output_entry x fs fs' :
  fs_modify (fun es => Some (es ++ [("output", x)])) cwd fs = Some fs' ->
  outside_output fs fs'.
Proof.
  intros H. eapply modify_output_entry; [exact H|].
  intros es0 es' b Hes Hb. simpl in Hes. simplify_eq.
  rewrite dict_get_app. destruct (dict_get b es0); [done|]. simpl.
  apply String.eqb_neq in Hb. by rewrite Hb.
Qed.

Lemma makedirs_confined : preserves confined (os_makedirs OUTPUT_DIR).
Proof.
  intros w. unfold os_makedirs.
  destruct (makedirs cwd OUTPUT_DIR [] (w_fs w)) as [[e|] fs'] eqn:E;
    apply (makedirs_plain_inv _ _ _ _ _ plain_output) in E; simpl in E.
  - subst. split; [done|]. apply outside_output_refl.
  - destruct E as (es & Hc & Hfree & Hmod & Hnew). split; [done|]. simpl.
    by eapply append_output_entry.
Qed.

Lemma write_confined p c : in_output p -> preserves confined (write_file p c).
Proof.
  intros (ps & n & Hp) w. unfold write_file.
  destruct (locate cwd p (w_fs w)) as [q| |] eqn:El; try reflexivity.
  apply locate_resolve in El as ->. rewrite Hp, split_last_snoc.
  destruct (fs_lookup _ _) as [[|]|]; try reflexivity;
    (destruct (fs_modify _ _ _) as [fs'|] eqn:E; [|reflexivity];
     split; [done|]; simpl; by eapply modify_below_output).
Qed.

Lemma rename_confined s d : in_output s -> in_output d -> preserves confined (os_rename s d).
Proof.
  intros (ps & n & Hs) (pd & m & Hd) w. unfold os_rename.
  destruct (locate cwd s (w_fs w)) as [qs| |] eqn:Es; try reflexivity.
  apply locate_resolve in Es as ->.
  destruct (fs_lookup (resolve' s) (w_fs w)) as [x|]; [|reflexivity].
  destruct (locate cwd d (w_fs w)) as [qd| |] eqn:Ed; try reflexivity.
  apply locate_resolve in Ed as ->.
  rewrite Hs, Hd, !split_last_snoc.
  repeat case_match; simpl; (split; [done|]); simpl;
    first [ apply outside_output_refl
          | eapply outside_output_trans; eapply modify_below_output; eauto ].
Qed.

Lemma move_confined b v :
  has_slash b = false -> has_slash v = false ->
  preserves confined (shutil_move (pdf_path b) (pdf_path v)).
Proof.
  intros Hb Hv w. unfold shutil_move.
  assert (in_output (pdf_path b)) as Hsrc by (by apply in_output_plain, plain_pdf).
  assert (in_output (pdf_path v)) as Hdst by (by apply in_output_plain, plain_pdf).
  pose proof (in_output_nested b v Hb Hv) as Hreal.
  repeat case_match; try reflexivity; by apply rename_confined.
Qed.

Lemma makedirs_assets_confined content fs r fs' :
  makedirs cwd (path_join OUTPUT_DIR ASSETS_DIR) content fs = (r, fs') ->
  outside_output fs fs'.
Proof.
  rewrite (makedirs_nested _ _ _ _ plain_output plain_assets). cbn zeta.
  assert (forall g fs0 fs1,
            fs_modify g (cwd ++ [OUTPUT_DIR]) fs0 = Some fs1 -> outside_output fs0 fs1)
    as Hbelow.
  { intros g fs0 fs1 H. apply (modify_below_output g []).
    by rewrite app_nil_r, resolve_output. }
  repeat case_match; intros ?; simplify_eq; try apply outside_output_refl;
    eauto using append_output_entry, outside_output_trans.
Qed.

Lemma copytree_confined :
  preserves confined (shutil_copytree ASSETS_DIR (path_join OUTPUT_DIR ASSETS_DIR)).
Proof.
  intros w. unfold shutil_copytree.
  repeat case_match; try reflexivity; (split; [done|]); simpl;
    by eapply makedirs_assets_confined.
Qed.

Lemma run_pdflatex_confined tex :
  compiler_confined -> preserves confined (run_pdflatex tex OUTPUT_DIR).
Proof.
  intros Hc. unfold run_pdflatex. apply preserves_try; [apply _| |].
  - intros w. unfold subprocess_run. fold (latexmk_argv tex OUTPUT_DIR).
    destruct (os_exec _ _) as [|rc so se fs'] eqn:E; [reflexivity|].
    destruct (rc =? 0)%Z; (split; [done|]); simpl; by eapply Hc.
  - intros rc cmd out err. apply confined_quiet; pres.
Qed.

(** Walk down a computation whose writes go below the output
    directory. *)
Ltac conf :=
  repeat first
    [ apply preserves_bind; [apply _ | | intros ? ]
    | apply preserves_ret; apply _
    | apply confined_quiet; [ solve [eauto with pres] | solve [eauto with pres] ]
    | apply write_confined, in_output_plain, plain_index
    | apply copytree_confined
    | apply rmtree_confined
    | apply makedirs_confined
    | case_match ].

Lemma main_init_confined : preserves confined main_init.
Proof. unfold main_init, load_config, setup_output. conf. Qed.

Lemma build_item_confined h config rc item :
  compiler_confined -> has_slash (permalink_name h item) = false ->
  preserves (confined_with h) (build_item config rc item).
Proof.
  intros Hc Hplain. unfold build_item.
  assert (forall v, dict_get "permalink" (deref h (cd_metadata item)) = Some v ->
                    has_slash (str v) = false) as Hv.
  { intros v E. unfold permalink_name, deref_permalink in Hplain. by rewrite E in Hplain. }
  apply confined_with_getitem; intros v E.
  apply preserves_bind; [apply _ | apply confined_with_of; conf | intros _].
  apply preserves_bind; [apply _ | by apply confined_with_of, run_pdflatex_confined | intros _].
  apply confined_with_getitem; intros v' E'.
  apply preserves_bind; [apply _ | | intros _].
  { apply confined_with_of, move_confined; [apply base_name_no_slash | by apply Hv]. }
  apply preserves_bind; [apply _ | apply confined_with_of; conf | intros _].
  apply preserves_bind; [apply _ | apply confined_with_of; conf | intros ctx].
  apply preserves_bind; [apply _ | apply confined_with_of; conf | intros html].
  apply confined_with_getitem; intros v'' E''.
  apply confined_with_of, write_confined, in_output_plain, plain_html. by apply Hv.
Qed.

Lemma main_produce_confined h config rc :
  compiler_confined ->
  Forall (fun item => has_slash (permalink_name h item) = false) rc ->
  preserves (confined_with h) (main_produce config rc).
Proof.
  intros Hc Hrc. unfold main_produce, build_pdfs.
  apply preserves_bind; [apply _ | | intros _].
  - apply preserves_bind; [apply _ | apply confined_with_of; conf | intros _].
    apply preserves_for_each_in; [apply _|]. intros item Hin.
    apply build_item_confined; [done|]. by apply (proj1 (List.Forall_forall _ _) Hrc).
  - apply confined_with_of. unfold build_website, copy_assets. conf.
Qed.

(** With a compiler that keeps to the output directory and permalinks
    that are plain file names, the run changes nothing outside the
    output directory, however it ends: the manifest, the submissions,
    the templates and the assets are as they were. *)
Theorem run_stays_in_output (w : World) :
  compiler_confined ->
  (forall config w1 rc w2,
     main_init w = (Ok config, w1) -> load_content config w1 = (Ok rc, w2) ->
     Forall (fun item => has_slash (permalink_name (w_heap w2) item) = false) rc) ->
  outside_output (w_fs w) (w_fs (snd (main w))).
Proof.
  intros Hc Hplain. unfold main, bind.
  pose proof (main_init_confined w) as [_ H1].
  destruct (main_init w) as [[config|e] w1] eqn:Hinit; simpl in *; [|done].
  pose proof (load_content_fs config w1) as H2. unfold same_fs in H2.
  destruct (load_content config w1) as [[rc|e] w2] eqn:Hload; simpl in *.
  - destruct (main_produce_confined (w_heap w2) config rc Hc
                (Hplain _ _ _ _ eq_refl Hload) w2 eq_refl) as [_ H3].
    eapply outside_output_trans; [exact H1|]. by rewrite <- H2.
  - by rewrite H2.
Qed.

(** ** Runs that end early *)

(** A run that ends while loading, for whatever reason, has emptied the
    output directory and put nothing into it. *)
Theorem failed_loading_leaves_output_empty
  (w w1 w2 : World) (config : pyval) (e : exn) :
  main_init w = (Ok config, w1) ->
  load_content config w1 = (Raise e, w2) ->
  main w = (Raise e, w2) /\
  fs_lookup (resolve' OUTPUT_DIR) (w_fs w2) = Some (Dir []).
Proof.
  intros Hinit Hload. split; [by eapply main_aborts_in_load|].
  pose proof (load_content_fs config w1) as Hfs. rewrite Hload in Hfs. simpl in Hfs.
  rewrite Hfs. by eapply main_init_output_empty.
Qed.

(** Renaming, or moving, a path at which nothing is. *)
Lemma rename_absent s d w :
  fs_stat cwd s (w_fs w) = Absent -> os_rename s d w = (Raise (FileNotFoundError s), w).
Proof.
  unfold fs_stat, os_rename. destruct (locate cwd s (w_fs w)) as [q| |]; try done.
  by destruct (fs_lookup q (w_fs w)).
Qed.

Lemma move_absent s d w :
  fs_stat cwd s (w_fs w) = Absent ->
  exists e,
    shutil_move s d w = (Raise e, w) /\
    ((forall es, fs_stat cwd d (w_fs w) <> Node (Dir es)) -> e = FileNotFoundError s).
Proof.
  intros Hs. unfold shutil_move.
  destruct (fs_stat cwd d (w_fs w)) as [[|es]| |] eqn:Hd;
    rewrite ?(rename_absent _ _ _ Hs); eauto.
  destruct (decide _).
  - eexists. split; [done|]. intros H. by destruct (H es).
  - destruct (fs_stat cwd (path_join _ _) _);
      eexists; (split; [reflexivity|]); intros H; by destruct (H es).
Qed.

(** The script counts on the compiler to leave [<base>.pdf] in the
    output directory.  After a run of the compiler that reports success
    and leaves no such file, the move raises and the round ends there:
    no page is rendered or written. *)
Lemma build_item_without_pdf config rc item w p so se fs' :
  deref_permalink (w_heap w) item = Some p ->
  os_exec (latexmk_argv (cd_tex_path item) OUTPUT_DIR) (w_fs w) = Exited 0 so se fs' ->
  fs_stat cwd (pdf_path (base_name (cd_tex_path item))) fs' = Absent ->
  exists e,
    build_item config rc item w =
      (Raise e, mkWorld fs' (w_heap w) (w_trace w ++ [compiling_message p; spawn_of item])) /\
    ((forall es, fs_stat cwd (pdf_path (str p)) fs' <> Node (Dir es)) ->
     e = FileNotFoundError (pdf_path (base_name (cd_tex_path item)))).
Proof.
  intros Hp Hexec Hpdf. unfold deref_permalink in Hp.
  unfold build_item. fold (base_name (cd_tex_path item)).
  unfold bind at 1, getitem at 1. rewrite Hp.
  unfold bind at 1, print at 1. unfold bind at 1.
  unfold run_pdflatex, try_except_cpe, subprocess_run.
  fold (latexmk_argv (cd_tex_path item) OUTPUT_DIR). cbn [w_fs log]. rewrite Hexec.
  cbn [Z.eqb]. cbv iota.
  unfold bind at 1, getitem at 1. cbn [w_heap log set_fs]. rewrite Hp.
  unfold bind at 1.
  match goal with
  | |- context [shutil_move ?s ?d ?w1] =>
      destruct (move_absent s d w1 Hpdf) as (e & -> & He)
  end.
  exists e. split; [|exact He].
  unfold compiling_message, spawn_of, log, set_fs.
  cbn [w_fs w_heap w_trace]. by rewrite <- app_assoc.
Qed.

(** When the compiler reports success and leaves no [<base>.pdf], the
    run ends in the round of that item, after the compiler run and
    before anything is moved, rendered or written; the error is that of
    the missing file, unless the place under the permalink is a
    directory. *)
Theorem missing_pdf_aborts_before_page
  (config : pyval) (rc pre post : list content_data) (item : content_data)
  (w w3 : World) (p : pyval) (so se : string) (fs' : node) :
  rc = pre ++ item :: post ->
  for_each (build_item config rc) pre (log building_banner w) = (Ok tt, w3) ->
  deref_permalink (w_heap w3) item = Some p ->
  os_exec (latexmk_argv (cd_tex_path item) OUTPUT_DIR) (w_fs w3) = Exited 0 so se fs' ->
  fs_stat cwd (pdf_path (base_name (cd_tex_path item))) fs' = Absent ->
  exists e,
    main_produce config rc w =
      (Raise e, mkWorld fs' (w_heap w3) (w_trace w3 ++ [compiling_message p; spawn_of item])) /\
    ((forall es, fs_stat cwd (pdf_path (str p)) fs' <> Node (Dir es)) ->
     e = FileNotFoundError (pdf_path (base_name (cd_tex_path item)))).
Proof.
  intros Hrc Hpre Hp Hexec Hpdf.
  destruct (build_item_without_pdf config rc item w3 p so se fs' Hp Hexec Hpdf)
    as (e & Hstep & He).
  exists e. split; [|done]. by eapply main_produce_aborts_in_build.
Qed.

Lemma quiet_no_spawn w w' :
  grows_by (fun e => is_artifact e = false) w w' -> spawns [] w w'.
Proof.
  intros (evs & Htr & Hall). exists evs. split; [done|]. clear Htr.
  induction Hall as [|e evs He _ IH]; simpl; [done|]. by destruct e.
Qed.

(** A release in which nothing was loaded, because the manifest lists
    no identifier or because every identifier was passed over, still
    completes when the index template renders the empty list and the
    assets path is not taken by a regular file: the compiler is never
    started, and the output directory holds the index page as rendered
    and the copy of the assets, if there are any. *)
Theorem release_without_items (w w1 w2 : World) (config : pyval) :
  main_init w = (Ok config, w1) ->
  load_content config w1 = (Ok [], w2) ->
  is_Some (jinja_render (w_fs w2) "release.html.j2" (index_ctx (w_heap w2) config [])) ->
  (forall text, fs_lookup (resolve' ASSETS_DIR) (w_fs w2) <> Some (File text)) ->
  exists w' idx,
    main w = (Ok tt, w') /\
    jinja_render (w_fs w2) "release.html.j2" (index_ctx (w_heap w2) config []) = Some idx /\
    fs_lookup (resolve' OUTPUT_DIR) (w_fs w')
      = Some (Dir ([("index.html", File idx)] ++
                   match fs_lookup (resolve' ASSETS_DIR) (w_fs w2) with
                   | Some assets => [(ASSETS_DIR, assets)]
                   | None => []
                   end)) /\
    List.filter is_spawn (events_since w w') = [].
Proof.
  intros Hinit Hload Hrender Hassets.
  assert (spawns [] w (snd (main w))) as (evs & Htr & Hquiet).
  { rewrite (main_reaches_produce _ _ _ _ _ Hinit Hload).
    pose proof (quiet_no_spawn _ _ (main_init_no_artifact w)) as H1.
    pose proof (quiet_no_spawn _ _ (load_content_no_artifact config w1)) as H2.
    rewrite Hinit in H1. rewrite Hload in H2.
    apply (spawns_trans [] [] _ _ _ (spawns_trans [] [] _ _ _ H1 H2)).
    apply spawns_quiet. unfold main_produce, build_pdfs, build_website, copy_assets.
    simpl for_each. pres. }
  rewrite (main_reaches_produce _ _ _ _ _ Hinit Hload) in *.
  pose proof (main_init_output_empty _ _ _ Hinit) as Hout.
  rewrite <- (load_content_fs config w1), Hload in Hout. simpl in Hout.
  destruct (build_website_ok config []
              (log (EvPrint (nl +:+ "Building master release volume PDF..."))
                 (log building_banner w2)) [] Hrender Hout)
    as (idx & w4 & Hweb & Hidx & Hout4 & _ & Hb4 & _); [done|].
  cbn [w_fs w_heap log] in Hidx, Hb4.
  assert (fs_lookup (resolve' ASSETS_DIR) (w_fs w4) = fs_lookup (resolve' ASSETS_DIR) (w_fs w2))
    as Hsame.
  { rewrite resolve_assets. by rewrite (Hb4 "assets" []). }
  assert (exists w',
            main_produce config [] w2 = (Ok tt, w') /\
            fs_lookup (resolve' OUTPUT_DIR) (w_fs w')
              = Some (Dir ([("index.html", File idx)] ++
                           match fs_lookup (resolve' ASSETS_DIR) (w_fs w2) with
                           | Some assets => [(ASSETS_DIR, assets)]
                           | None => []
                           end))) as (w' & Hmain & Hout').
  { unfold main_produce, build_pdfs. unfold bind at 1 2 3, print at 1 2. fold building_banner.
    simpl for_each. unfold ret. rewrite (bind_Ok _ _ _ _ _ Hweb).
    destruct (fs_lookup (resolve' ASSETS_DIR) (w_fs w2)) as [[text|assets]|] eqn:Ha.
    - by destruct (Hassets text).
    - destruct (copy_assets_present w4 assets _ Hsame Hout4 eq_refl)
        as (fs5 & Hcopy & Hout5 & _).
      rewrite (bind_Ok _ _ _ _ _ Hcopy). eexists. split; [done|exact Hout5].
    - rewrite (bind_Ok _ _ _ _ _ (copy_assets_absent w4 Hsame)).
      eexists. split; [done|exact Hout4]. }
  exists w', idx. rewrite Hmain in Htr. simpl in Htr.
  split; [done|]. split; [done|]. split; [done|]. by rewrite (events_since_app _ _ _ Htr).
Qed.

(** ** Two submissions, one permalink *)

Lemma dict_set_keys {V} k (v : V) d :
  is_Some (dict_get k d) -> map fst (dict_set k v d) = map fst d.
Proof.
  induction d as [|[k' v'] d IH]; simpl; [by intros [? ?]|].
  destruct (String.eqb_spec k k'); simpl; [by subst|]. intros H. by rewrite IH.
Qed.

(** A second submission under a permalink that is taken already: when
    the build loop comes to an item whose permalink (a name without a
    slash) has a PDF and a page in the output directory, the compiler
    run for the item succeeds and the page template renders, then no
    error is raised and no warning is made; the entries of the output
    directory with names of the script's are under the same names as
    before; the PDF under the permalink is now the one that the
    compiler has just left for this source, and the page the one that
    has just been rendered; the other entries with names of the
    script's are as they were.  The source may have the permalink for
    its base name; otherwise no PDF under its base name must be
    there. *)
Theorem shared_permalink_overwrites
  (config : pyval) (rc : list content_data) (item : content_data) (w : World)
  (v : pyval) (E : list (string * node)) (old_pdf old_page pdf page so se : string)
  (fs1 : node) :
  deref_permalink (w_heap w) item = Some v ->
  has_slash (str v) = false ->
  fs_lookup (resolve' OUTPUT_DIR) (w_fs w) = Some (Dir E) ->
  dict_get (str v +:+ ".pdf") E = Some (File old_pdf) ->
  dict_get (str v +:+ ".html") E = Some (File old_page) ->
  base_name (cd_tex_path item) = str v \/
    dict_get (base_name (cd_tex_path item) +:+ ".pdf") E = None ->
  compiled (cd_tex_path item) (w_fs w)
           (os_exec (latexmk_argv (cd_tex_path item) OUTPUT_DIR) (w_fs w)) ->
  os_exec (latexmk_argv (cd_tex_path item) OUTPUT_DIR) (w_fs w) = Exited 0 so se fs1 ->
  fs_lookup (resolve' (pdf_path (base_name (cd_tex_path item)))) fs1 = Some (File pdf) ->
  (forall fs, beside_output (w_fs w) fs ->
     jinja_render fs "paper.html.j2" (page_ctx (w_heap w) config rc item) = Some page) ->
  exists w' E',
    build_item config rc item w = (Ok tt, w') /\
    fs_lookup (resolve' OUTPUT_DIR) (w_fs w') = Some (Dir E') /\
    map fst (products E') = map fst (products E) /\
    dict_get (str v +:+ ".pdf") E' = Some (File pdf) /\
    dict_get (str v +:+ ".html") E' = Some (File page) /\
    (forall n, is_product n = true -> n <> str v +:+ ".pdf" -> n <> str v +:+ ".html" ->
               dict_get n E' = dict_get n E).
Proof.
  intros Hp Hplain Hout Hpdf Hhtml Hbase Hcomp Hexec Hleft Hpage.
  set (b := base_name (cd_tex_path item) +:+ ".pdf") in *.
  set (p := str v +:+ ".pdf") in *. set (h := str v +:+ ".html") in *.
  assert (is_product b = true /\ is_product p = true /\ is_product h = true)
    as (Hpb & Hpp & Hph)
    by (split_and!; [apply is_product_pdf..|apply is_product_html]).
  assert (p <> h) as Hne by (unfold p, h; intros H; suffix_clash H).
  assert (b <> h) as Hbh by (unfold b, h; intros H; suffix_clash H).
  destruct (build_item_run config rc item w v E)
    as (pdf0 & html0 & w' & E' & Hstep & Hout' & Hprod & _ & _ & _
        & (so0 & se0 & fs0 & Hexec0 & Hleft0) & (fs2 & Hb2 & Hrender0)); try done.
  { intros fs Hfs. rewrite (Hpage fs Hfs). eauto. }
  { intros es. fold p. by rewrite Hpdf. }
  { intros es. fold h. by rewrite Hhtml. }
  cbn zeta in Hprod. fold b p h in Hprod, Hleft0.
  assert (pdf0 = pdf) as ->.
  { rewrite Hexec in Hexec0. simplify_eq. unfold pdf_path in Hleft.
    rewrite resolve_in_output in Hleft by apply plain_pdf, base_name_no_slash.
    rewrite resolve_output in Hleft0. fold b in Hleft. congruence. }
  assert (html0 = page) as -> by (rewrite (Hpage fs2 Hb2) in Hrender0; congruence).
  set (P := if decide (b = p) then products E else dict_remove b (products E)) in *.
  assert (forall n, n <> b \/ b = p -> dict_get n P = dict_get n (products E)) as HP.
  { intros n Hn. unfold P. destruct (decide (b = p)) as [Hbp|Hbp]; [done|].
    destruct Hn as [Hn|Hn]; [|done]. by apply dict_get_remove_ne. }
  assert (map fst P = map fst (products E)) as HPnames.
  { unfold P. destruct (decide (b = p)) as [Hbp|Hbp]; [done|].
    destruct Hbase as [Hsame|Hfresh].
    - exfalso. apply Hbp. unfold b, p. by rewrite Hsame.
    - fold b in Hfresh. rewrite dict_remove_absent; [done|].
      by rewrite (dict_get_products _ _ Hpb). }
  assert (dict_get p P = Some (File old_pdf)) as HpP.
  { rewrite HP, (dict_get_products _ _ Hpp); [done|].
    destruct (decide (b = p)); [by right|left; congruence]. }
  assert (dict_get h P = Some (File old_page)) as HhP.
  { rewrite HP, (dict_get_products _ _ Hph); [done|]. left. congruence. }
  exists w', E'. split; [done|]. split; [done|]. split_and!.
  - rewrite Hprod, !dict_set_keys; [done|by eauto|].
    rewrite dict_get_set_ne by done. eauto.
  - rewrite <- (dict_get_products _ _ Hpp), Hprod.
    rewrite dict_get_set_ne by done. apply dict_get_set_eq.
  - rewrite <- (dict_get_products _ _ Hph), Hprod. apply dict_get_set_eq.
  - intros n Hn H1 H2. rewrite <- (dict_get_products _ _ Hn), Hprod.
    rewrite !dict_get_set_ne by done.
    destruct (decide (n = b)) as [->|Hnb].
    + destruct Hbase as [Hsame|Hfresh].
      * exfalso. apply H1. unfold b, p. by rewrite Hsame.
      * unfold P. destruct (decide (b = p)); [done|].
        rewrite dict_get_remove_eq. fold b in Hfresh. by rewrite Hfresh.
    + rewrite HP by (by left). by apply dict_get_products.
Qed.

(** ** What the templates are called with *)

#[local] Instance calling_preorder h config rc : PreOrder (calling h config rc).
Proof.
  split.
  - intros w Hw. split; [done|]. reflexivity.
  - intros x y z Hxy Hyz Hx. destruct (Hxy Hx) as [Hy G1]. destruct (Hyz Hy) as [Hz G2].
    split; [done|]. by etrans.
Qed.

Lemma calling_quiet {A} (m : M A) h config rc :
  preserves same_heap m ->
  preserves (grows_by (fun e => is_render e = false)) m ->
  preserves (calling h config rc) m.
Proof.
  intros Hh Hg w Hw. split; [by rewrite Hh|].
  destruct (Hg w) as (evs & Htr & Hall). exists evs. split; [done|].
  eapply Forall_impl; [exact Hall|]. by intros [].
Qed.

Lemma calling_render_item {A} h config rc item (k : string -> M A) :
  In item rc ->
  (forall html, preserves (calling h config rc) (k html)) ->
  preserves (calling h config rc)
    (ctx <- make_ctx config rc (Some item) ;; html <- render "paper.html.j2" ctx ;; k html).
Proof.
  intros Hin Hk w. unfold bind, make_ctx, render.
  assert (calling h config rc w
            (log (EvRender "paper.html.j2"
                    (mkCtx config (map (item_view (w_heap w)) rc)
                           (option_map (item_view (w_heap w)) (Some item)))) w)) as Hstep.
  { intros Hw. split; [done|]. eexists [_]. split; [done|].
    constructor; [|constructor]. simpl. split; [done|]. split; [by rewrite Hw|].
    left. split; [done|]. exists item. by rewrite Hw. }
  destruct (jinja_render _ _ _) as [html|]; simpl; [|exact Hstep].
  etrans; [exact Hstep|apply Hk].
Qed.

Lemma calling_render_index {A} h config rc (k : string -> M A) :
  (forall html, preserves (calling h config rc) (k html)) ->
  preserves (calling h config rc)
    (ctx <- make_ctx config rc None ;; html <- render "release.html.j2" ctx ;; k html).
Proof.
  intros Hk w. unfold bind, make_ctx, render.
  assert (calling h config rc w
            (log (EvRender "release.html.j2"
                    (mkCtx config (map (item_view (w_heap w)) rc)
                           (option_map (item_view (w_heap w)) None))) w)) as Hstep.
  { intros Hw. split; [done|]. eexists [_]. split; [done|].
    constructor; [|constructor]. simpl. split; [done|]. split; [by rewrite Hw|].
    by right. }
  destruct (jinja_render _ _ _) as [html|]; simpl; [|exact Hstep].
  etrans; [exact Hstep|apply Hk].
Qed.

Ltac calls Hin :=
  repeat first
    [ apply calling_render_index; intros ?
    | apply calling_render_item; [exact Hin | intros ?]
    | apply preserves_bind; [apply _ | | intros ? ]
    | apply preserves_ret; apply _
    | apply preserves_raise; apply _
    | apply preserves_try; [apply _ | | intros ? ? ? ? ]
    | apply calling_quiet; [ solve [eauto with pres] | solve [pres] ]
    | case_match ].

Lemma build_item_calling h config rc item :
  In item rc -> preserves (calling h config rc) (build_item config rc item).
Proof. intros Hin. unfold build_item, run_pdflatex. calls Hin. Qed.

Lemma main_produce_calling h config rc :
  preserves (calling h config rc) (main_produce config rc).
Proof.
  unfold main_produce, build_pdfs, build_website, copy_assets.
  apply preserves_bind; [apply _ | | intros _].
  - apply preserves_bind; [apply _ | apply calling_quiet; pres | intros _].
    apply preserves_for_each_in; [apply _|]. intros item Hin. by apply build_item_calling.
  - calls I.
Qed.

(** Every call of the template engine gets the manifest as the release
    and the whole content list with the records as loading left them;
    the page template gets an item of the list besides, the index
    template none; and no other template is rendered. *)
Theorem templates_get_release_list_and_item
  (config : pyval) (rc : list content_data) (w : World) :
  Forall (render_call (w_heap w) config rc)
         (events_since w (snd (main_produce config rc w))).
Proof.
  destruct (main_produce_calling (w_heap w) config rc w eq_refl) as (_ & evs & Htr & Hall).
  by rewrite (events_since_app _ _ _ Htr).
Qed.

(** ** Links and files *)

Lemma in_listing_of x ps : In x ps -> In (x +:+ ".pdf") (listing_names ps).
Proof.
  induction ps as [|p ps IH]; simpl; [done|].
  intros [->|H]; [by left|]. right. right. auto.
Qed.

(** In a run on submissions whose names do not collide, in which the
    compiler succeeds each time and the templates render, every PDF
    link that the loader has put into a record, and that the templates
    are given, names a file that the run has left in the output
    directory. *)
Theorem pdf_links_name_output_files
  (dc : pydict) (ids : list pyval) (w w1 w2 : World) (rc : list content_data) :
  main_init w = (Ok (PDict dc), w1) ->
  dict_get "content_ids" dc = Some (PList ids) ->
  load_content (PDict dc) w1 = (Ok rc, w2) ->
  compiler_succeeds (PDict dc) rc w2 -> templates_render (PDict dc) rc w2 ->
  NoDup (map (permalink_name (w_heap w2)) rc) ->
  (forall c, In c rc -> has_slash (permalink_name (w_heap w2) c) = false
                        /\ permalink_name (w_heap w2) c <> "index") ->
  (forall pre c post, rc = pre ++ c :: post ->
     ~ In (base_name (cd_tex_path c)) (map (permalink_name (w_heap w2)) pre)) ->
  (forall text, fs_lookup (resolve' ASSETS_DIR) (w_fs w2) <> Some (File text)) ->
  exists w' out,
    main w = (Ok tt, w') /\
    fs_lookup (resolve' OUTPUT_DIR) (w_fs w') = Some (Dir out) /\
    Forall (fun item =>
              exists link pdf,
                dict_get "pdf_link" (deref (w_heap w') (cd_metadata item)) = Some (PStr link) /\
                dict_get link out = Some (File pdf))
           rc.
Proof.
  intros Hinit Hids Hload Hcomp Hrender Hnd Hnames Hbase Hassets.
  destruct (release_built dc ids w w1 w2 rc)
    as (w' & out & L & idx & Hmain & Hout & Hprod & HL & Hfiles & Hh & _); try done.
  exists w', out. split; [done|]. split; [done|]. rewrite Hh.
  rewrite (load_content_ids _ _ _ Hids) in Hload.
  apply load_loop_spec in Hload as (new & evs & -> & _ & _ & _ & _ & _ & _ & Hall).
  simpl in *. apply Forall_forall. intros c Hc.
  assert (exists i, loaded_as (w_fs (log loading_banner w1)) (w_heap w2) evs
                      (length (w_heap w1)) c i) as (i & d & p & t & _ & Hp & _ & _ & Hd & _).
  { clear -Hall Hc. induction Hall as [|c' i' new l H _ IH]; [by apply elem_of_nil in Hc|].
    apply elem_of_cons in Hc as [->|Hc]; [by exists i'|by apply IH]. }
  assert (permalink_name (w_heap w2) c = str p) as Hname.
  { unfold permalink_name, deref_permalink. by rewrite Hd, enriched_other, Hp. }
  exists (str p +:+ ".pdf").
  destruct (dict_get_file (str p +:+ ".pdf") L) as [pdf Hpdf]; [|done|].
  { rewrite HL. apply in_listing_of. rewrite <- Hname. apply in_map.
    by apply list_elem_of_In. }
  exists pdf. split.
  - rewrite Hd. apply enriched_pdf_link.
  - rewrite <- (dict_get_products _ _ (is_product_pdf _)), Hprod.
    by rewrite dict_get_app, Hpdf.
Qed.

(** ** A template that fails *)

Lemma build_item_render_fails config rc item w v E :
  deref_permalink (w_heap w) item = Some v ->
  has_slash (str v) = false ->
  fs_lookup (resolve' OUTPUT_DIR) (w_fs w) = Some (Dir E) ->
  (forall es, dict_get (str v +:+ ".pdf") E <> Some (Dir es)) ->
  compiled (cd_tex_path item) (w_fs w)
           (os_exec (latexmk_argv (cd_tex_path item) OUTPUT_DIR) (w_fs w)) ->
  (forall fs, beside_output (w_fs w) fs ->
     jinja_render fs "paper.html.j2" (page_ctx (w_heap w) config rc item) = None) ->
  exists pdf w' E',
    build_item config rc item w = (Raise (TemplateError "paper.html.j2"), w') /\
    fs_lookup (resolve' OUTPUT_DIR) (w_fs w') = Some (Dir E') /\
    dict_get (str v +:+ ".pdf") E' = Some (File pdf) /\
    dict_get (str v +:+ ".html") E' = dict_get (str v +:+ ".html") E /\
    exists evs, w_trace w' = w_trace w ++ evs /\
                omap written_path evs = [pdf_path (str v)].
Proof.
  intros Hp Hplain Hout Hpfile Hcomp Hfail. unfold deref_permalink in Hp.
  set (b := base_name (cd_tex_path item) +:+ ".pdf") in *.
  set (p := str v +:+ ".pdf") in *. set (h := str v +:+ ".html") in *.
  assert (is_product b = true /\ is_product p = true /\ is_product h = true)
    as (Hpb & Hpp & Hph)
    by (split_and!; [apply is_product_pdf..|apply is_product_html]).
  assert (plain_name b /\ plain_name p) as (Hnb & Hnp).
  { split; [apply plain_pdf, base_name_no_slash|by apply plain_pdf]. }
  assert (h <> p) as Hhp by (unfold h, p; intros E0; suffix_clash E0).
  assert (h <> b) as Hhb by (unfold h, b; intros E0; suffix_clash E0).
  unfold build_item. fold (base_name (cd_tex_path item)).
  unfold bind at 1, getitem at 1. rewrite Hp.
  unfold bind at 1, print at 1.
  destruct (compile_in_output (log (compiling_message v) w) (cd_tex_path item) Hcomp)
    as (so & se & fs1 & E0 & E1 & pdf & Hexec & Hrun & Hout0 & Hout1 & Hprod1 & Hb1).
  cbn [w_fs log] in Hout0, Hexec, Hb1. rewrite Hout in Hout0.
  injection Hout0 as <-. fold b in Hprod1.
  unfold compiling_message in Hrun. unfold bind at 1. rewrite Hrun. clear Hrun.
  unfold bind at 1, getitem at 1. cbn [w_heap log set_fs]. rewrite Hp.
  set (w1 := log _ (set_fs fs1 _)).
  assert (dict_get b E1 = Some (File pdf)) as Hsrc.
  { rewrite <- (dict_get_products _ _ Hpb), Hprod1. apply dict_get_set_eq. }
  assert (forall es, dict_get p E1 <> Some (Dir es)) as Hdst.
  { intros es. rewrite <- (dict_get_products _ _ Hpp), Hprod1.
    destruct (decide (b = p)) as [Hbp|Hbp].
    - rewrite Hbp, dict_get_set_eq. done.
    - rewrite dict_get_set_ne by done. rewrite (dict_get_products _ _ Hpp).
      apply Hpfile. }
  destruct (move_in_output w1 E1 b p pdf Hnb Hnp Hout1 Hsrc Hdst)
    as (fs2 & Hmove & Hout2 & Hb2).
  unfold pdf_path. fold b p. unfold bind at 1. rewrite Hmove. clear Hmove.
  unfold bind at 1, print at 1. unfold bind at 1, make_ctx at 1.
  cbn [w_heap log set_fs option_map]. change (w_heap w1) with (w_heap w).
  fold (page_ctx (w_heap w) config rc item).
  unfold bind at 1, render at 1. cbn [w_fs log set_fs].
  assert (beside_output (w_fs w) fs2) as Hb12 by (by eapply beside_output_trans).
  rewrite (Hfail fs2 Hb12).
  set (E2 := if decide (b = p) then E1 else dict_set p (File pdf) (dict_remove b E1)) in *.
  assert (products E2
          = dict_set p (File pdf) (if decide (b = p) then products E else dict_remove b (products E)))
    as Hprod2.
  { subst E2. destruct (decide (b = p)) as [Hbp|Hbp].
    - rewrite Hprod1. by rewrite Hbp.
    - rewrite (products_set _ _ _ Hpp), products_remove, Hprod1.
      by rewrite dict_remove_set. }
  exists pdf. eexists. exists E2. split; [reflexivity|].
  cbn [w_fs w_heap w_trace log set_fs]. split; [exact Hout2|]. split_and!.
  - rewrite <- (dict_get_products _ _ Hpp), Hprod2. apply dict_get_set_eq.
  - rewrite <- (dict_get_products _ _ Hph), Hprod2, dict_get_set_ne by done.
    destruct (decide (b = p)).
    + apply dict_get_products, Hph.
    + rewrite dict_get_remove_ne by done. apply dict_get_products, Hph.
  - subst w1. cbn [w_trace log set_fs]. eexists.
    split; [rewrite <- !app_assoc; reflexivity|]. reflexivity.
Qed.

(** When the page template fails for an item for which the compiler
    succeeds (the permalink being a name without a slash, and no
    directory being in the way of its PDF), the run ends in the
    template's error after the PDF has been put under its permalink and
    before anything is written for the page: the PDF is there, the only
    path written to in the round is the PDF's, and under the name of
    the page is what was there before the round, which is nothing when
    the permalink is new. *)
Theorem page_template_failure_leaves_pdf
  (config : pyval) (rc pre post : list content_data) (item : content_data)
  (w w3 : World) (v : pyval) (E : list (string * node)) :
  rc = pre ++ item :: post ->
  for_each (build_item config rc) pre (log building_banner w) = (Ok tt, w3) ->
  deref_permalink (w_heap w3) item = Some v ->
  has_slash (str v) = false ->
  fs_lookup (resolve' OUTPUT_DIR) (w_fs w3) = Some (Dir E) ->
  (forall es, dict_get (str v +:+ ".pdf") E <> Some (Dir es)) ->
  compiled (cd_tex_path item) (w_fs w3)
           (os_exec (latexmk_argv (cd_tex_path item) OUTPUT_DIR) (w_fs w3)) ->
  (forall fs, beside_output (w_fs w3) fs ->
     jinja_render fs "paper.html.j2" (page_ctx (w_heap w3) config rc item) = None) ->
  exists pdf w' E',
    main_produce config rc w = (Raise (TemplateError "paper.html.j2"), w') /\
    fs_lookup (resolve' OUTPUT_DIR) (w_fs w') = Some (Dir E') /\
    dict_get (str v +:+ ".pdf") E' = Some (File pdf) /\
    dict_get (str v +:+ ".html") E' = dict_get (str v +:+ ".html") E /\
    omap written_path (events_since w3 w') = [pdf_path (str v)].
Proof.
  intros Hrc Hpre Hp Hplain Hout Hpfile Hcomp Hfail.
  destruct (build_item_render_fails config rc item w3 v E)
    as (pdf & w' & E' & Hstep & Hout' & Hpdf & Hhtml & evs & Htr & Hevs); try done.
  exists pdf, w', E'. split; [by eapply main_produce_aborts_in_build|].
  split_and!; try done. by rewrite (events_since_app _ _ _ Htr).
Qed.


(** ** The name of the PDF that is moved *)






(** ** Setting up the output directory twice *)

(** Setting up the output directory is idempotent: after a setup that
    went through, a second one goes through as well and leaves the file
    system as the first one left it. *)
Theorem setup_output_twice (w w1 : World) :
  setup_output w = (Ok tt, w1) ->
  setup_output w1
  = (Ok tt, log (EvMakedirs OUTPUT_DIR) (log (EvRmtree OUTPUT_DIR) w1)).
Proof.
  intros H. apply setup_output_inv in H as (es & Hc & Hfree).
  assert (dict_get OUTPUT_DIR (es ++ [(OUTPUT_DIR, Dir [])]) = Some (Dir [])) as Hout
    by (by apply dict_get_snoc).
  unfold setup_output, bind, os_path_exists.
  rewrite stat_output, (fs_lookup_entry _ _ _ _ Hc). unfold OUTPUT_DIR in Hout at 1.
  rewrite Hout.
  destruct (rmtree_entry OUTPUT_DIR w1 _ _ plain_output Hc Hout) as (fs' & -> & Hmod & Hnew).
  rewrite dict_remove_last in Hnew by done.
  destruct (makedirs_entry OUTPUT_DIR (log (EvRmtree OUTPUT_DIR) (set_fs fs' w1)) es
              plain_output Hnew Hfree) as (fs1 & -> & Hmod1 & _).
  cbn [w_fs log set_fs] in Hmod1.
  rewrite (fs_modify_modify _ _ _ _ _ Hmod) in Hmod1.
  rewrite (fs_modify_same _ _ _ _ Hc) in Hmod1
    by (simpl; by rewrite dict_remove_last).
  injection Hmod1 as <-. by destruct w1.
Qed.

End Script.

(** * The script at work on the fixture *)

Abbreviation fx_load_item :=
  (load_item Fixture.cwd Fixture.yaml_safe_load Fixture.py_repr).
Abbreviation fx_load_content :=
  (load_content Fixture.cwd Fixture.yaml_safe_load Fixture.py_repr).
Abbreviation fx_main :=
  (main Fixture.cwd Fixture.latexmk Fixture.yaml_safe_load Fixture.jinja_render
        Fixture.py_repr).
Abbreviation fx_main_noisy :=
  (main Fixture.cwd Fixture.noisy_latexmk Fixture.yaml_safe_load Fixture.jinja_render
        Fixture.py_repr).
Abbreviation fx_main_clean :=
  (main Fixture.cwd Fixture.clean_latexmk Fixture.yaml_safe_load Fixture.jinja_render
        Fixture.py_repr).

(** The manifest as parsed, the world after steps 1 and 2, and the world
    after loading. *)
Abbreviation fx_manifest ids :=
  [("release_volume", PStr "25.1"); ("content_ids", PList ids)].
Abbreviation fx_init w :=
  (snd (main_init Fixture.cwd Fixture.yaml_safe_load w)).
Abbreviation fx_loaded ids w :=
  (snd (fx_load_content (PDict (fx_manifest ids)) (fx_init w))).
Abbreviation fx_item r i :=
  (mkContent r ("submissions/" +:+ i +:+ "/paper.tex")).

(** The empty directory of submission 2 is passed over with a warning. *)
Lemma load_item_skips_incomplete_witness :
  fx_load_item [] (PStr "2") Fixture.empty_directory
  = (Ok [], log (EvPrint "Warning: Missing files in submission directory '2'. Skipping.")
                Fixture.empty_directory).
Proof.
  apply (load_item_skips_incomplete Fixture.cwd Fixture.yaml_safe_load Fixture.py_repr
           [] (PStr "2") [] Fixture.empty_directory []).
  - vm_compute. reflexivity.
  - left. vm_compute. reflexivity.
Defined.

(** With the second directory empty, only submission 1 is listed. *)
Lemma content_list_follows_manifest_witness :
  map (record_id (w_heap (fx_loaded [PStr "1"; PStr "2"] Fixture.empty_directory)))
      [fx_item 0 "1"]
  = map Some (List.filter
                (not_skipped Fixture.cwd Fixture.py_repr
                   (w_fs (fx_init Fixture.empty_directory)))
                [PStr "1"; PStr "2"]).
Proof.
  apply (content_list_follows_manifest Fixture.cwd Fixture.yaml_safe_load Fixture.py_repr
           (fx_manifest [PStr "1"; PStr "2"]) [PStr "1"; PStr "2"]
           (fx_init Fixture.empty_directory)).
  - vm_compute. reflexivity.
  - vm_compute. reflexivity.
Defined.

(** Without the directory of submission 2 the run ends in the error of
    the directory listing; with a regular file in its place, in the
    error of listing what is no directory. *)
Lemma missing_directory_aborts_witness :
  fst (fx_main Fixture.missing_directory) = Raise (FileNotFoundError "submissions/2") /\
  fst (fx_main Fixture.file_for_directory) = Raise (NotADirectoryError "submissions/2").
Proof.
  split.
  - pose proof (missing_directory_aborts Fixture.cwd Fixture.latexmk Fixture.yaml_safe_load
                  Fixture.jinja_render Fixture.py_repr
                  (fx_manifest [PStr "1"; PStr "2"]) [PStr "1"] [] (PStr "2")
                  Fixture.missing_directory (fx_init Fixture.missing_directory)
                  (fx_loaded [PStr "1"] Fixture.missing_directory)
                  [fx_item 0 "1"]) as H.
    cbn zeta in H. destruct H as (_ & H & _).
    + vm_compute. reflexivity.
    + vm_compute. reflexivity.
    + vm_compute. reflexivity.
    + intros es. vm_compute. discriminate.
    + rewrite H. vm_compute. reflexivity.
  - pose proof (missing_directory_aborts Fixture.cwd Fixture.latexmk Fixture.yaml_safe_load
                  Fixture.jinja_render Fixture.py_repr
                  (fx_manifest [PStr "1"; PStr "2"]) [PStr "1"] [] (PStr "2")
                  Fixture.file_for_directory (fx_init Fixture.file_for_directory)
                  (fx_loaded [PStr "1"] Fixture.file_for_directory)
                  [fx_item 0 "1"]) as H.
    cbn zeta in H. destruct H as (_ & H & _).
    + vm_compute. reflexivity.
    + vm_compute. reflexivity.
    + vm_compute. reflexivity.
    + intros es. vm_compute. discriminate.
    + rewrite H. vm_compute. reflexivity.
Defined.

(** A metadata file without permalink, and one without title, end the
    run in a key error. *)
Lemma missing_key_aborts_witness :
  (exists w', fx_main Fixture.no_permalink = (Raise (KeyError "permalink"), w')) /\
  (exists w', fx_main Fixture.no_title = (Raise (KeyError "title"), w')).
Proof.
  split.
  - eexists.
    refine (proj1
      (missing_key_aborts Fixture.cwd Fixture.latexmk Fixture.yaml_safe_load
         Fixture.jinja_render Fixture.py_repr
         (fx_manifest [PStr "1"; PStr "2"]) [PStr "1"] [] (PStr "2")
         Fixture.no_permalink (fx_init Fixture.no_permalink)
         (fx_loaded [PStr "1"] Fixture.no_permalink) [fx_item 0 "1"]
         [("paper.yml", File "-:title:Two"); ("paper.tex", File "y")]
         "paper.yml" "paper.tex" "-:title:Two" [("title", PStr "Two")]
         _ _ _ _ _ _ _ _) _); vm_compute; reflexivity.
  - eexists.
    refine (proj2
      (missing_key_aborts Fixture.cwd Fixture.latexmk Fixture.yaml_safe_load
         Fixture.jinja_render Fixture.py_repr
         (fx_manifest [PStr "1"; PStr "2"]) [PStr "1"] [] (PStr "2")
         Fixture.no_title (fx_init Fixture.no_title)
         (fx_loaded [PStr "1"] Fixture.no_title) [fx_item 0 "1"]
         [("paper.yml", File "-:permalink:b"); ("paper.tex", File "y")]
         "paper.yml" "paper.tex" "-:permalink:b" [("permalink", PStr "b")]
         _ _ _ _ _ _ _ _) (PStr "b") _ _); vm_compute; reflexivity.
Defined.

(** The source of submission 2 does not compile: the run ends in the
    compiler's error, after the page of submission 1 and before any
    page of submissions 2 and 3. *)
Lemma compiler_failure_aborts_witness :
  exists w',
    fx_main Fixture.broken_source
    = (Raise (CalledProcessError 1
                ["latexmk"; "-pdf"; "-output-directory=output"; "submissions/2/paper.tex"]
                "This is latexmk" "! Undefined control sequence."), w') /\
    List.filter is_artifact (w_trace w')
    = [EvSpawn ["latexmk"; "-pdf"; "-output-directory=output"; "submissions/1/paper.tex"];
       EvMove "output/paper.pdf" "output/a.pdf";
       EvWrite "output/a.html" "paper.html.j2:a.pdf,b.pdf,c.pdf";
       EvSpawn ["latexmk"; "-pdf"; "-output-directory=output"; "submissions/2/paper.tex"]].
Proof.
  pose (ids := [PStr "1"; PStr "2"; PStr "3"]).
  pose (rc := [fx_item 0 "1"; fx_item 1 "2"; fx_item 2 "3"]).
  pose (w3 := snd (for_each
                     (build_item Fixture.cwd Fixture.latexmk Fixture.jinja_render
                        Fixture.py_repr (PDict (fx_manifest ids)) rc)
                     [fx_item 0 "1"]
                     (log building_banner (fx_loaded ids Fixture.broken_source)))).
  refine (match compiler_failure_aborts Fixture.cwd Fixture.latexmk Fixture.yaml_safe_load
                  Fixture.jinja_render Fixture.py_repr
                  (fx_manifest ids) ids Fixture.broken_source
                  (fx_init Fixture.broken_source) (fx_loaded ids Fixture.broken_source) w3
                  rc [fx_item 0 "1"] [fx_item 2 "3"] (fx_item 1 "2")
                  1 "This is latexmk" "! Undefined control sequence." (w_fs w3)
                  _ _ _ _ _ _ _
          with ex_intro _ p (conj Hp Hmain) => _ end).
  - vm_compute. reflexivity.
  - vm_compute. reflexivity.
  - vm_compute. reflexivity.
  - reflexivity.
  - vm_compute. reflexivity.
  - vm_compute. reflexivity.
  - discriminate.
  - eexists. split; [exact Hmain|].
    assert (p = PStr "b") as -> by (vm_compute in Hp; congruence).
    vm_compute. reflexivity.
Defined.

(** Both loaded records of the fixture carry the two added fields, and
    nothing after loading has touched them. *)
Lemma metadata_enriched_once_at_load_witness :
  let ids := [PStr "1"; PStr "2"] in
  let rc := [fx_item 0 "1"; fx_item 1 "2"] in
  let w1 := fx_init Fixture.two_papers in
  let w2 := fx_loaded ids Fixture.two_papers in
  let w3 := snd (fx_main_clean Fixture.two_papers) in
  w_heap w3 = w_heap w2 /\
  Forall (renders_content (w_heap w2) rc) (events_since w2 w3) /\
  Forall2 (enriched_once Fixture.cwd Fixture.yaml_safe_load Fixture.py_repr
             (w_fs w1) (w_heap w3) (events_since Fixture.two_papers w3))
          rc (List.filter (not_skipped Fixture.cwd Fixture.py_repr (w_fs w1)) ids).
Proof.
  intros ids rc w1 w2.
  apply (metadata_enriched_once_at_load Fixture.cwd Fixture.clean_latexmk
           Fixture.yaml_safe_load Fixture.jinja_render Fixture.py_repr
           (fx_manifest ids) ids Fixture.two_papers w1 w2 rc).
  - vm_compute. reflexivity.
  - vm_compute. reflexivity.
  - vm_compute. reflexivity.
Defined.

(** The output directory that an earlier run has left, with a stale
    PDF in it, is deleted and made anew, empty, and nothing else is
    done in steps 1 and 2. *)
Lemma output_directory_recreated_empty_witness :
  fs_lookup (resolve Fixture.cwd OUTPUT_DIR) (w_fs Fixture.two_papers)
    = Some (Dir [("stale.pdf", File "old")]) /\
  exists w1,
    main_init Fixture.cwd Fixture.yaml_safe_load Fixture.two_papers
      = (Ok (PDict (fx_manifest [PStr "1"; PStr "2"])), w1) /\
    fs_lookup (resolve Fixture.cwd OUTPUT_DIR) (w_fs w1) = Some (Dir []) /\
    w_heap w1 = w_heap Fixture.two_papers /\
    events_since Fixture.two_papers w1
    = [starting_banner; EvRmtree OUTPUT_DIR; EvMakedirs OUTPUT_DIR].
Proof.
  split; [vm_compute; reflexivity|].
  refine (proj2 (output_directory_recreated_empty Fixture.cwd Fixture.latexmk
                   Fixture.yaml_safe_load Fixture.jinja_render Fixture.py_repr
                   Fixture.two_papers)
                (PDict (fx_manifest [PStr "1"; PStr "2"]))
                (log starting_banner Fixture.two_papers) _ _).
  - vm_compute. reflexivity.
  - intros c. vm_compute. discriminate.
Defined.

(** Without an assets directory the step changes nothing; with one, the
    directory appears in the output directory. *)
Lemma copy_assets_copies_or_skips_witness :
  copy_assets Fixture.cwd Fixture.empty_directory = (Ok tt, Fixture.empty_directory) /\
  exists fs',
    copy_assets Fixture.cwd Fixture.two_papers
      = (Ok tt, log copied_assets (set_fs fs' Fixture.two_papers)) /\
    fs_lookup (resolve Fixture.cwd OUTPUT_DIR) fs'
      = Some (Dir ([("stale.pdf", File "old")]
                   ++ [(ASSETS_DIR, Dir [("style.css", File "body{}")])])) /\
    fs_lookup (resolve Fixture.cwd ASSETS_DIR) fs'
      = Some (Dir [("style.css", File "body{}")]).
Proof.
  split.
  - apply (proj1 (copy_assets_copies_or_skips Fixture.cwd Fixture.empty_directory)).
    vm_compute. reflexivity.
  - apply (proj2 (copy_assets_copies_or_skips Fixture.cwd Fixture.two_papers)
             [("style.css", File "body{}")] [("stale.pdf", File "old")]).
    + vm_compute. reflexivity.
    + vm_compute. reflexivity.
    + vm_compute. reflexivity.
Defined.

(** The fixture's compilers succeed wherever the output directory is
    there: the plain one when no directory is in the way of its PDF,
    the one with by-products when the source can be read. *)
Lemma clean_latexmk_compiled tex fs E :
  fs_lookup (resolve Fixture.cwd OUTPUT_DIR) fs = Some (Dir E) ->
  (forall es, dict_get (base_name tex +:+ ".pdf") E <> Some (Dir es)) ->
  compiled Fixture.cwd tex fs (Fixture.clean_latexmk (latexmk_argv tex OUTPUT_DIR) fs).
Proof.
  intros Hout Hfile.
  assert (put_file (base_name tex +:+ ".pdf") "%PDF" E
          = Some (dict_set (base_name tex +:+ ".pdf") (File "%PDF") E)) as Hput.
  { unfold put_file. destruct (dict_get _ E) as [[|es]|] eqn:He; try done.
    by destruct (Hfile es). }
  destruct (fs_modify_ok _ _ _ _ _ Hout Hput) as (fs' & Hmod & Hnew).
  exists "", "", fs', E, (dict_set (base_name tex +:+ ".pdf") (File "%PDF") E), "%PDF".
  split_and!; try done.
  - unfold Fixture.clean_latexmk, latexmk_argv. by rewrite Hmod.
  - apply products_set, is_product_pdf.
  - by eapply modify_output_beside.
Qed.

Lemma noisy_latexmk_compiled tex fs src E :
  fs_stat Fixture.cwd tex fs = Node (File src) ->
  fs_lookup (resolve Fixture.cwd OUTPUT_DIR) fs = Some (Dir E) ->
  compiled Fixture.cwd tex fs (Fixture.noisy_latexmk (latexmk_argv tex OUTPUT_DIR) fs).
Proof.
  intros Hsrc Hout.
  set (g := fun es : list (string * node) =>
              Some (dict_set (base_name tex +:+ ".pdf") (File ("%PDF " +:+ src))
                      (dict_set (base_name tex +:+ ".log") (File "log")
                         (dict_set (base_name tex +:+ ".aux") (File "aux") es)))).
  destruct (fs_modify_ok g _ _ _ _ Hout eq_refl) as (fs' & Hmod & Hnew).
  exists "", "", fs', E. eexists. exists ("%PDF " +:+ src).
  split_and!; [|exact Hout|exact Hnew| |by eapply modify_output_beside].
  - unfold Fixture.noisy_latexmk, latexmk_argv. rewrite Hsrc. fold g. by rewrite Hmod.
  - rewrite products_set by apply is_product_pdf.
    rewrite !products_set_other by (apply by_product_name; auto). done.
Qed.

Lemma fixture_renders fs name ctx : is_Some (Fixture.jinja_render fs name ctx).
Proof. by eexists. Qed.

Lemma fixture_templates_render config rc w :
  templates_render Fixture.cwd Fixture.jinja_render config rc w.
Proof. split; [intros item _|]; intros fs _; apply fixture_renders. Qed.

(** C4 as stated fails: two complete submissions with the permalink
    [paper] leave one PDF file and one item page, not two of each,
    though the compiler succeeds both times and the templates
    render. *)
Lemma shared_permalink_counterexample :
  ~ inventory_claim Fixture.cwd Fixture.clean_latexmk Fixture.yaml_safe_load
      Fixture.jinja_render Fixture.py_repr.
Proof.
  intros Hclaim.
  pose (ids := [PStr "1"; PStr "2"]).
  refine (match Hclaim (fx_manifest ids) ids Fixture.same_permalink
                       (fx_init Fixture.same_permalink)
                       (fx_loaded ids Fixture.same_permalink)
                       [fx_item 0 "1"; fx_item 1 "2"] _ _ _ _ _
                       (fixture_templates_render _ _ _)
          with ex_intro _ w' (ex_intro _ out (conj Hmain (conj Hout (conj Hpdf _)))) => _
          end).
  - vm_compute. reflexivity.
  - vm_compute. reflexivity.
  - vm_compute. reflexivity.
  - reflexivity.
  - intros [|c0 [|c1 [|c2 pre]]] item post w3 Hrc; simpl in Hrc; simplify_eq; intros Hpre.
    + vm_compute in Hpre. injection Hpre as <-.
      apply (clean_latexmk_compiled _ _ []); [vm_compute; reflexivity|].
      intros es. vm_compute. discriminate.
    + vm_compute in Hpre. injection Hpre as <-.
      apply (clean_latexmk_compiled _ _
               [("paper.pdf", File "%PDF");
                ("paper.html", File "paper.html.j2:paper.pdf,paper.pdf")]);
        [vm_compute; reflexivity|].
      intros es. vm_compute. discriminate.
  - assert (w' = snd (fx_main_clean Fixture.same_permalink)) as ->
      by (rewrite Hmain; reflexivity).
    vm_compute in Hout. injection Hout as <-. vm_compute in Hpdf. discriminate Hpdf.
Qed.

(** Two complete submissions with different permalinks and an assets
    directory, and a compiler that leaves a log and an auxiliary file
    beside each PDF: two PDF files, two item pages, one index page, and
    the copy of the assets; and these are what the script has
    written. *)
Lemma clean_release_inventory_witness :
  exists w' out,
    fx_main_noisy Fixture.two_papers = (Ok tt, w') /\
    fs_lookup (resolve Fixture.cwd OUTPUT_DIR) (w_fs w') = Some (Dir out) /\
    inventory 2 out /\
    dir_entries (products out) = [(ASSETS_DIR, Dir [("style.css", File "body{}")])] /\
    omap written_path (events_since (fx_loaded [PStr "1"; PStr "2"] Fixture.two_papers) w')
    = ["output/paper-one.pdf"; "output/paper-one.html";
       "output/paper-two.pdf"; "output/paper-two.html";
       "output/index.html"; "output/assets"].
Proof.
  pose (ids := [PStr "1"; PStr "2"]).
  pose (rc := [fx_item 0 "1"; fx_item 1 "2"]).
  pose (w2 := fx_loaded ids Fixture.two_papers).
  assert (fs_lookup (resolve Fixture.cwd ASSETS_DIR) (w_fs w2)
          = Some (Dir [("style.css", File "body{}")])) as Hassets
    by (vm_compute; reflexivity).
  refine (match clean_release_inventory Fixture.cwd Fixture.noisy_latexmk
                  Fixture.yaml_safe_load Fixture.jinja_render Fixture.py_repr
                  (fx_manifest ids) ids Fixture.two_papers
                  (fx_init Fixture.two_papers) w2 rc
                  _ _ _ _ _ (fixture_templates_render _ _ _) _ _ _ _
          with ex_intro _ w' (ex_intro _ out
                 (conj Hmain (conj Hout (conj Hinv (conj Hdirs Hown))))) =>
                 ex_intro _ w' (ex_intro _ out
                   (conj Hmain (conj Hout (conj Hinv (conj _ _)))))
          end).
  - vm_compute. reflexivity.
  - vm_compute. reflexivity.
  - vm_compute. reflexivity.
  - reflexivity.
  - intros [|c0 [|c1 [|c2 pre]]] item post w3 Hrc; unfold rc in Hrc; simpl in Hrc;
      simplify_eq; intros Hpre.
    + vm_compute in Hpre. injection Hpre as <-.
      apply (noisy_latexmk_compiled _ _ "x" []); vm_compute; reflexivity.
    + vm_compute in Hpre. injection Hpre as <-.
      apply (noisy_latexmk_compiled _ _ "y"
               [("paper.aux", File "aux"); ("paper.log", File "log");
                ("paper-one.pdf", File "%PDF x");
                ("paper-one.html", File "paper.html.j2:paper-one.pdf,paper-two.pdf")]);
        vm_compute; reflexivity.
  - vm_compute. apply NoDup_ListNoDup. repeat constructor; simpl; intuition discriminate.
  - intros c [<-|[<-|[]]]; vm_compute; split; (reflexivity || discriminate).
  - intros [|c0 [|c1 [|c2 pre]]] c post E; unfold rc in E; simpl in E; simplify_eq;
      vm_compute; intuition discriminate.
  - intros text. rewrite Hassets. discriminate.
  - rewrite Hassets in Hdirs. exact Hdirs.
  - rewrite Hassets in Hown. exact Hown.
Defined.

(** The compiler is started once for each submission. *)
Example one_spawn_per_submission :
  List.filter is_spawn (w_trace (snd (fx_main_clean Fixture.two_papers)))
  = [EvSpawn ["latexmk"; "-pdf"; "-output-directory=output"; "submissions/1/paper.tex"];
     EvSpawn ["latexmk"; "-pdf"; "-output-directory=output"; "submissions/2/paper.tex"]].
Proof. vm_compute. reflexivity. Qed.

(** An identifier that leads out of a submissions directory that is not
    there is not passed over: listing its directory raises. *)
Example identifier_through_missing_directory :
  fx_load_item [] (PStr "../output") Fixture.no_manifest
  = (Raise (FileNotFoundError "submissions/../output"), Fixture.no_manifest).
Proof. vm_compute. reflexivity. Qed.

(** The scenario of two identifiers of which the second has an empty
    directory: a warning for 2, and the output directory holds the PDF
    and the page of submission 1 and the index, the stale file being
    gone. *)
Example empty_directory_scenario :
  let w' := snd (fx_main_clean Fixture.empty_directory) in
  fst (fx_main_clean Fixture.empty_directory) = Ok tt /\
  In (EvPrint "Warning: Missing files in submission directory '2'. Skipping.") (w_trace w') /\
  fs_lookup (resolve Fixture.cwd OUTPUT_DIR) (w_fs w')
  = Some (Dir [("paper-one.pdf", File "%PDF");
               ("paper-one.html", File "paper.html.j2:paper-one.pdf");
               ("index.html", File "release.html.j2:paper-one.pdf")]).
Proof. vm_compute. intuition. Qed.

(** * The further properties at work on the fixture *)

(** Without a manifest, and with one that does not parse, the run ends
    with the stale output still in place. *)
Lemma manifest_failure_keeps_previous_output_witness :
  fx_main Fixture.no_manifest
    = (Raise (FileNotFoundError CONFIG_FILE), log starting_banner Fixture.no_manifest) /\
  fx_main Fixture.bad_manifest
    = (Raise YAMLError, log starting_banner Fixture.bad_manifest).
Proof.
  split.
  - apply (proj1 (manifest_failure_keeps_previous_output Fixture.cwd Fixture.latexmk
                    Fixture.yaml_safe_load Fixture.jinja_render Fixture.py_repr
                    Fixture.no_manifest)).
    vm_compute. reflexivity.
  - apply (proj2 (manifest_failure_keeps_previous_output Fixture.cwd Fixture.latexmk
                    Fixture.yaml_safe_load Fixture.jinja_render Fixture.py_repr
                    Fixture.bad_manifest) "a:b:c").
    + vm_compute. reflexivity.
    + vm_compute. reflexivity.
Defined.

(** A manifest with a volume and no identifiers: a key error, with the
    output directory emptied. *)
Lemma manifest_without_identifiers_aborts_witness :
  fx_main Fixture.manifest_without_ids
    = (Raise (KeyError "content_ids"),
       log loading_banner (fx_init Fixture.manifest_without_ids)) /\
  fs_lookup (resolve Fixture.cwd OUTPUT_DIR) (w_fs (fx_init Fixture.manifest_without_ids))
    = Some (Dir []).
Proof.
  apply (manifest_without_identifiers_aborts Fixture.cwd Fixture.latexmk
           Fixture.yaml_safe_load Fixture.jinja_render Fixture.py_repr
           Fixture.manifest_without_ids (fx_init Fixture.manifest_without_ids)
           (PDict [("release_volume", PStr "25.1")])).
  - vm_compute. reflexivity.
  - vm_compute. reflexivity.
Defined.

(** A file named [output] stops the run and stays. *)
Lemma output_path_taken_by_a_file_witness :
  fx_main Fixture.output_is_a_file
    = (Raise (NotADirectoryError OUTPUT_DIR), log starting_banner Fixture.output_is_a_file).
Proof.
  apply (output_path_taken_by_a_file Fixture.cwd Fixture.latexmk
           Fixture.yaml_safe_load Fixture.jinja_render Fixture.py_repr
           Fixture.output_is_a_file (log starting_banner Fixture.output_is_a_file)
           (PDict (fx_manifest [PStr "1"])) "notes").
  - vm_compute. reflexivity.
  - vm_compute. reflexivity.
Defined.

(** An assets file, and an assets entry in the output directory. *)
Lemma copy_assets_failures_witness :
  copy_assets Fixture.cwd Fixture.assets_is_a_file
    = (Raise (NotADirectoryError ASSETS_DIR), Fixture.assets_is_a_file) /\
  copy_assets Fixture.cwd Fixture.assets_in_the_way
    = (Raise (FileExistsError (path_join OUTPUT_DIR ASSETS_DIR)), Fixture.assets_in_the_way).
Proof.
  split.
  - apply (proj1 (copy_assets_failures Fixture.cwd Fixture.assets_is_a_file) "style").
    vm_compute. reflexivity.
  - apply (proj2 (copy_assets_failures Fixture.cwd Fixture.assets_in_the_way)
             [("style.css", File "body{}")] (Dir [])).
    + vm_compute. reflexivity.
    + vm_compute. reflexivity.
Defined.


(** On the fixture with an empty second directory the loader prints its
    first line, the title of submission 1 and the warning for 2. *)
Lemma loader_prints_one_line_per_identifier_witness :
  map Some (List.filter is_print
              (events_since (fx_init Fixture.empty_directory)
                 (fx_loaded [PStr "1"; PStr "2"] Fixture.empty_directory)))
  = [Some loading_banner; Some (EvPrint "  - Loaded 'One'");
     Some (EvPrint "Warning: Missing files in submission directory '2'. Skipping.")].
Proof.
  refine (eq_trans
    (loader_prints_one_line_per_identifier Fixture.cwd Fixture.yaml_safe_load Fixture.py_repr
       (fx_manifest [PStr "1"; PStr "2"]) [PStr "1"; PStr "2"]
       (fx_init Fixture.empty_directory)
       (fx_loaded [PStr "1"; PStr "2"] Fixture.empty_directory)
       [fx_item 0 "1"] _ _) _).
  - vm_compute. reflexivity.
  - vm_compute. reflexivity.
  - vm_compute. reflexivity.
Defined.

Lemma clean_latexmk_is_confined : compiler_confined Fixture.cwd Fixture.clean_latexmk.
Proof.
  intros tex fs rc so se fs' H. unfold Fixture.clean_latexmk, latexmk_argv in H.
  destruct (fs_modify _ _ fs) as [fs1|] eqn:E; simplify_eq.
  - eapply (modify_below_output Fixture.cwd _ [] fs fs'). rewrite app_nil_r. exact E.
  - apply outside_output_refl.
Qed.

(** The run on two complete submissions leaves everything outside the
    output directory as it was. *)
Lemma run_stays_in_output_witness :
  outside_output Fixture.cwd (w_fs Fixture.two_papers)
    (w_fs (snd (fx_main_clean Fixture.two_papers))).
Proof.
  apply (run_stays_in_output Fixture.cwd Fixture.clean_latexmk Fixture.yaml_safe_load
           Fixture.jinja_render Fixture.py_repr Fixture.two_papers
           clean_latexmk_is_confined).
  intros config w1 rc w2 H1 H2.
  vm_compute in H1. injection H1 as <- <-.
  vm_compute in H2. injection H2 as <- <-.
  vm_compute. repeat constructor.
Defined.


(** Without the directory of submission 2 the run ends with an empty
    output directory: the stale file of the earlier run is gone. *)
Lemma failed_loading_leaves_output_empty_witness :
  fx_main Fixture.missing_directory
    = (Raise (FileNotFoundError "submissions/2"),
       fx_loaded [PStr "1"; PStr "2"] Fixture.missing_directory) /\
  fs_lookup (resolve Fixture.cwd OUTPUT_DIR)
    (w_fs (fx_loaded [PStr "1"; PStr "2"] Fixture.missing_directory)) = Some (Dir []).
Proof.
  apply (failed_loading_leaves_output_empty Fixture.cwd Fixture.latexmk
           Fixture.yaml_safe_load Fixture.jinja_render Fixture.py_repr
           Fixture.missing_directory (fx_init Fixture.missing_directory)
           (fx_loaded [PStr "1"; PStr "2"] Fixture.missing_directory)
           (PDict (fx_manifest [PStr "1"; PStr "2"]))
           (FileNotFoundError "submissions/2")).
  - vm_compute. reflexivity.
  - vm_compute. reflexivity.
Defined.

(** With a compiler that writes nothing the run ends at the first move. *)
Lemma missing_pdf_aborts_before_page_witness :
  exists w',
    main_produce Fixture.cwd Fixture.silent_latexmk Fixture.jinja_render Fixture.py_repr
      (PDict (fx_manifest [PStr "1"; PStr "2"])) [fx_item 0 "1"; fx_item 1 "2"]
      (fx_loaded [PStr "1"; PStr "2"] Fixture.two_papers)
    = (Raise (FileNotFoundError "output/paper.pdf"), w').
Proof.
  pose (ids := [PStr "1"; PStr "2"]).
  pose (w := fx_loaded ids Fixture.two_papers).
  refine (match missing_pdf_aborts_before_page Fixture.cwd Fixture.silent_latexmk
                  Fixture.jinja_render Fixture.py_repr
                  (PDict (fx_manifest ids)) [fx_item 0 "1"; fx_item 1 "2"]
                  [] [fx_item 1 "2"] (fx_item 0 "1") w (log building_banner w)
                  (PStr "paper-one") "" "" (w_fs w) _ _ _ _ _
          with ex_intro _ e (conj Hmain He) => _ end).
  - reflexivity.
  - reflexivity.
  - vm_compute. reflexivity.
  - reflexivity.
  - vm_compute. reflexivity.
  - rewrite He in Hmain.
    + eexists. exact Hmain.
    + intros es. vm_compute. discriminate.
Defined.

(** A manifest whose only identifier has no files yet: an index page
    and the assets, and no run of the compiler. *)
Lemma release_without_items_witness :
  exists w' idx,
    fx_main_clean Fixture.no_papers = (Ok tt, w') /\
    fs_lookup (resolve Fixture.cwd OUTPUT_DIR) (w_fs w')
      = Some (Dir [("index.html", File idx);
                   (ASSETS_DIR, Dir [("style.css", File "body{}")])]) /\
    List.filter is_spawn (events_since Fixture.no_papers w') = [].
Proof.
  pose (w2 := fx_loaded [PStr ""] Fixture.no_papers).
  assert (fs_lookup (resolve Fixture.cwd ASSETS_DIR) (w_fs w2)
          = Some (Dir [("style.css", File "body{}")])) as Hassets
    by (vm_compute; reflexivity).
  refine (match release_without_items Fixture.cwd Fixture.clean_latexmk
                  Fixture.yaml_safe_load Fixture.jinja_render Fixture.py_repr
                  Fixture.no_papers (fx_init Fixture.no_papers) w2
                  (PDict (fx_manifest [PStr ""])) _ _ (fixture_renders _ _ _) _
          with ex_intro _ w' (ex_intro _ idx (conj Hmain (conj _ (conj Hout Hquiet)))) =>
                 ex_intro _ w' (ex_intro _ idx (conj Hmain (conj _ Hquiet)))
          end).
  - vm_compute. reflexivity.
  - vm_compute. reflexivity.
  - intros text. rewrite Hassets. discriminate.
  - rewrite Hassets in Hout. exact Hout.
Defined.

(** The second submission of the fixture with one permalink writes over
    the PDF and the page of the first. *)
Lemma shared_permalink_overwrites_witness :
  let ids := [PStr "1"; PStr "2"] in
  let rc := [fx_item 0 "1"; fx_item 1 "2"] in
  let build := build_item Fixture.cwd Fixture.latexmk Fixture.jinja_render
                 Fixture.py_repr (PDict (fx_manifest ids)) rc in
  let w := snd (for_each build [fx_item 0 "1"]
                  (log building_banner (fx_loaded ids Fixture.same_permalink))) in
  fs_lookup (resolve Fixture.cwd OUTPUT_DIR) (w_fs w)
    = Some (Dir [("paper.pdf", File "%PDF x");
                 ("paper.html", File "paper.html.j2:paper.pdf,paper.pdf")]) /\
  exists w' E',
    build (fx_item 1 "2") w = (Ok tt, w') /\
    fs_lookup (resolve Fixture.cwd OUTPUT_DIR) (w_fs w') = Some (Dir E') /\
    map fst (products E') = ["paper.pdf"; "paper.html"] /\
    dict_get "paper.pdf" E' = Some (File "%PDF y") /\
    dict_get "paper.html" E' = Some (File "paper.html.j2:paper.pdf,paper.pdf").
Proof.
  intros ids rc build w.
  pose (E := [("paper.pdf", File "%PDF x");
              ("paper.html", File "paper.html.j2:paper.pdf,paper.pdf")]).
  pose (fs1 := match Fixture.latexmk (latexmk_argv "submissions/2/paper.tex" OUTPUT_DIR)
                       (w_fs w) with
               | Exited _ _ _ fs' => fs'
               | NotFound => w_fs w
               end).
  assert (fs_lookup (resolve Fixture.cwd OUTPUT_DIR) (w_fs w) = Some (Dir E)) as Hout
    by (vm_compute; reflexivity).
  split; [exact Hout|].
  refine (match shared_permalink_overwrites Fixture.cwd Fixture.latexmk
                  Fixture.jinja_render Fixture.py_repr
                  (PDict (fx_manifest ids)) rc (fx_item 1 "2") w (PStr "paper") E
                  "%PDF x" "paper.html.j2:paper.pdf,paper.pdf"
                  "%PDF y" "paper.html.j2:paper.pdf,paper.pdf" "" "" fs1
                  _ _ Hout _ _ _ _ _ _ _
          with ex_intro _ w' (ex_intro _ E'
                 (conj Hstep (conj Hout' (conj Hkeys (conj Hpdf (conj Hpage _)))))) =>
                 ex_intro _ w' (ex_intro _ E'
                   (conj Hstep (conj Hout' (conj Hkeys (conj Hpdf Hpage)))))
          end).
  - vm_compute. reflexivity.
  - reflexivity.
  - reflexivity.
  - reflexivity.
  - left. vm_compute. reflexivity.
  - exists "", "", fs1, E,
      [("paper.pdf", File "%PDF y");
       ("paper.html", File "paper.html.j2:paper.pdf,paper.pdf")], "%PDF y".
    split_and!.
    + vm_compute. reflexivity.
    + exact Hout.
    + vm_compute. reflexivity.
    + vm_compute. reflexivity.
    + apply (modify_output_beside Fixture.cwd (put_file "paper.pdf" "%PDF y")).
      vm_compute. reflexivity.
  - vm_compute. reflexivity.
  - vm_compute. reflexivity.
  - intros fs _. vm_compute. reflexivity.
Defined.

(** On two complete submissions both PDF links name files of the
    output directory. *)
Lemma pdf_links_name_output_files_witness :
  exists w' out,
    fx_main_clean Fixture.two_papers = (Ok tt, w') /\
    fs_lookup (resolve Fixture.cwd OUTPUT_DIR) (w_fs w') = Some (Dir out) /\
    Forall (fun item =>
              exists link pdf,
                dict_get "pdf_link" (deref (w_heap w') (cd_metadata item)) = Some (PStr link) /\
                dict_get link out = Some (File pdf))
           [fx_item 0 "1"; fx_item 1 "2"].
Proof.
  pose (ids := [PStr "1"; PStr "2"]).
  pose (rc := [fx_item 0 "1"; fx_item 1 "2"]).
  pose (w2 := fx_loaded ids Fixture.two_papers).
  apply (pdf_links_name_output_files Fixture.cwd Fixture.clean_latexmk
           Fixture.yaml_safe_load Fixture.jinja_render Fixture.py_repr
           (fx_manifest ids) ids Fixture.two_papers (fx_init Fixture.two_papers) w2 rc).
  - vm_compute. reflexivity.
  - vm_compute. reflexivity.
  - vm_compute. reflexivity.
  - intros [|c0 [|c1 [|c2 pre]]] item post w3 Hrc; unfold rc in Hrc; simpl in Hrc;
      simplify_eq; intros Hpre.
    + vm_compute in Hpre. injection Hpre as <-.
      apply (clean_latexmk_compiled _ _ []); [vm_compute; reflexivity|].
      intros es. vm_compute. discriminate.
    + vm_compute in Hpre. injection Hpre as <-.
      apply (clean_latexmk_compiled _ _
               [("paper-one.pdf", File "%PDF");
                ("paper-one.html", File "paper.html.j2:paper-one.pdf,paper-two.pdf")]);
        [vm_compute; reflexivity|].
      intros es. vm_compute. discriminate.
  - apply fixture_templates_render.
  - vm_compute. apply NoDup_ListNoDup. repeat constructor; simpl; intuition discriminate.
  - intros c [<-|[<-|[]]]; vm_compute; split; (reflexivity || discriminate).
  - intros [|c0 [|c1 [|c2 pre]]] c post E; unfold rc in E; simpl in E; simplify_eq;
      vm_compute; intuition discriminate.
  - intros text. vm_compute. discriminate.
Defined.

(** Without the page template the run ends with the first PDF under its
    permalink and no page for it. *)
Lemma page_template_failure_leaves_pdf_witness :
  let w := fx_loaded [PStr "1"; PStr "2"] Fixture.two_papers in
  exists pdf w' E',
    main_produce Fixture.cwd Fixture.clean_latexmk Fixture.no_page_template Fixture.py_repr
      (PDict (fx_manifest [PStr "1"; PStr "2"])) [fx_item 0 "1"; fx_item 1 "2"] w
    = (Raise (TemplateError "paper.html.j2"), w') /\
    fs_lookup (resolve Fixture.cwd OUTPUT_DIR) (w_fs w') = Some (Dir E') /\
    dict_get "paper-one.pdf" E' = Some (File pdf) /\
    dict_get "paper-one.html" E' = None /\
    omap written_path (events_since (log building_banner w) w') = ["output/paper-one.pdf"].
Proof.
  intros w. pose (ids := [PStr "1"; PStr "2"]).
  apply (page_template_failure_leaves_pdf Fixture.cwd Fixture.clean_latexmk
           Fixture.no_page_template Fixture.py_repr
           (PDict (fx_manifest ids)) [fx_item 0 "1"; fx_item 1 "2"]
           [] [fx_item 1 "2"] (fx_item 0 "1") w (log building_banner w) (PStr "paper-one") []).
  - reflexivity.
  - reflexivity.
  - vm_compute. reflexivity.
  - reflexivity.
  - vm_compute. reflexivity.
  - intros es. discriminate.
  - apply (clean_latexmk_compiled _ _ []); [vm_compute; reflexivity|].
    intros es. discriminate.
  - intros fs _. reflexivity.
Defined.




(** The output directory of the fixture, set up a second time. *)
Lemma setup_output_twice_witness :
  let w1 := snd (setup_output Fixture.cwd Fixture.two_papers) in
  setup_output Fixture.cwd w1
  = (Ok tt, log (EvMakedirs OUTPUT_DIR) (log (EvRmtree OUTPUT_DIR) w1)).
Proof.
  intros w1.
  apply (setup_output_twice Fixture.cwd Fixture.two_papers w1).
  vm_compute. reflexivity.
Defined.
